(** * The tracker object debugger of the multi object tracker

    A shallow embedding of
    [perception/autoware_multi_object_tracker/src/debugger/debug_object.cpp]:
    the per-cycle collection of association facts ([collect]), their grouping
    by tracker identity ([process]), the synthesis of the visualization
    markers ([draw], [getMessage]) and the life cycle ([reset]).

    Conventions of the embedding:
    - a [double] is a primitive binary64 float of the kernel, with the IEEE 754
      operations of [PrimFloat];
    - an [int] is a [Z]; a [std::string] is a [string];
    - a [std::vector] is a [list], [push_back] appends at the end;
    - a [std::unordered_map<int, int>] is a [gmap Z Z];
    - an exception or an access with undefined behaviour ends the computation
      with [Fail]; the members of the debugger are threaded explicitly. *)

From Stdlib Require Import ZArith NArith String Ascii Floats Lia.
From stdpp Require Import base option list gmap sorting pretty strings.

Set Warnings "-inexact-float".

Open Scope Z_scope.

(** ** Failures *)

Inductive Failure : Type :=
| std_out_of_range        (* thrown by [std::vector::at] *)
| std_runtime_error       (* thrown by [boost::uuids::string_generator] *)
| undefined_behaviour.    (* unchecked access outside a container *)

Inductive Result (A : Type) : Type :=
| Ok (a : A)
| Fail (e : Failure).
Arguments Ok {A} a.
Arguments Fail {A} e.

Definition bind {A B : Type} (m : Result A) (k : A -> Result B) : Result B :=
  match m with
  | Ok a => k a
  | Fail e => Fail e
  end.

Notation "'let*' x ':=' m 'in' k" := (bind m (fun x => k))
  (at level 10, x name, m at level 100, k at level 200).

(** [v.at(i)] with an [int] index: the index is converted to [size_t], so a
    negative one is out of range as well. *)
Definition vector_at {A : Type} (v : list A) (i : Z) : Result A :=
  match (if 0 <=? i then v !! Z.to_nat i else None) with
  | Some a => Ok a
  | None => Fail std_out_of_range
  end.

(** [v[i]]: unchecked. *)
Definition vector_index {A : Type} (v : list A) (i : nat) : Result A :=
  match v !! i with
  | Some a => Ok a
  | None => Fail undefined_behaviour
  end.

(** ** Numbers and strings *)

Definition INT_MIN : Z := - 2 ^ 31.
Definition INT_MAX : Z := 2 ^ 31 - 1.

(** The integer part of a float, towards zero; [None] for NaN and infinities. *)
Definition truncate (f : float) : option Z :=
  match Prim2SF f with
  | S754_zero _ => Some 0
  | S754_finite s m e =>
      let a := if 0 <=? e then Z.shiftl (Z.pos m) e else Z.shiftr (Z.pos m) (- e) in
      Some (if s then - a else a)
  | S754_infinity _ | S754_nan => None
  end.

(** [static_cast<int>(f)]. Outside the range of [int] the conversion is not
    defined by the language; the value of the x86-64 conversion instruction
    (the "integer indefinite" [INT_MIN]) is taken there. *)
Definition static_cast_int (f : float) : Z :=
  match truncate f with
  | Some n => if (INT_MIN <=? n) && (n <=? INT_MAX) then n else INT_MIN
  | None => INT_MIN
  end.

(** [std::to_string(int)] *)
Definition to_string (n : Z) : string := pretty n.

Definition newline : string := String (ascii_of_nat 10) EmptyString.

(** [s.pop_back()] on a non-empty string; the caller checks [!s.empty()]. *)
Fixpoint pop_back (s : string) : string :=
  match s with
  | EmptyString => EmptyString
  | String c EmptyString => EmptyString
  | String c s' => String c (pop_back s')
  end.

Definition empty (s : string) : bool :=
  match s with
  | EmptyString => true
  | String _ _ => false
  end.

(** [s.substr(0, n)] *)
Definition substr0 (n : nat) (s : string) : string := String.substring 0 n s.

(** ** Identities *)

(** [unique_identifier_msgs::msg::UUID]: 16 bytes, here the 128-bit number
    they spell, most significant byte first. *)
Definition UUID : Type := N.

(** [boost::uuids::uuid]: the same 16 bytes. Its [operator<] compares the
    bytes lexicographically, which is the order of the numbers. *)
Definition boost_uuid : Type := N.

Definition uuid_byte (u : UUID) (i : nat) : N :=
  N.land (N.shiftr u (8 * N.of_nat (15 - i))) 255.

Definition hex_digit (d : N) : ascii :=
  match String.get (N.to_nat d) "0123456789abcdef" with
  | Some c => c
  | None => "?"%char
  end.

Definition hex_value (c : ascii) : option N :=
  let n := N_of_ascii c in
  if (48 <=? n)%N && (n <=? 57)%N then Some (n - 48)%N
  else if (97 <=? n)%N && (n <=? 102)%N then Some (n - 87)%N
  else if (65 <=? n)%N && (n <=? 70)%N then Some (n - 55)%N
  else None.

(** [ss << std::hex << std::setfill('0') << std::setw(2) << +uuid_msg.uuid[i]]
    for [i] from 0 to 15. *)
Definition uuidToString (uuid_msg : UUID) : string :=
  fold_right
    (fun i ss =>
       let b := uuid_byte uuid_msg i in
       String (hex_digit (b / 16)) (String (hex_digit (b mod 16)) ss))
    EmptyString (seq 0 16).

(** [boost::uuids::string_generator] on a string of hexadecimal digits
    without dashes. *)
Fixpoint string_generator_go (s : string) (acc : N) : Result boost_uuid :=
  match s with
  | EmptyString => Ok acc
  | String c s' =>
      match hex_value c with
      | Some d => string_generator_go s' (16 * acc + d)%N
      | None => Fail std_runtime_error
      end
  end.

Definition string_generator (s : string) : Result boost_uuid :=
  if Nat.eqb (String.length s) 32 then string_generator_go s 0%N
  else Fail std_runtime_error.

Definition uuidToBoostUuid (uuid_msg : UUID) : Result boost_uuid :=
  let uuid_str := uuidToString uuid_msg in
  string_generator uuid_str.

(** ** Messages *)

(** [rclcpp::Time] and [rclcpp::Duration], in nanoseconds. *)
Definition Time : Type := Z.
Definition Duration : Type := Z.

(** [rclcpp::Duration::from_seconds] *)
Definition from_seconds (seconds : float) : Duration :=
  match truncate (seconds * 1000000000)%float with
  | Some n => n
  | None => 0
  end.

Module geometry_msgs.
Record Point : Type := { x : float; y : float; z : float }.
Record Vector3 : Type := { vx : float; vy : float; vz : float }.
End geometry_msgs.

Module std_msgs.
Record ColorRGBA : Type := { r : float; g : float; b : float; a : float }.
End std_msgs.

Module visualization_msgs.
(** The constants of [visualization_msgs/msg/Marker] the debugger uses. *)
Inductive MarkerType : Type := ARROW | LINE_LIST | CUBE_LIST | TEXT_VIEW_FACING.
Inductive MarkerAction : Type := ADD | DELETE.

Record Marker : Type := {
  header_frame_id : string;
  header_stamp : Time;
  ns : string;
  id : Z;
  type : MarkerType;
  action : MarkerAction;
  pose_position : geometry_msgs.Point;
  scale : geometry_msgs.Vector3;
  color : std_msgs.ColorRGBA;
  lifetime : Duration;
  points : list geometry_msgs.Point;
  text : string
}.

(** A default-constructed marker. *)
Definition Marker_default : Marker := {|
  header_frame_id := EmptyString; header_stamp := 0; ns := EmptyString;
  id := 0; type := ARROW; action := ADD;
  pose_position := {| geometry_msgs.x := 0; geometry_msgs.y := 0; geometry_msgs.z := 0 |};
  scale := {| geometry_msgs.vx := 0; geometry_msgs.vy := 0; geometry_msgs.vz := 0 |};
  color := {| std_msgs.r := 0; std_msgs.g := 0; std_msgs.b := 0; std_msgs.a := 0 |};
  lifetime := 0; points := []; text := EmptyString |}.

Definition set_header (m : Marker) (f : string) (t : Time) : Marker :=
  {| header_frame_id := f; header_stamp := t; ns := ns m; id := id m;
     type := type m; action := action m; pose_position := pose_position m;
     scale := scale m; color := color m; lifetime := lifetime m;
     points := points m; text := text m |}.
Definition set_ns (m : Marker) (s : string) : Marker :=
  {| header_frame_id := header_frame_id m; header_stamp := header_stamp m;
     ns := s; id := id m; type := type m; action := action m;
     pose_position := pose_position m; scale := scale m; color := color m;
     lifetime := lifetime m; points := points m; text := text m |}.
Definition set_id (m : Marker) (i : Z) : Marker :=
  {| header_frame_id := header_frame_id m; header_stamp := header_stamp m;
     ns := ns m; id := i; type := type m; action := action m;
     pose_position := pose_position m; scale := scale m; color := color m;
     lifetime := lifetime m; points := points m; text := text m |}.
Definition set_type (m : Marker) (t : MarkerType) : Marker :=
  {| header_frame_id := header_frame_id m; header_stamp := header_stamp m;
     ns := ns m; id := id m; type := t; action := action m;
     pose_position := pose_position m; scale := scale m; color := color m;
     lifetime := lifetime m; points := points m; text := text m |}.
Definition set_action (m : Marker) (a : MarkerAction) : Marker :=
  {| header_frame_id := header_frame_id m; header_stamp := header_stamp m;
     ns := ns m; id := id m; type := type m; action := a;
     pose_position := pose_position m; scale := scale m; color := color m;
     lifetime := lifetime m; points := points m; text := text m |}.
Definition set_pose_position (m : Marker) (p : geometry_msgs.Point) : Marker :=
  {| header_frame_id := header_frame_id m; header_stamp := header_stamp m;
     ns := ns m; id := id m; type := type m; action := action m;
     pose_position := p; scale := scale m; color := color m;
     lifetime := lifetime m; points := points m; text := text m |}.
Definition set_scale (m : Marker) (s : geometry_msgs.Vector3) : Marker :=
  {| header_frame_id := header_frame_id m; header_stamp := header_stamp m;
     ns := ns m; id := id m; type := type m; action := action m;
     pose_position := pose_position m; scale := s; color := color m;
     lifetime := lifetime m; points := points m; text := text m |}.
Definition set_color (m : Marker) (c : std_msgs.ColorRGBA) : Marker :=
  {| header_frame_id := header_frame_id m; header_stamp := header_stamp m;
     ns := ns m; id := id m; type := type m; action := action m;
     pose_position := pose_position m; scale := scale m; color := c;
     lifetime := lifetime m; points := points m; text := text m |}.
Definition set_lifetime (m : Marker) (d : Duration) : Marker :=
  {| header_frame_id := header_frame_id m; header_stamp := header_stamp m;
     ns := ns m; id := id m; type := type m; action := action m;
     pose_position := pose_position m; scale := scale m; color := color m;
     lifetime := d; points := points m; text := text m |}.
Definition set_points (m : Marker) (ps : list geometry_msgs.Point) : Marker :=
  {| header_frame_id := header_frame_id m; header_stamp := header_stamp m;
     ns := ns m; id := id m; type := type m; action := action m;
     pose_position := pose_position m; scale := scale m; color := color m;
     lifetime := lifetime m; points := ps; text := text m |}.
Definition set_text (m : Marker) (s : string) : Marker :=
  {| header_frame_id := header_frame_id m; header_stamp := header_stamp m;
     ns := ns m; id := id m; type := type m; action := action m;
     pose_position := pose_position m; scale := scale m; color := color m;
     lifetime := lifetime m; points := points m; text := s |}.

(** [m.points.push_back(p)] *)
Definition points_push_back (m : Marker) (p : geometry_msgs.Point) : Marker :=
  set_points m (points m ++ [p]).
End visualization_msgs.

Import visualization_msgs.

(** [visualization_msgs::msg::MarkerArray] *)
Definition MarkerArray : Type := list Marker.

(** ** The collaborators of the debugger *)

Module types.
(** [types::InputChannel]: the fields the debugger reads. *)
Record InputChannel : Type := { index : Z; short_name : string }.

(** [types::DynamicObject]: identity and position. *)
Record DynamicObject : Type := {
  uuid : UUID;
  pose_position : geometry_msgs.Point
}.

(** [types::DynamicObjectList] *)
Record DynamicObjectList : Type := {
  channel_index : Z;
  objects : list DynamicObject
}.
End types.

(** [Tracker]: what [collect] asks of a tracker. [getTrackedObject] is the
    object the tracker writes for the given time. *)
Record Tracker : Type := {
  getTrackedObject : Time -> types.DynamicObject;
  getUuidString : string;
  getExistenceProbabilityVector : list float;
  getTotalExistenceProbability : float
}.

(** ** The debugger *)

(** [ObjectData] *)
Record ObjectData : Type := {
  time : Time;
  uuid : boost_uuid;
  uuid_str : string;
  channel_id : Z;
  tracker_point : geometry_msgs.Point;
  detection_point : geometry_msgs.Point;
  is_associated : bool;
  existence_vector : list float;
  total_existence_probability : float
}.

(** The members of [TrackerObjectDebugger]. *)
Record TrackerObjectDebugger : Type := {
  frame_id_ : string;
  channels_config_ : list types.InputChannel;
  is_initialized_ : bool;
  message_time_ : Time;
  object_data_list_ : list ObjectData;
  object_data_groups_ : list (list ObjectData);
  markers_ : MarkerArray
}.

(** Modelled from the spec: the initial value of [is_initialized_], which the
    constructor leaves to the member's declaration in [debug_object.hpp]; the
    debugger is not initialized before the first [collect]. The list and the
    groups start empty, as vectors do. *)
Definition TrackerObjectDebugger_new
    (frame_id : string) (channels_config : list types.InputChannel)
  : TrackerObjectDebugger :=
  {| frame_id_ := frame_id;
     channels_config_ := channels_config;
     is_initialized_ := false;
     message_time_ := 0;
     object_data_list_ := [];
     object_data_groups_ := [];
     markers_ := [] |}.

(** [TrackerObjectDebugger::reset]: clear markers, object data list. *)
Definition reset (this : TrackerObjectDebugger) : TrackerObjectDebugger :=
  {| frame_id_ := frame_id_ this;
     channels_config_ := channels_config_ this;
     is_initialized_ := is_initialized_ this;
     message_time_ := message_time_ this;
     object_data_list_ := [];
     object_data_groups_ := object_data_groups_ this;
     markers_ := [] |}.

(** The body of the loop of [collect], for the tracker at [tracker_idx]. *)
Definition collect_object_data
    (message_time : Time) (detected_objects : types.DynamicObjectList)
    (direct_assignment : gmap Z Z) (tracker_idx : Z) (tracker : Tracker)
  : Result ObjectData :=
  let tracked_object := getTrackedObject tracker message_time in
  let* object_uuid := uuidToBoostUuid (types.uuid tracked_object) in
  (* tracker *)
  let tracker_point :=
    {| geometry_msgs.x := geometry_msgs.x (types.pose_position tracked_object);
       geometry_msgs.y := geometry_msgs.y (types.pose_position tracked_object);
       geometry_msgs.z := geometry_msgs.z (types.pose_position tracked_object) |} in
  (* associated detection *)
  let* association :=
    match direct_assignment !! tracker_idx with
    | Some detection_idx =>
        let* associated_object :=
          vector_at (types.objects detected_objects) detection_idx in
        Ok ({| geometry_msgs.x := geometry_msgs.x (types.pose_position associated_object);
               geometry_msgs.y := geometry_msgs.y (types.pose_position associated_object);
               geometry_msgs.z := geometry_msgs.z (types.pose_position associated_object) |},
            true)
    | None =>
        (* no detection *)
        Ok ({| geometry_msgs.x := geometry_msgs.x tracker_point;
               geometry_msgs.y := geometry_msgs.y tracker_point;
               geometry_msgs.z := geometry_msgs.z tracker_point |},
            false)
    end in
  Ok {| time := message_time;
        uuid := object_uuid;
        uuid_str := getUuidString tracker;
        channel_id := types.channel_index detected_objects;
        tracker_point := tracker_point;
        detection_point := fst association;
        is_associated := snd association;
        (* existence probabilities *)
        existence_vector := getExistenceProbabilityVector tracker;
        total_existence_probability := getTotalExistenceProbability tracker |}.

(** The loop of [collect] over the trackers, from index [tracker_idx] on;
    every record is pushed at the back of the list. *)
Fixpoint collect_loop
    (message_time : Time) (detected_objects : types.DynamicObjectList)
    (direct_assignment : gmap Z Z) (tracker_idx : Z)
    (list_tracker : list Tracker) (object_data_list : list ObjectData)
  : Result (list ObjectData) :=
  match list_tracker with
  | [] => Ok object_data_list
  | tracker :: rest =>
      let* object_data :=
        collect_object_data message_time detected_objects direct_assignment
          tracker_idx tracker in
      collect_loop message_time detected_objects direct_assignment
        (tracker_idx + 1) rest (object_data_list ++ [object_data])
  end.

(** [TrackerObjectDebugger::collect] *)
Definition collect
    (message_time : Time) (list_tracker : list Tracker)
    (detected_objects : types.DynamicObjectList)
    (direct_assignment : gmap Z Z) (this : TrackerObjectDebugger)
  : Result TrackerObjectDebugger :=
  let* object_data_list :=
    collect_loop message_time detected_objects direct_assignment 0
      list_tracker (object_data_list_ this) in
  Ok {| frame_id_ := frame_id_ this;
        channels_config_ := channels_config_ this;
        is_initialized_ := true;
        message_time_ := message_time;
        object_data_list_ := object_data_list;
        object_data_groups_ := object_data_groups_ this;
        markers_ := markers_ this |}.

(** ** [std::sort] *)

(** What [std::sort] asks of its comparator: a strict weak ordering. *)
Record StrictWeakOrder {A : Type} (comp : A -> A -> bool) : Prop := {
  swo_irreflexive : forall a, comp a a = false;
  swo_transitive : forall a b c, comp a b = true -> comp b c = true -> comp a c = true;
  swo_incomparable : forall a b c,
    comp a b = false -> comp b a = false -> comp b c = false -> comp c b = false ->
    comp a c = false /\ comp c a = false
}.

(** [comp]-sorted, in the words of the standard: no element compares less
    than an element before it. *)
Definition sorted_by {A : Type} (comp : A -> A -> bool) (l : list A) : Prop :=
  StronglySorted (fun a b => comp b a = false) l.

(** [std::sort] is the standard library's; the debugger relies on its
    contract: the range is rearranged (a permutation) and ends sorted by the
    comparator. The order of equivalent elements is not part of the
    contract (that is [std::stable_sort]). *)
Class StdSort : Type := {
  std_sort : forall {A : Type}, (A -> A -> bool) -> list A -> list A;
  std_sort_Permutation : forall (A : Type) (comp : A -> A -> bool) (l : list A),
    std_sort comp l ≡ₚ l;
  std_sort_sorted : forall (A : Type) (comp : A -> A -> bool) (l : list A),
    StrictWeakOrder comp -> sorted_by comp (std_sort comp l)
}.

(** Two implementations: a merge sort, and the same on the reversed range.
    The sort of libstdc++ itself is [libstdcxx_sorter], at the end. *)
Definition merge_sort_by {A : Type} (comp : A -> A -> bool) (l : list A) : list A :=
  @merge_sort A (fun a b => comp b a = false)
    (fun a b => decide (comp b a = false)) l.

Definition reversing_sort_by {A : Type} (comp : A -> A -> bool) (l : list A) : list A :=
  merge_sort_by comp (reverse l).

(** ** Grouping *)

(** The comparator of [process]: [a.uuid < b.uuid]. *)
Definition uuid_less (a b : ObjectData) : bool := (uuid a <? uuid b)%N.

(** The state of the grouping loop. *)
Record Grouping : Type := {
  groups : list (list ObjectData);      (* [object_data_groups_] *)
  object_data_group : list ObjectData;
  previous_uuid : boost_uuid
}.

(** One iteration of the grouping loop. *)
Definition group_step (st : Grouping) (object_data : ObjectData) : Grouping :=
  let st :=
    (* if the uuid is different, push the group and clear the group *)
    if negb (uuid object_data =? previous_uuid st)%N then
      {| groups := groups st ++ [object_data_group st];
         object_data_group := [];
         previous_uuid := uuid object_data |}
    else st in
  (* push the object_data to the group *)
  {| groups := groups st;
     object_data_group := object_data_group st ++ [object_data];
     previous_uuid := previous_uuid st |}.

(** [v.front()]: not defined on an empty vector. *)
Definition vector_front {A : Type} (v : list A) : Result A :=
  match v with
  | a :: _ => Ok a
  | [] => Fail undefined_behaviour
  end.

Section Debugger.

Context {sorter : StdSort}.

(** [boost::uuids::hash_value], a [std::size_t]. *)
Variable hash_value : boost_uuid -> Z.

(** [TrackerObjectDebugger::process] *)
Definition process (this : TrackerObjectDebugger) : Result TrackerObjectDebugger :=
  if negb (is_initialized_ this) then Ok this
  else
    (* Check if object_data_list_ is empty *)
    match object_data_list_ this with
    | [] => Ok this
    | _ :: _ =>
        (* sort by uuid *)
        let object_data_list := std_sort uuid_less (object_data_list_ this) in
        (* collect the same uuid object_data as a group *)
        let* front := vector_front object_data_list in
        let st :=
          fold_left group_step object_data_list
            {| groups := []; object_data_group := []; previous_uuid := uuid front |} in
        (* push the last group *)
        Ok {| frame_id_ := frame_id_ this;
              channels_config_ := channels_config_ this;
              is_initialized_ := is_initialized_ this;
              message_time_ := message_time_ this;
              object_data_list_ := object_data_list;
              object_data_groups_ := groups st ++ [object_data_group st];
              markers_ := markers_ this |}
    end.

(** [uuidToInt]: the hash, converted to [int32_t]. *)
Definition uuidToInt (u : boost_uuid) : Z :=
  (hash_value u + 2 ^ 31) mod 2 ^ 32 - 2 ^ 31.

Definition PALETTE_SIZE : nat := 16.

Definition color_array : list (float * float * float) :=
  [ (0.0, 0.0, 1.0);     (* Blue *)
    (0.0, 1.0, 0.0);     (* Green *)
    (1.0, 1.0, 0.0);     (* Yellow *)
    (1.0, 0.0, 0.0);     (* Red *)
    (0.0, 1.0, 1.0);     (* Cyan *)
    (1.0, 0.0, 1.0);     (* Magenta *)
    (1.0, 0.64, 0.0);    (* Orange *)
    (0.75, 1.0, 0.0);    (* Lime *)
    (0.0, 0.5, 0.5);     (* Teal *)
    (0.5, 0.0, 0.5);     (* Purple *)
    (1.0, 0.75, 0.8);    (* Pink *)
    (0.65, 0.17, 0.17);  (* Brown *)
    (0.5, 0.0, 0.0);     (* Maroon *)
    (0.5, 0.5, 0.0);     (* Olive *)
    (0.0, 0.0, 0.5);     (* Navy *)
    (0.5, 0.5, 0.5)      (* Grey *)
  ]%float.

(** get color - by channel index *)
Definition channel_color (idx : nat) : std_msgs.ColorRGBA :=
  let c := nth (idx mod PALETTE_SIZE) color_array (0, 0, 0)%float in
  {| std_msgs.r := fst (fst c); std_msgs.g := snd (fst c); std_msgs.b := snd c;
     std_msgs.a := 0.9 |}.

(** set a reference marker *)
Definition reference_marker (this : TrackerObjectDebugger) (object_data_front : ObjectData)
  : Marker :=
  let marker := Marker_default in
  let marker := set_header marker (frame_id_ this) (time object_data_front) in
  let marker := set_id marker (uuidToInt (uuid object_data_front)) in
  let marker :=
    set_pose_position marker
      {| geometry_msgs.x := 0; geometry_msgs.y := 0; geometry_msgs.z := 0 |} in
  let marker :=
    set_color marker
      {| std_msgs.r := 1.0; std_msgs.g := 1.0; std_msgs.b := 1.0; std_msgs.a := 1.0 |} in
  set_lifetime marker (from_seconds 0.15).

(** One iteration of the loop over the channels that writes the probability
    of channel [i] into the text. *)
Definition existence_probability_entry
    (channel : types.InputChannel) (probability : float) (text : string) : string :=
  if (probability <? 0.00101)%float then text
  else
    (text ++
     (types.short_name channel ++
      to_string (static_cast_int (probability * 100)%float) ++ ":"))%string.

(** probability per channel: the loop over [i] from 0 to [channel_size - 1],
    here from [i] on. *)
Fixpoint existence_probability_loop
    (channels : list types.InputChannel) (i : nat)
    (existence_vector : list float) (text : string) : Result string :=
  match channels with
  | [] => Ok text
  | channel :: rest =>
      let* probability := vector_index existence_vector i in
      existence_probability_loop rest (S i) existence_vector
        (existence_probability_entry channel probability text)
  end.

(** The text of the label marker. *)
Definition existence_probability_text
    (this : TrackerObjectDebugger) (object_data_front : ObjectData) : Result string :=
  let text := EmptyString in
  (* total probability *)
  let text := (text ++ "total:")%string in
  let text :=
    (text ++
     (to_string (static_cast_int (total_existence_probability object_data_front * 100)%float)
      ++ newline))%string in
  (* probability per channel *)
  let* text :=
    existence_probability_loop (channels_config_ this) 0
      (existence_vector object_data_front) text in
  let text := if negb (empty text) then pop_back text else text in
  Ok (text ++ (newline ++ substr0 6 (uuid_str object_data_front)))%string.

(** get marker - existence_probability *)
Definition make_text_marker
    (marker : Marker) (object_data_front : ObjectData) (text : string) : Marker :=
  let text_marker := marker in
  let text_marker := set_ns text_marker "existence_probability" in
  let text_marker := set_type text_marker TEXT_VIEW_FACING in
  let text_marker := set_action text_marker ADD in
  let text_marker :=
    set_pose_position text_marker
      {| geometry_msgs.x := geometry_msgs.x (pose_position text_marker);
         geometry_msgs.y := geometry_msgs.y (pose_position text_marker);
         geometry_msgs.z := (geometry_msgs.z (pose_position text_marker) + 1.8)%float |} in
  let text_marker :=
    set_scale text_marker
      {| geometry_msgs.vx := geometry_msgs.vx (scale text_marker);
         geometry_msgs.vy := geometry_msgs.vy (scale text_marker);
         geometry_msgs.vz := 0.5 |} in
  let text_marker :=
    set_pose_position text_marker
      {| geometry_msgs.x := geometry_msgs.x (tracker_point object_data_front);
         geometry_msgs.y := geometry_msgs.y (tracker_point object_data_front);
         geometry_msgs.z := (geometry_msgs.z (tracker_point object_data_front) + 2.5)%float |} in
  set_text text_marker text.

Definition marker_height_offset : float := 1.0.
Definition assign_height_offset : float := 0.6.

Definition make_marker_track_boxes (marker : Marker) : Marker :=
  let marker_track_boxes := marker in
  let marker_track_boxes := set_ns marker_track_boxes "track_boxes" in
  let marker_track_boxes := set_type marker_track_boxes CUBE_LIST in
  let marker_track_boxes := set_action marker_track_boxes ADD in
  let marker_track_boxes :=
    set_scale marker_track_boxes
      {| geometry_msgs.vx := 0.4; geometry_msgs.vy := 0.4; geometry_msgs.vz := 0.4 |} in
  set_color marker_track_boxes
    {| std_msgs.r := 1.0; std_msgs.g := 1.0; std_msgs.b := 1.0; std_msgs.a := 0.9 |}.

(** make detected object markers per channel: the two markers of channel [idx] *)
Definition make_marker_detect_boxes
    (marker : Marker) (idx : nat) (channel : types.InputChannel) : Marker :=
  let color := channel_color idx in
  let marker_detect_boxes := marker in
  let marker_detect_boxes :=
    set_ns marker_detect_boxes ("detect_boxes_" ++ types.short_name channel)%string in
  let marker_detect_boxes := set_type marker_detect_boxes CUBE_LIST in
  let marker_detect_boxes := set_action marker_detect_boxes ADD in
  let marker_detect_boxes :=
    set_scale marker_detect_boxes
      {| geometry_msgs.vx := 0.2; geometry_msgs.vy := 0.2; geometry_msgs.vz := 0.2 |} in
  set_color marker_detect_boxes color.

Definition make_marker_lines
    (marker : Marker) (idx : nat) (channel : types.InputChannel) : Marker :=
  let color := channel_color idx in
  let marker_lines := marker in
  let marker_lines :=
    set_ns marker_lines ("association_lines_" ++ types.short_name channel)%string in
  let marker_lines := set_type marker_lines LINE_LIST in
  let marker_lines := set_action marker_lines ADD in
  let marker_lines :=
    set_scale marker_lines
      {| geometry_msgs.vx := 0.15;
         geometry_msgs.vy := geometry_msgs.vy (scale marker_lines);
         geometry_msgs.vz := geometry_msgs.vz (scale marker_lines) |} in
  let marker_lines := set_points marker_lines [] in
  set_color marker_lines color.

(** The markers the loop over the records of a group works on. *)
Record GroupMarkers : Type := {
  marker_track_boxes : Marker;
  marker_detect_boxes_per_channel : list Marker;
  marker_detect_lines_per_channel : list Marker;
  group_is_associated : bool
}.

(** One iteration of the loop over the records of a group. *)
Definition draw_object_data (st : GroupMarkers) (object_data : ObjectData)
  : Result GroupMarkers :=
  let channel_id := channel_id object_data in
  (* set box *)
  let box_point :=
    {| geometry_msgs.x := geometry_msgs.x (tracker_point object_data);
       geometry_msgs.y := geometry_msgs.y (tracker_point object_data);
       geometry_msgs.z :=
         (geometry_msgs.z (tracker_point object_data) + marker_height_offset)%float |} in
  let track_boxes := points_push_back (marker_track_boxes st) box_point in
  (* set association marker, if exists *)
  if negb (is_associated object_data) then
    Ok {| marker_track_boxes := track_boxes;
          marker_detect_boxes_per_channel := marker_detect_boxes_per_channel st;
          marker_detect_lines_per_channel := marker_detect_lines_per_channel st;
          group_is_associated := group_is_associated st |}
  else
    (* associated object box *)
    let* marker_detect_boxes :=
      vector_at (marker_detect_boxes_per_channel st) channel_id in
    let box_point :=
      {| geometry_msgs.x := geometry_msgs.x (detection_point object_data);
         geometry_msgs.y := geometry_msgs.y (detection_point object_data);
         geometry_msgs.z :=
           (geometry_msgs.z (detection_point object_data)
            + marker_height_offset + assign_height_offset)%float |} in
    let detect_boxes :=
      <[Z.to_nat channel_id := points_push_back marker_detect_boxes box_point]>
        (marker_detect_boxes_per_channel st) in
    (* association line *)
    let* marker_lines :=
      vector_at (marker_detect_lines_per_channel st) channel_id in
    let line_point :=
      {| geometry_msgs.x := geometry_msgs.x (tracker_point object_data);
         geometry_msgs.y := geometry_msgs.y (tracker_point object_data);
         geometry_msgs.z :=
           (geometry_msgs.z (tracker_point object_data) + marker_height_offset)%float |} in
    let marker_lines := points_push_back marker_lines line_point in
    let line_point :=
      {| geometry_msgs.x := geometry_msgs.x (detection_point object_data);
         geometry_msgs.y := geometry_msgs.y (detection_point object_data);
         geometry_msgs.z :=
           (geometry_msgs.z (detection_point object_data)
            + marker_height_offset + assign_height_offset)%float |} in
    let marker_lines := points_push_back marker_lines line_point in
    let detect_lines :=
      <[Z.to_nat channel_id := marker_lines]> (marker_detect_lines_per_channel st) in
    Ok {| marker_track_boxes := track_boxes;
          marker_detect_boxes_per_channel := detect_boxes;
          marker_detect_lines_per_channel := detect_lines;
          group_is_associated := true |}.

(** loop for each object_data in the group *)
Fixpoint draw_object_data_loop (object_data_group : list ObjectData) (st : GroupMarkers)
  : Result GroupMarkers :=
  match object_data_group with
  | [] => Ok st
  | object_data :: rest =>
      let* st := draw_object_data st object_data in
      draw_object_data_loop rest st
  end.

(** The marker a channel contributes: one without points is marked DELETE. *)
Definition delete_if_empty (m : Marker) : Marker :=
  match points m with
  | [] => set_action m DELETE
  | _ :: _ => m
  end.

(** add markers: the loop over [i] that pushes [per_channel.at(i)], for the
    indices in [indices]. *)
Fixpoint add_markers (per_channel : list Marker) (indices : list nat)
    (marker_array : MarkerArray) : Result MarkerArray :=
  match indices with
  | [] => Ok marker_array
  | i :: rest =>
      let* m := vector_at per_channel (Z.of_nat i) in
      add_markers per_channel rest (marker_array ++ [delete_if_empty m])
  end.

(** if not associated, gray out the track box and text *)
Definition gray_track_boxes (m : Marker) : Marker :=
  set_color m {| std_msgs.r := 0.5; std_msgs.g := 0.5; std_msgs.b := 0.5; std_msgs.a := 0.8 |}.

Definition gray_text (m : Marker) : Marker :=
  set_color m {| std_msgs.r := 0.5; std_msgs.g := 0.5; std_msgs.b := 0.5; std_msgs.a := 0.9 |}.

(** The body of the loop of [draw] over the groups: the markers it pushes
    for one group. *)
Definition draw_group (this : TrackerObjectDebugger) (object_data_group : list ObjectData)
  : Result (list Marker) :=
  match object_data_group with
  | [] => Ok []
  | object_data_front :: _ =>
      let marker := reference_marker this object_data_front in
      let* text := existence_probability_text this object_data_front in
      let text_marker := make_text_marker marker object_data_front text in
      let channel_size := length (channels_config_ this) in
      let* st :=
        draw_object_data_loop object_data_group
          {| marker_track_boxes := make_marker_track_boxes marker;
             marker_detect_boxes_per_channel :=
               imap (make_marker_detect_boxes marker) (channels_config_ this);
             marker_detect_lines_per_channel :=
               imap (make_marker_lines marker) (channels_config_ this);
             group_is_associated := false |} in
      (* add markers *)
      let* marker_array :=
        add_markers (marker_detect_boxes_per_channel st) (seq 0 channel_size) [] in
      let* marker_array :=
        add_markers (marker_detect_lines_per_channel st) (seq 0 channel_size) marker_array in
      let track_boxes :=
        if negb (group_is_associated st) then gray_track_boxes (marker_track_boxes st)
        else marker_track_boxes st in
      let text_marker :=
        if negb (group_is_associated st) then gray_text text_marker else text_marker in
      Ok (marker_array ++ [text_marker] ++ [track_boxes])
  end.

Fixpoint draw_loop (this : TrackerObjectDebugger)
    (object_data_groups : list (list ObjectData)) (marker_array : MarkerArray)
  : Result MarkerArray :=
  match object_data_groups with
  | [] => Ok marker_array
  | object_data_group :: rest =>
      let* markers := draw_group this object_data_group in
      draw_loop this rest (marker_array ++ markers)
  end.

(** [TrackerObjectDebugger::draw]: the array is cleared, then filled. *)
Definition draw (this : TrackerObjectDebugger)
    (object_data_groups : list (list ObjectData)) (marker_array : MarkerArray)
  : Result MarkerArray :=
  (* initialize markers *)
  let marker_array : MarkerArray := [] in
  draw_loop this object_data_groups marker_array.

(** [TrackerObjectDebugger::getMessage]: the array the caller passes, as the
    call leaves it. *)
Definition getMessage (this : TrackerObjectDebugger) (marker_array : MarkerArray)
  : Result MarkerArray :=
  if negb (is_initialized_ this) then Ok marker_array
  else
    (* draw markers *)
    draw this (object_data_groups_ this) marker_array.

End Debugger.

(** * Properties *)

(** ** The contract of [std::sort] is met by both implementations *)

Lemma swo_total {A : Type} (comp : A -> A -> bool) :
  StrictWeakOrder comp -> Total (fun a b => comp b a = false).
Proof.
  intros Hc a b. destruct (comp b a) eqn:Hba; [|by left].
  right. destruct (comp a b) eqn:Hab; [|done].
  pose proof (swo_transitive _ Hc _ _ _ Hab Hba) as Haa.
  by rewrite (swo_irreflexive _ Hc) in Haa.
Qed.

Lemma swo_not_after_transitive {A : Type} (comp : A -> A -> bool) :
  StrictWeakOrder comp -> Transitive (fun a b => comp b a = false).
Proof.
  intros Hc a b c Hba Hcb. simpl in *.
  destruct (comp c a) eqn:Hca; [|done]. exfalso.
  destruct (comp b c) eqn:Hbc.
  { pose proof (swo_transitive _ Hc _ _ _ Hbc Hca). congruence. }
  destruct (comp a b) eqn:Hab.
  { pose proof (swo_transitive _ Hc _ _ _ Hca Hab). congruence. }
  destruct (swo_incomparable _ Hc c b a Hcb Hbc Hba Hab). congruence.
Qed.

Lemma merge_sort_by_Permutation {A : Type} (comp : A -> A -> bool) (l : list A) :
  merge_sort_by comp l ≡ₚ l.
Proof. apply merge_sort_Permutation. Qed.

Lemma merge_sort_by_sorted {A : Type} (comp : A -> A -> bool) (l : list A) :
  StrictWeakOrder comp -> sorted_by comp (merge_sort_by comp l).
Proof.
  intros Hc. unfold sorted_by, merge_sort_by.
  apply (StronglySorted_merge_sort _
           (Transitive0 := swo_not_after_transitive comp Hc)
           (Total0 := swo_total comp Hc)).
Qed.

Lemma reversing_sort_by_Permutation {A : Type} (comp : A -> A -> bool) (l : list A) :
  reversing_sort_by comp l ≡ₚ l.
Proof.
  unfold reversing_sort_by. rewrite merge_sort_by_Permutation.
  apply reverse_Permutation.
Qed.

Lemma reversing_sort_by_sorted {A : Type} (comp : A -> A -> bool) (l : list A) :
  StrictWeakOrder comp -> sorted_by comp (reversing_sort_by comp l).
Proof. intros Hc. by apply merge_sort_by_sorted. Qed.

Definition merge_sorter : StdSort := {|
  std_sort := @merge_sort_by;
  std_sort_Permutation := @merge_sort_by_Permutation;
  std_sort_sorted := @merge_sort_by_sorted |}.

Definition reversing_sorter : StdSort := {|
  std_sort := @reversing_sort_by;
  std_sort_Permutation := @reversing_sort_by_Permutation;
  std_sort_sorted := @reversing_sort_by_sorted |}.

(** The comparator of [process] is a strict weak ordering. *)
Lemma uuid_less_swo : StrictWeakOrder uuid_less.
Proof.
  split; unfold uuid_less.
  - intros a. apply N.ltb_irrefl.
  - intros a b c. rewrite !N.ltb_lt. lia.
  - intros a b c. rewrite !N.ltb_ge. lia.
Qed.

Lemma sorted_by_uuid_less (l : list ObjectData) :
  sorted_by uuid_less l ->
  StronglySorted (fun a b => (uuid a <= uuid b)%N) l.
Proof.
  unfold sorted_by, uuid_less. induction 1 as [|a l _ IH Ha]; constructor; [done|].
  eapply Forall_impl; [exact Ha|]. intros b Hb. simpl in Hb. by apply N.ltb_ge.
Qed.

(** ** The grouping loop *)

(** The groups the loop leaves once the last one is pushed. *)
Definition finish (st : Grouping) : list (list ObjectData) :=
  groups st ++ [object_data_group st].

(** The same groups, read off the remaining records from the left. *)
Fixpoint chunks (l : list ObjectData) (g : list ObjectData) (p : boost_uuid)
  : list (list ObjectData) :=
  match l with
  | [] => [g]
  | r :: l' =>
      if negb (uuid r =? p)%N then g :: chunks l' [r] (uuid r)
      else chunks l' (g ++ [r]) p
  end.

Lemma fold_group_step (l : list ObjectData) (st : Grouping) :
  finish (fold_left group_step l st)
  = groups st ++ chunks l (object_data_group st) (previous_uuid st).
Proof.
  revert st. induction l as [|r l IH]; intros st; [done|].
  simpl. rewrite IH. unfold group_step.
  destruct (negb (uuid r =? previous_uuid st)%N); simpl; [|done].
  by rewrite <- app_assoc.
Qed.

(** [c] is a group of the identity [u]. *)
Definition group_of (u : boost_uuid) (c : list ObjectData) : Prop :=
  c <> [] /\ Forall (fun r => uuid r = u) c.

Lemma chunks_spec (l g : list ObjectData) (p : boost_uuid) :
  g <> [] ->
  Forall (fun r => uuid r = p) g ->
  StronglySorted (fun a b => (uuid a <= uuid b)%N) l ->
  Forall (fun r => (p <= uuid r)%N) l ->
  exists us,
    Forall2 group_of (p :: us) (chunks l g p) /\
    StronglySorted N.lt (p :: us) /\
    concat (chunks l g p) = g ++ l.
Proof.
  revert g p. induction l as [|r l IH]; intros g p Hg Hgp Hl Hp.
  - exists []. simpl. split_and!.
    + repeat constructor; done.
    + repeat constructor.
    + done.
  - apply StronglySorted_inv in Hl as [Hl Hr].
    apply Forall_cons in Hp as [Hpr Hp]. simpl.
    destruct (uuid r =? p)%N eqn:E; simpl.
    + apply N.eqb_eq in E.
      destruct (IH (g ++ [r]) p) as (us & H1 & H2 & H3); try done.
      * by destruct g.
      * apply Forall_app. split; [done|]. by constructor.
      * exists us. split_and!; try done. by rewrite H3, <- app_assoc.
    + apply N.eqb_neq in E.
      destruct (IH [r] (uuid r)) as (us & H1 & H2 & H3); try done.
      * by repeat constructor.
      * exists (uuid r :: us). split_and!.
        -- constructor; [done|exact H1].
        -- constructor; [done|].
           apply StronglySorted_inv in H2 as [_ H2].
           constructor; [lia|].
           eapply Forall_impl; [exact H2|]. intros u Hu. simpl in Hu. lia.
        -- simpl. by rewrite H3.
Qed.

(** [gs] are the groups of the sorted list [l]: one non-empty group for each
    identity of [us], the identities ascending. *)
Definition grouped (us : list boost_uuid) (l : list ObjectData)
    (gs : list (list ObjectData)) : Prop :=
  Forall2 group_of us gs /\ StronglySorted N.lt us /\ concat gs = l.

Lemma StronglySorted_lt_NoDup (us : list boost_uuid) :
  StronglySorted N.lt us -> NoDup us.
Proof.
  induction 1 as [|u us _ IH Hu]; constructor; [|done].
  intros Hin. rewrite Forall_forall in Hu. specialize (Hu _ Hin). lia.
Qed.

Lemma group_of_concat_uuid us gs r :
  Forall2 group_of us gs -> r ∈ concat gs -> uuid r ∈ us.
Proof.
  induction 1 as [|u c us gs [_ Hc] _ IH]; simpl; [by intros ?%elem_of_nil|].
  rewrite elem_of_app. intros [Hr|Hr].
  - rewrite Forall_forall in Hc. rewrite (Hc _ Hr). by left.
  - right. by apply IH.
Qed.

Lemma filter_uuid_group u u' c :
  Forall (fun r => uuid r = u) c ->
  filter (fun r => uuid r = u') c = if decide (u = u') then c else [].
Proof.
  induction 1 as [|r c Hr _ IH]; [by destruct (decide _)|].
  rewrite filter_cons, IH. subst u.
  destruct (decide (uuid r = u')); done.
Qed.

Lemma filter_uuid_none (u : boost_uuid) (l : list ObjectData) :
  Forall (fun r => uuid r <> u) l -> filter (fun r => uuid r = u) l = [].
Proof.
  induction 1 as [|r l Hr _ IH]; [done|]. by rewrite filter_cons_False.
Qed.

(** Every group is the sublist of the records of its identity. *)
Lemma grouped_filter us l gs :
  grouped us l gs ->
  gs = (fun u => filter (fun r => uuid r = u) l) <$> us.
Proof.
  intros (HF & Hs & <-). apply StronglySorted_lt_NoDup in Hs.
  induction HF as [|u c us gs [Hc Hcu] HF IH]; [done|].
  apply NoDup_cons in Hs as [Hu Hs]. simpl. f_equal.
  - rewrite filter_app, (filter_uuid_group u u c Hcu), decide_True by done.
    rewrite filter_uuid_none; [by rewrite app_nil_r|].
    apply Forall_forall. intros r Hr Hru.
    apply Hu. rewrite <- Hru. by eapply group_of_concat_uuid.
  - rewrite (IH Hs) at 1. apply Forall_fmap_ext, Forall_forall. intros u' Hu'.
    rewrite filter_app, (filter_uuid_group u u' c Hcu).
    rewrite decide_False; [done|]. intros ->. done.
Qed.

Lemma grouped_identities us l gs u :
  grouped us l gs -> u ∈ us <-> exists r, r ∈ l /\ uuid r = u.
Proof.
  intros (HF & _ & <-). split.
  - intros Hu. induction HF as [|u' c us gs [Hc Hcu] HF IH]; [by apply elem_of_nil in Hu|].
    apply elem_of_cons in Hu as [->|Hu].
    + destruct c as [|r c]; [done|]. exists r. split.
      * simpl. by left.
      * by apply Forall_cons in Hcu as [? _].
    + destruct (IH Hu) as (r & Hr & Hru). exists r. split; [|done].
      simpl. apply elem_of_app. by right.
  - intros (r & Hr & <-). by eapply group_of_concat_uuid.
Qed.

(** Ascending lists of the same identities are one list. *)
Lemma ascending_unique (us1 us2 : list boost_uuid) :
  StronglySorted N.lt us1 -> StronglySorted N.lt us2 ->
  (forall u, u ∈ us1 <-> u ∈ us2) -> us1 = us2.
Proof.
  intros H1 H2 H. apply (StronglySorted_unique_strong N.lt); [|done..|].
  - intros; lia.
  - apply NoDup_Permutation; auto using StronglySorted_lt_NoDup.
Qed.

Lemma Forall2_fmap_diag {A B : Type} (P : A -> B -> Prop) (f : A -> B) (l : list A) :
  Forall2 P l (f <$> l) <-> Forall (fun a => P a (f a)) l.
Proof.
  induction l as [|a l IH]; simpl.
  - split; constructor.
  - rewrite Forall2_cons, Forall_cons. by rewrite IH.
Qed.

(** The groups of a sorted list, against any permutation [l'] of it. *)
Lemma grouped_Forall2 us l l' gs :
  grouped us l gs -> l ≡ₚ l' ->
  Forall2
    (fun u g =>
       g <> [] /\
       Forall (fun r => uuid r = u) g /\
       g ≡ₚ filter (fun r => uuid r = u) l')
    us gs.
Proof.
  intros Hg Hperm. pose proof (grouped_filter _ _ _ Hg) as Hgs.
  destruct Hg as (HF & _ & _). rewrite Hgs in HF |- *.
  apply Forall2_fmap_diag in HF. apply Forall2_fmap_diag.
  eapply Forall_impl; [exact HF|]. intros u [H1 H2]. simpl.
  split_and!; [done..|]. by rewrite Hperm.
Qed.

Section Process.

Context {sorter : StdSort}.

(** What [process] does once past its two guards. *)
Lemma process_runs (this : TrackerObjectDebugger) :
  is_initialized_ this = true ->
  object_data_list_ this <> [] ->
  exists us gs,
    process this
    = Ok {| frame_id_ := frame_id_ this;
            channels_config_ := channels_config_ this;
            is_initialized_ := true;
            message_time_ := message_time_ this;
            object_data_list_ := std_sort uuid_less (object_data_list_ this);
            object_data_groups_ := gs;
            markers_ := markers_ this |} /\
    grouped us (std_sort uuid_less (object_data_list_ this)) gs.
Proof.
  intros Hinit Hne. unfold process. rewrite Hinit. simpl.
  destruct (object_data_list_ this) as [|r0 l0] eqn:El; [done|].
  pose proof (std_sort_Permutation _ uuid_less (r0 :: l0)) as Hperm.
  pose proof (sorted_by_uuid_less _ (std_sort_sorted _ uuid_less (r0 :: l0) uuid_less_swo))
    as Hsorted.
  destruct (std_sort uuid_less (r0 :: l0)) as [|front l] eqn:Es.
  { by apply Permutation_nil_l in Hperm. }
  simpl vector_front. unfold bind.
  change (groups ?st ++ [object_data_group ?st]) with (finish st).
  rewrite fold_group_step. simpl. rewrite N.eqb_refl. simpl.
  apply StronglySorted_inv in Hsorted as [Hl Hfront].
  destruct (chunks_spec l [front] (uuid front)) as (us & H1 & H2 & H3); try done.
  { by repeat constructor. }
  exists (uuid front :: us), (chunks l [front] (uuid front)).
  split; [done|]. split_and!; done.
Qed.

(** Without records, or before the first [collect], [process] changes nothing. *)
Lemma process_idle (this : TrackerObjectDebugger) :
  is_initialized_ this = false \/ object_data_list_ this = [] ->
  process this = Ok this.
Proof.
  unfold process. intros [->| ->]; [done|]. by destruct (negb _).
Qed.

End Process.

(** ** Identities: the conversion through the hexadecimal string *)

Lemma hex_value_digit (d : N) : (d < 16)%N -> hex_value (hex_digit d) = Some d.
Proof.
  intros Hd. rewrite <- (N2Nat.id d). assert (N.to_nat d < 16)%nat as H by lia.
  revert H. generalize (N.to_nat d). intros n Hn.
  do 16 (destruct n as [|n]; [reflexivity|]). lia.
Qed.

Lemma uuid_byte_lt (u : UUID) (i : nat) : (uuid_byte u i < 256)%N.
Proof.
  unfold uuid_byte. change 255%N with (N.ones 8). rewrite N.land_ones.
  by apply N.mod_lt.
Qed.

Lemma string_generator_go_bytes (u : UUID) (idxs : list nat) (rest : string) (acc : N) :
  string_generator_go
    (fold_right
       (fun i ss =>
          let b := uuid_byte u i in
          String (hex_digit (b / 16)) (String (hex_digit (b mod 16)) ss))
       rest idxs) acc
  = string_generator_go rest (fold_left (fun a i => 256 * a + uuid_byte u i)%N idxs acc).
Proof.
  revert acc. induction idxs as [|i idxs IH]; intros acc; [done|].
  simpl. pose proof (uuid_byte_lt u i) as Hb.
  rewrite !hex_value_digit.
  - rewrite IH. f_equal. f_equal.
    pose proof (N.div_mod (uuid_byte u i) 16). lia.
  - by apply N.mod_lt.
  - apply N.Div0.div_lt_upper_bound. lia.
Qed.

Lemma uuid_byte_div (u : UUID) (n : nat) :
  (n < 16)%nat -> uuid_byte u (15 - n) = ((u / 256 ^ N.of_nat n) mod 256)%N.
Proof.
  intros Hn. unfold uuid_byte. change 255%N with (N.ones 8).
  rewrite N.land_ones, N.shiftr_div_pow2.
  replace (15 - (15 - n))%nat with n by lia.
  change 256%N with (2 ^ 8)%N. by rewrite <- N.pow_mul_r.
Qed.

Lemma bytes_value (u : UUID) (n : nat) (acc : N):
  (n <= 16)%nat ->
  fold_left (fun a i => 256 * a + uuid_byte u i)%N (seq (16 - n) n) acc
  = (acc * 256 ^ N.of_nat n + u mod 256 ^ N.of_nat n)%N.
Proof.
  revert acc. induction n as [|n IH]; intros acc Hn.
  - simpl. rewrite N.mod_1_r. lia.
  - replace (16 - S n)%nat with (15 - n)%nat by lia.
    simpl seq. replace (S (15 - n)) with (16 - n)%nat by lia.
    simpl fold_left. rewrite IH by lia.
    rewrite uuid_byte_div by lia.
    rewrite Nat2N.inj_succ, N.pow_succ_r'.
    rewrite (N.mul_comm 256 (256 ^ N.of_nat n)).
    rewrite (N.Div0.mod_mul_r u). lia.
Qed.

Lemma uuidToBoostUuid_value (u : UUID) : uuidToBoostUuid u = Ok (u mod 2 ^ 128)%N.
Proof.
  unfold uuidToBoostUuid, string_generator.
  assert (String.length (uuidToString u) = 32%nat) as -> by reflexivity.
  simpl Nat.eqb. cbv iota. unfold uuidToString.
  rewrite string_generator_go_bytes.
  pose proof (bytes_value u 16 0 (le_n 16)) as H.
  change (16 - 16)%nat with 0%nat in H. rewrite H.
  cbn [string_generator_go]. change (N.of_nat 16) with 16%N.
  replace (256 ^ 16)%N with (2 ^ 128)%N by (vm_compute; reflexivity).
  by rewrite N.mul_0_l, N.add_0_l.
Qed.

(** ** [collect] *)

Arguments uuidToBoostUuid : simpl never.
Arguments collect_object_data : simpl never.

Lemma collect_loop_acc message_time detected_objects direct_assignment
    (tracker_idx : Z) (list_tracker : list Tracker) (acc : list ObjectData) :
  collect_loop message_time detected_objects direct_assignment tracker_idx list_tracker acc
  = let* records :=
      collect_loop message_time detected_objects direct_assignment tracker_idx
        list_tracker [] in
    Ok (acc ++ records).
Proof.
  revert tracker_idx acc.
  induction list_tracker as [|tracker rest IH]; intros tracker_idx acc;
    cbn [collect_loop bind].
  - by rewrite app_nil_r.
  - destruct (collect_object_data _ _ _ _ _) as [r|e]; cbn [bind]; [|done].
    rewrite (IH _ (acc ++ [r])), (IH _ ([] ++ [r])).
    destruct (collect_loop _ _ _ _ rest []); cbn [bind]; [|done].
    by rewrite <- app_assoc.
Qed.

(** [collect] appends the records of the call and sets the flag. *)
Lemma collect_Ok message_time list_tracker detected_objects direct_assignment this this' :
  collect message_time list_tracker detected_objects direct_assignment this = Ok this' ->
  exists records,
    collect_loop message_time detected_objects direct_assignment 0 list_tracker []
    = Ok records /\
    this' = {| frame_id_ := frame_id_ this;
               channels_config_ := channels_config_ this;
               is_initialized_ := true;
               message_time_ := message_time;
               object_data_list_ := object_data_list_ this ++ records;
               object_data_groups_ := object_data_groups_ this;
               markers_ := markers_ this |}.
Proof.
  unfold collect. rewrite collect_loop_acc.
  destruct (collect_loop _ _ _ _ _ []) as [records|e]; cbn [bind]; [|done].
  intros [= <-]. by exists records.
Qed.

Lemma collect_from_records message_time list_tracker detected_objects direct_assignment
    this records :
  collect_loop message_time detected_objects direct_assignment 0 list_tracker []
  = Ok records ->
  collect message_time list_tracker detected_objects direct_assignment this
  = Ok {| frame_id_ := frame_id_ this;
          channels_config_ := channels_config_ this;
          is_initialized_ := true;
          message_time_ := message_time;
          object_data_list_ := object_data_list_ this ++ records;
          object_data_groups_ := object_data_groups_ this;
          markers_ := markers_ this |}.
Proof. intros H. unfold collect. by rewrite collect_loop_acc, H. Qed.

(** A tracker without an entry in the map gives an unassociated record whose
    detection point is the tracker point. *)
Lemma collect_object_data_unassigned message_time detected_objects direct_assignment
    tracker_idx tracker :
  direct_assignment !! tracker_idx = None ->
  exists r,
    collect_object_data message_time detected_objects direct_assignment tracker_idx tracker
    = Ok r /\
    is_associated r = false /\ detection_point r = tracker_point r.
Proof.
  intros Hnone. unfold collect_object_data.
  rewrite uuidToBoostUuid_value, Hnone. unfold bind. eauto.
Qed.

Lemma collect_loop_unassigned message_time detected_objects tracker_idx list_tracker :
  exists records,
    collect_loop message_time detected_objects ∅ tracker_idx list_tracker [] = Ok records /\
    length records = length list_tracker /\
    Forall (fun r => is_associated r = false /\ detection_point r = tracker_point r)
      records.
Proof.
  revert tracker_idx. induction list_tracker as [|tracker rest IH]; intros tracker_idx.
  - exists []. by repeat split.
  - destruct (collect_object_data_unassigned message_time detected_objects ∅
                tracker_idx tracker) as (r & Hr & Hprop); [apply lookup_empty|].
    destruct (IH (tracker_idx + 1)) as (records & Hrecords & Hlen & Hall).
    exists (r :: records). cbn [collect_loop]. rewrite Hr. unfold bind at 1.
    rewrite collect_loop_acc, Hrecords. unfold bind.
    split_and!; [done|by cbn; f_equal|]. by constructor.
Qed.

(** C6: with an empty association map [collect] goes through, and produces
    one record for each tracker of the list; each of these records has
    [is_associated = false] and its [detection_point] is its [tracker_point]. *)
Theorem collect_empty_assignment_unassociated
    (message_time : Time) (list_tracker : list Tracker)
    (detected_objects : types.DynamicObjectList) (this : TrackerObjectDebugger) :
  exists records,
    collect message_time list_tracker detected_objects ∅ this
    = Ok {| frame_id_ := frame_id_ this;
            channels_config_ := channels_config_ this;
            is_initialized_ := true;
            message_time_ := message_time;
            object_data_list_ := object_data_list_ this ++ records;
            object_data_groups_ := object_data_groups_ this;
            markers_ := markers_ this |} /\
    length records = length list_tracker /\
    Forall (fun r => is_associated r = false /\ detection_point r = tracker_point r)
      records.
Proof.
  destruct (collect_loop_unassigned message_time detected_objects 0 list_tracker)
    as (records & Hloop & Hlen & Hall).
  exists records. split_and!; [|done..]. by apply collect_from_records.
Qed.

(** ** [process] *)

Section Process_properties.

Context {sorter : StdSort}.

(** C3, as the code has it: [process] sorts the accumulated records with
    [std::sort] on the 128-bit identity. The list it leaves is a permutation
    of the accumulated records in ascending order of [uuid] (whatever the
    display strings are), and the groups, one after the other, are that
    list. Nothing is said of the order of records with one identity. *)
Theorem process_sorts_by_identity (this : TrackerObjectDebugger) :
  is_initialized_ this = true ->
  object_data_list_ this <> [] ->
  exists this',
    process this = Ok this' /\
    object_data_list_ this' ≡ₚ object_data_list_ this /\
    StronglySorted (fun a b => (uuid a <= uuid b)%N) (object_data_list_ this') /\
    concat (object_data_groups_ this') = object_data_list_ this'.
Proof.
  intros Hinit Hne.
  destruct (process_runs this Hinit Hne) as (us & gs & Hp & _ & _ & Hconcat).
  eexists. split; [exact Hp|]. simpl. split_and!.
  - apply std_sort_Permutation.
  - apply sorted_by_uuid_less, std_sort_sorted, uuid_less_swo.
  - done.
Qed.

(** C4: after [process] has run on a non-empty list of accumulated records,
    the groups are, in this order, the groups of the identities [us], where
    [us] lists the distinct identities of the accumulated records in
    ascending order; the group of an identity is not empty, all its members
    have this identity, and it holds every accumulated record of this
    identity (it is a permutation of them). *)
Theorem process_groups_by_identity (this : TrackerObjectDebugger) :
  is_initialized_ this = true ->
  object_data_list_ this <> [] ->
  exists this' us,
    process this = Ok this' /\
    StronglySorted N.lt us /\
    (forall u, u ∈ us <-> exists r, r ∈ object_data_list_ this /\ uuid r = u) /\
    Forall2
      (fun u g =>
         g <> [] /\
         Forall (fun r => uuid r = u) g /\
         g ≡ₚ filter (fun r => uuid r = u) (object_data_list_ this))
      us (object_data_groups_ this').
Proof.
  intros Hinit Hne.
  destruct (process_runs this Hinit Hne) as (us & gs & Hp & Hg).
  pose proof (std_sort_Permutation _ uuid_less (object_data_list_ this)) as Hperm.
  eexists _, us. split; [exact Hp|]. simpl. split_and!.
  - by destruct Hg as (_ & ? & _).
  - intros u. rewrite (grouped_identities _ _ _ u Hg).
    by setoid_rewrite Hperm.
  - by apply (grouped_Forall2 _ _ _ _ Hg).
Qed.

(** C5: collecting channel A then channel B, or B then A, and then running
    [process], gives the same groups: if one order goes through so does the
    other, with as many groups, and the groups at the same place are
    permutations of each other (the same records of the same identity). *)
Theorem grouping_independent_of_collect_order
    (timeA timeB : Time) (trackersA trackersB : list Tracker)
    (detectedA detectedB : types.DynamicObjectList)
    (assignmentA assignmentB : gmap Z Z)
    (this thisAB : TrackerObjectDebugger) :
  (let* d := collect timeA trackersA detectedA assignmentA this in
   let* d := collect timeB trackersB detectedB assignmentB d in
   process d) = Ok thisAB ->
  exists thisBA,
    (let* d := collect timeB trackersB detectedB assignmentB this in
     let* d := collect timeA trackersA detectedA assignmentA d in
     process d) = Ok thisBA /\
    Forall2 Permutation (object_data_groups_ thisAB) (object_data_groups_ thisBA).
Proof.
  destruct (collect timeA _ _ _ this) as [dA|] eqn:EA; [|done].
  apply collect_Ok in EA as (recordsA & HA & ->). simpl.
  destruct (collect timeB _ _ _ _) as [dAB|] eqn:EB; [|done].
  apply collect_Ok in EB as (recordsB & HB & ->). simpl.
  rewrite (collect_from_records _ _ _ _ this _ HB). simpl.
  rewrite (collect_from_records _ _ _ _ _ _ HA). simpl.
  set (l0 := object_data_list_ this).
  assert ((l0 ++ recordsA) ++ recordsB ≡ₚ (l0 ++ recordsB) ++ recordsA) as Hperm.
  { rewrite <- !app_assoc. f_equiv. apply Permutation_app_comm. }
  destruct (decide ((l0 ++ recordsA) ++ recordsB = [])) as [Hnil|Hne].
  - assert ((l0 ++ recordsB) ++ recordsA = []) as Hnil'.
    { apply Permutation_nil_r. by rewrite <- Hperm, Hnil. }
    rewrite process_idle by (by right). intros [= <-].
    rewrite Hnil'. eexists. split; [apply process_idle; by right|].
    simpl. by apply Forall_Forall2_diag, Forall_forall.
  - assert ((l0 ++ recordsB) ++ recordsA <> []) as Hne'.
    { intros Hnil. apply Hne, Permutation_nil_r. by rewrite Hperm, Hnil. }
    match goal with |- process ?d = _ -> _ =>
      destruct (process_runs d eq_refl Hne) as (us1 & gs1 & -> & Hg1) end.
    intros [= <-].
    match goal with |- exists _, process ?d = _ /\ _ =>
      destruct (process_runs d eq_refl Hne') as (us2 & gs2 & -> & Hg2) end.
    eexists. split; [done|]. simpl in *.
    pose proof (std_sort_Permutation _ uuid_less ((l0 ++ recordsA) ++ recordsB)) as Hs1.
    pose proof (std_sort_Permutation _ uuid_less ((l0 ++ recordsB) ++ recordsA)) as Hs2.
    assert (us1 = us2) as <-.
    { apply ascending_unique; [by destruct Hg1 as (_ & ? & _)|by destruct Hg2 as (_ & ? & _)|].
      intros u. rewrite (grouped_identities _ _ _ u Hg1), (grouped_identities _ _ _ u Hg2).
      by setoid_rewrite Hs1; setoid_rewrite Hs2; setoid_rewrite Hperm. }
    rewrite (grouped_filter _ _ _ Hg1), (grouped_filter _ _ _ Hg2).
    apply Forall2_fmap, Forall_Forall2_diag, Forall_forall. intros u _.
    by rewrite Hs1, Hs2, Hperm.
Qed.

End Process_properties.

(** ** A small scene: two channels, two trackers, one detection *)

Definition demo_point (x y z : float) : geometry_msgs.Point :=
  {| geometry_msgs.x := x; geometry_msgs.y := y; geometry_msgs.z := z |}.

Definition demo_tracker (u : UUID) (name : string) (position : geometry_msgs.Point)
    (existence : list float) (total : float) : Tracker :=
  {| getTrackedObject := fun _ => {| types.uuid := u; types.pose_position := position |};
     getUuidString := name;
     getExistenceProbabilityVector := existence;
     getTotalExistenceProbability := total |}.

Definition demo_channels : list types.InputChannel :=
  [ {| types.index := 0; types.short_name := "L" |};
    {| types.index := 1; types.short_name := "R" |} ].

Definition demo_debugger : TrackerObjectDebugger :=
  TrackerObjectDebugger_new "map" demo_channels.

Definition car : Tracker :=
  demo_tracker 0x0f0e0d0c0b0a09080706050403020100%N "0f0e0d0c0b0a09080706050403020100"
    (demo_point 10 2 0) [0.999; 0.0005]%float 0.999%float.

Definition bike : Tracker :=
  demo_tracker 0x000102030405060708090a0b0c0d0e0f%N "000102030405060708090a0b0c0d0e0f"
    (demo_point 4 (-3) 0) [0.0005; 0.0005]%float 0.25%float.

Definition demo_detections (channel : Z) : types.DynamicObjectList :=
  {| types.channel_index := channel;
     types.objects := [ {| types.uuid := 0%N; types.pose_position := demo_point 10.5 2 0 |} ] |}.

(** The car is seen by channel 0 (its detection is the first of the list),
    nothing is associated on channel 1. *)
Definition demo_cycle {sorter : StdSort} : Result TrackerObjectDebugger :=
  let* d := collect 5 [car; bike] (demo_detections 0) {[ 0 := 0 ]} demo_debugger in
  let* d := collect 5 [car; bike] (demo_detections 1) ∅ d in
  process d.

(** The debugger after the two [collect] calls of the scene. *)
Definition demo_collected : TrackerObjectDebugger :=
  match
    (let* d := collect 5 [car; bike] (demo_detections 0) {[ 0 := 0 ]} demo_debugger in
     collect 5 [car; bike] (demo_detections 1) ∅ d)
  with
  | Ok d => d
  | Fail _ => demo_debugger
  end.

Definition demo_processed (sorter : StdSort) : TrackerObjectDebugger :=
  match process demo_collected with
  | Ok d => d
  | Fail _ => demo_debugger
  end.

(** The first record of the group of the car, the last of the two groups. *)
Definition demo_front (sorter : StdSort) : ObjectData :=
  match last (object_data_groups_ (demo_processed sorter)) with
  | Some (front :: _) => front
  | _ =>
      {| time := 0; uuid := 0%N; uuid_str := EmptyString; channel_id := 0;
         tracker_point := demo_point 0 0 0; detection_point := demo_point 0 0 0;
         is_associated := false; existence_vector := [];
         total_existence_probability := 0 |}
  end.

Example demo_collected_channels :
  map (fun r => (uuid r, channel_id r, is_associated r)) (object_data_list_ demo_collected)
  = [ (0x0f0e0d0c0b0a09080706050403020100%N, 0, true);
      (0x000102030405060708090a0b0c0d0e0f%N, 0, false);
      (0x0f0e0d0c0b0a09080706050403020100%N, 1, false);
      (0x000102030405060708090a0b0c0d0e0f%N, 1, false) ].
Proof. vm_compute. reflexivity. Qed.

(** With the merge sort the records of an identity stay in the order of the
    calls; with the reversing sort they do not. Both sorts meet the contract. *)
Example demo_groups_merge_sorter :
  map (map (fun r => (uuid r, channel_id r)))
    (object_data_groups_ (demo_processed merge_sorter))
  = [ [ (0x000102030405060708090a0b0c0d0e0f%N, 0); (0x000102030405060708090a0b0c0d0e0f%N, 1) ];
      [ (0x0f0e0d0c0b0a09080706050403020100%N, 0); (0x0f0e0d0c0b0a09080706050403020100%N, 1) ] ].
Proof. vm_compute. reflexivity. Qed.

Example demo_groups_reversing_sorter :
  map (map (fun r => (uuid r, channel_id r)))
    (object_data_groups_ (demo_processed reversing_sorter))
  = [ [ (0x000102030405060708090a0b0c0d0e0f%N, 1); (0x000102030405060708090a0b0c0d0e0f%N, 0) ];
      [ (0x0f0e0d0c0b0a09080706050403020100%N, 1); (0x0f0e0d0c0b0a09080706050403020100%N, 0) ] ].
Proof. vm_compute. reflexivity. Qed.

(** The contract of [std::sort] does not give stability: an implementation
    that meets it can leave the records of one identity in another order than
    they were accumulated in. Stability reads: for every identity, the
    records of this identity come in the groups in the order they have in the
    accumulated list. *)
Lemma process_sort_not_stable :
  ~ (forall (sorter : StdSort) (this this' : TrackerObjectDebugger),
        is_initialized_ this = true ->
        process this = Ok this' ->
        forall u,
          filter (fun r => uuid r = u) (concat (object_data_groups_ this'))
          = filter (fun r => uuid r = u) (object_data_list_ this)).
Proof.
  intros Hstable.
  assert (process (sorter := reversing_sorter) demo_collected
          = Ok (demo_processed reversing_sorter)) as Hp by (vm_compute; reflexivity).
  specialize (Hstable reversing_sorter demo_collected _ eq_refl Hp
                0x000102030405060708090a0b0c0d0e0f%N).
  apply (f_equal (map channel_id)) in Hstable.
  vm_compute in Hstable. discriminate Hstable.
Qed.

Lemma process_sorts_by_identity_witness :
  exists this',
    process (sorter := merge_sorter) demo_collected = Ok this' /\
    object_data_list_ this' ≡ₚ object_data_list_ demo_collected /\
    StronglySorted (fun a b => (uuid a <= uuid b)%N) (object_data_list_ this') /\
    concat (object_data_groups_ this') = object_data_list_ this'.
Proof.
  apply (process_sorts_by_identity (sorter := merge_sorter) demo_collected).
  - reflexivity.
  - vm_compute. discriminate.
Defined.

Lemma process_groups_by_identity_witness :
  exists this' us,
    process (sorter := merge_sorter) demo_collected = Ok this' /\
    StronglySorted N.lt us /\
    (forall u, u ∈ us <-> exists r, r ∈ object_data_list_ demo_collected /\ uuid r = u) /\
    Forall2
      (fun u g =>
         g <> [] /\
         Forall (fun r => uuid r = u) g /\
         g ≡ₚ filter (fun r => uuid r = u) (object_data_list_ demo_collected))
      us (object_data_groups_ this').
Proof.
  apply (process_groups_by_identity (sorter := merge_sorter) demo_collected).
  - reflexivity.
  - vm_compute. discriminate.
Defined.

Lemma grouping_independent_of_collect_order_witness :
  exists thisBA,
    (let* d := collect 5 [car; bike] (demo_detections 1) ∅ demo_debugger in
     let* d := collect 5 [car; bike] (demo_detections 0) {[ 0 := 0 ]} d in
     process (sorter := merge_sorter) d) = Ok thisBA /\
    Forall2 Permutation
      (object_data_groups_ (demo_processed merge_sorter)) (object_data_groups_ thisBA).
Proof.
  apply (grouping_independent_of_collect_order (sorter := merge_sorter)
           5 5 [car; bike] [car; bike] (demo_detections 0) (demo_detections 1)
           {[ 0 := 0 ]} ∅ demo_debugger (demo_processed merge_sorter)).
  vm_compute. reflexivity.
Defined.

(** ** Floats: the comparison with the threshold *)

Lemma SFcompare_antisym (a b : spec_float) (c : comparison) :
  SFcompare a b = Some c -> SFcompare b a = Some (CompOpp c).
Proof.
  destruct a as [sa|sa| |sa ma ea], b as [sb|sb| |sb mb eb]; simpl;
    try discriminate; try (intros [= <-]; by destruct sa);
    try (intros [= <-]; by destruct sb); try (intros [= <-]; by destruct sa, sb).
  intros [= <-]. f_equal.
  rewrite (Z.compare_antisym ea eb).
  set (cm := PosDef.Pos.compare_cont Eq ma mb).
  assert (PosDef.Pos.compare_cont Eq mb ma = CompOpp cm) as ->
    by exact (eq_sym (Pos.compare_cont_antisym ma mb Eq)).
  destruct sa, sb; try done; by destruct (ea ?= eb), cm.
Qed.

(** At or above is not below, for the comparisons of [double]. *)
Lemma leb_not_ltb (t p : float) : (t <=? p)%float = true -> (p <? t)%float = false.
Proof.
  rewrite leb_spec, ltb_spec. unfold SFleb, SFltb.
  destruct (SFcompare (Prim2SF t) (Prim2SF p)) as [c|] eqn:E; [|done].
  rewrite (SFcompare_antisym _ _ _ E). by destruct c.
Qed.

(** ** Strings *)

Lemma append_cons (c : ascii) (s1 s2 : string) :
  (String c s1 ++ s2)%string = String c (s1 ++ s2)%string.
Proof. reflexivity. Qed.

Lemma append_nil_l (s : string) : ("" ++ s)%string = s.
Proof. reflexivity. Qed.

Lemma append_nil_r (s : string) : (s ++ "")%string = s.
Proof. induction s as [|c s IH]; [done|]. by rewrite append_cons, IH. Qed.

Lemma append_assoc (s1 s2 s3 : string) :
  ((s1 ++ s2) ++ s3)%string = (s1 ++ (s2 ++ s3))%string.
Proof.
  induction s1 as [|c s1 IH]; [done|]. by rewrite !append_cons, IH.
Qed.

Lemma pop_back_append (s : string) (c : ascii) :
  pop_back (s ++ String c EmptyString) = s.
Proof.
  induction s as [|c' s IH]; [done|].
  rewrite append_cons. cbn [pop_back]. rewrite IH.
  destruct s; [done|]. by rewrite append_cons.
Qed.

Lemma empty_append_cons (c : ascii) (s1 s2 : string) :
  empty ((String c s1) ++ s2) = false.
Proof. by rewrite append_cons. Qed.

(** ** The text of the label *)

(** What a channel adds to the text: nothing below the threshold, or its
    short name, the percentage and the separator. *)
Definition channel_entry (channel : types.InputChannel) (probability : float) : string :=
  if (probability <? 0.00101)%float then EmptyString
  else
    (types.short_name channel ++
     to_string (static_cast_int (probability * 100)%float) ++ ":")%string.

Lemma existence_probability_entry_append channel probability text :
  existence_probability_entry channel probability text
  = (text ++ channel_entry channel probability)%string.
Proof.
  unfold existence_probability_entry, channel_entry.
  destruct (probability <? 0.00101)%float; [by rewrite append_nil_r|done].
Qed.

(** The loop goes through when the vector has an entry for every channel,
    and appends the entries of the channels in their order. *)
Lemma existence_probability_loop_Ok channels i existence_vector text :
  (i + length channels <= length existence_vector)%nat ->
  existence_probability_loop channels i existence_vector text
  = Ok (text ++
        String.concat ""
          (zip_with channel_entry channels (drop i existence_vector)))%string.
Proof.
  revert i text. induction channels as [|channel rest IH]; intros i text Hlen; simpl in *.
  - by rewrite append_nil_r.
  - destruct (lookup_lt_is_Some_2 existence_vector i) as [p Hp]; [lia|].
    unfold vector_index. rewrite Hp. simpl.
    rewrite IH by lia. rewrite existence_probability_entry_append.
    rewrite (drop_S _ _ _ Hp). simpl. rewrite append_assoc. f_equal. f_equal.
    destruct (zip_with channel_entry rest (drop (S i) existence_vector)); simpl;
      [by rewrite append_nil_r|done].
Qed.

(** It ends in undefined behaviour when the vector is shorter. *)
Lemma existence_probability_loop_short channels i existence_vector text :
  (i <= length existence_vector)%nat ->
  (length existence_vector < i + length channels)%nat ->
  existence_probability_loop channels i existence_vector text = Fail undefined_behaviour.
Proof.
  revert i text.
  induction channels as [|channel rest IH]; intros i text Hi Hlen; simpl in *.
  - lia.
  - unfold vector_index. destruct (existence_vector !! i) as [p|] eqn:Hp; simpl; [|done].
    apply lookup_lt_Some in Hp. apply IH; lia.
Qed.

(** ** The loop over the records of a group *)

(** [m] is [m0] with other points. *)
Definition with_points (m0 m : Marker) : Prop := m = set_points m0 (points m).

Lemma with_points_refl (m : Marker) : with_points m m.
Proof. by destruct m. Qed.

Lemma with_points_trans (m0 m1 m2 : Marker) :
  with_points m0 m1 -> with_points m1 m2 -> with_points m0 m2.
Proof. unfold with_points. intros -> ->. by destruct m0. Qed.

Lemma with_points_push_back (m : Marker) (p : geometry_msgs.Point) :
  with_points m (points_push_back m p).
Proof. by destruct m. Qed.

Lemma Forall2_with_points_refl (ms : list Marker) : Forall2 with_points ms ms.
Proof. apply Forall_Forall2_diag, Forall_forall. intros m _. apply with_points_refl. Qed.

Lemma Forall2_with_points_trans (l0 l1 l2 : list Marker) :
  Forall2 with_points l0 l1 -> Forall2 with_points l1 l2 -> Forall2 with_points l0 l2.
Proof.
  intros H01. revert l2. induction H01 as [|m0 m1 l0 l1 Hm _ IH]; intros l2 H12.
  - by apply Forall2_nil_inv_l in H12 as ->.
  - apply Forall2_cons_inv_l in H12 as (m2 & l2' & Hm' & H12 & ->).
    constructor; [by eapply with_points_trans|by apply IH].
Qed.

Lemma Forall2_with_points_insert (ms : list Marker) (i : nat) (m m' : Marker) :
  ms !! i = Some m -> with_points m m' -> Forall2 with_points ms (<[i := m']> ms).
Proof.
  revert i. induction ms as [|m0 ms IH]; intros [|i] Hi Hm; simplify_eq/=.
  - constructor; [done|apply Forall2_with_points_refl].
  - constructor; [apply with_points_refl|by apply IH].
Qed.

Lemma vector_at_Ok {A : Type} (v : list A) (i : Z) (a : A) :
  vector_at v i = Ok a <-> 0 <= i /\ v !! Z.to_nat i = Some a.
Proof.
  unfold vector_at. destruct (0 <=? i) eqn:E.
  - apply Z.leb_le in E. destruct (v !! Z.to_nat i) as [a'|].
    + split; [by intros [= ->]|by intros [_ [= ->]]].
    + split; [done|by intros [_ ?]].
  - apply Z.leb_gt in E. split; [done|lia].
Qed.

Lemma vector_at_in_range {A : Type} (v : list A) (i : Z) :
  0 <= i < Z.of_nat (length v) -> exists a, vector_at v i = Ok a.
Proof.
  intros Hi. destruct (lookup_lt_is_Some_2 v (Z.to_nat i)) as [a Ha]; [lia|].
  exists a. apply vector_at_Ok. split; [lia|done].
Qed.

Lemma vector_at_out_of_range {A : Type} (v : list A) (i : Z) :
  ~ 0 <= i < Z.of_nat (length v) -> vector_at v i = Fail std_out_of_range.
Proof.
  intros Hi. unfold vector_at. destruct (0 <=? i) eqn:E; [|done].
  apply Z.leb_le in E. rewrite lookup_ge_None_2; [done|lia].
Qed.

(** One record: the markers keep everything but their points, and the flag
    is raised by an associated record. *)
Lemma draw_object_data_inv (st st' : GroupMarkers) (object_data : ObjectData) :
  draw_object_data st object_data = Ok st' ->
  with_points (marker_track_boxes st) (marker_track_boxes st') /\
  Forall2 with_points (marker_detect_boxes_per_channel st)
    (marker_detect_boxes_per_channel st') /\
  Forall2 with_points (marker_detect_lines_per_channel st)
    (marker_detect_lines_per_channel st') /\
  group_is_associated st' = group_is_associated st || is_associated object_data.
Proof.
  unfold draw_object_data. destruct (is_associated object_data); simpl.
  - destruct (vector_at (marker_detect_boxes_per_channel st) _) as [mb|] eqn:Eb; [|done].
    destruct (vector_at (marker_detect_lines_per_channel st) _) as [ml|] eqn:El; [|done].
    simpl. intros [= <-]. simpl.
    apply vector_at_Ok in Eb as [_ Eb]. apply vector_at_Ok in El as [_ El].
    split_and!.
    + apply with_points_push_back.
    + eapply Forall2_with_points_insert; [done|apply with_points_push_back].
    + eapply Forall2_with_points_insert; [done|].
      eapply with_points_trans; apply with_points_push_back.
    + by rewrite orb_true_r.
  - intros [= <-]. simpl. split_and!.
    + apply with_points_push_back.
    + apply Forall2_with_points_refl.
    + apply Forall2_with_points_refl.
    + by rewrite orb_false_r.
Qed.

Lemma draw_object_data_loop_inv (object_data_group : list ObjectData)
    (st st' : GroupMarkers) :
  draw_object_data_loop object_data_group st = Ok st' ->
  with_points (marker_track_boxes st) (marker_track_boxes st') /\
  Forall2 with_points (marker_detect_boxes_per_channel st)
    (marker_detect_boxes_per_channel st') /\
  Forall2 with_points (marker_detect_lines_per_channel st)
    (marker_detect_lines_per_channel st') /\
  group_is_associated st'
  = group_is_associated st || existsb is_associated object_data_group.
Proof.
  revert st. induction object_data_group as [|r rest IH]; intros st; simpl.
  - intros [= <-]. split_and!.
    + apply with_points_refl.
    + apply Forall2_with_points_refl.
    + apply Forall2_with_points_refl.
    + by rewrite orb_false_r.
  - destruct (draw_object_data st r) as [st1|] eqn:E1; simpl; [|done].
    intros Hloop. apply draw_object_data_inv in E1 as (H1 & H2 & H3 & H4).
    apply IH in Hloop as (H1' & H2' & H3' & H4'). split_and!.
    + by eapply with_points_trans.
    + by eapply Forall2_with_points_trans.
    + by eapply Forall2_with_points_trans.
    + by rewrite H4', H4, orb_assoc.
Qed.

(** The loop goes through when the associated records name a channel of the
    configuration. *)
Lemma draw_object_data_loop_Ok (object_data_group : list ObjectData)
    (st : GroupMarkers) (channel_size : nat) :
  length (marker_detect_boxes_per_channel st) = channel_size ->
  length (marker_detect_lines_per_channel st) = channel_size ->
  Forall (fun r => is_associated r = true -> 0 <= channel_id r < Z.of_nat channel_size)
    object_data_group ->
  exists st', draw_object_data_loop object_data_group st = Ok st'.
Proof.
  revert st. induction object_data_group as [|r rest IH]; intros st Hb Hl Hall; simpl.
  - eauto.
  - apply Forall_cons in Hall as [Hr Hall].
    assert (exists st1, draw_object_data st r = Ok st1) as [st1 E1].
    { unfold draw_object_data. destruct (is_associated r); simpl; [|eauto].
      destruct (vector_at_in_range (marker_detect_boxes_per_channel st) (channel_id r))
        as [mb ->]; [rewrite Hb; auto|].
      destruct (vector_at_in_range (marker_detect_lines_per_channel st) (channel_id r))
        as [ml ->]; [rewrite Hl; auto|].
      simpl. eauto. }
    rewrite E1. simpl.
    apply draw_object_data_inv in E1 as (_ & H2 & H3 & _).
    apply IH; [| |done].
    + by rewrite <- (Forall2_length _ _ _ H2).
    + by rewrite <- (Forall2_length _ _ _ H3).
Qed.

(** It throws when an associated record names no channel of the
    configuration. *)
Lemma draw_object_data_out_of_range (st : GroupMarkers) (r : ObjectData) :
  is_associated r = true ->
  ~ 0 <= channel_id r < Z.of_nat (length (marker_detect_boxes_per_channel st)) ->
  draw_object_data st r = Fail std_out_of_range.
Proof.
  intros Ha Hr. unfold draw_object_data. rewrite Ha. simpl.
  by rewrite vector_at_out_of_range.
Qed.

(** ** The markers of a group *)

Lemma add_markers_from (per_channel : list Marker) (k i : nat) (marker_array : MarkerArray) :
  length per_channel = (i + k)%nat ->
  add_markers per_channel (seq i k) marker_array
  = Ok (marker_array ++ (delete_if_empty <$> drop i per_channel)).
Proof.
  revert i marker_array. induction k as [|k IH]; intros i marker_array Hlen; simpl.
  - rewrite drop_ge by lia. by rewrite app_nil_r.
  - destruct (lookup_lt_is_Some_2 per_channel i) as [m Hm]; [lia|].
    assert (vector_at per_channel (Z.of_nat i) = Ok m) as ->.
    { apply vector_at_Ok. rewrite Nat2Z.id. split; [lia|done]. }
    simpl. rewrite IH by lia. rewrite (drop_S _ _ _ Hm). simpl.
    by rewrite <- app_assoc.
Qed.

(** Every marker of the vector is pushed, the ones without points as DELETE. *)
Lemma add_markers_all (per_channel : list Marker) (marker_array : MarkerArray) :
  add_markers per_channel (seq 0 (length per_channel)) marker_array
  = Ok (marker_array ++ (delete_if_empty <$> per_channel)).
Proof. by rewrite add_markers_from. Qed.

Section Draw.

Variable hash_value : boost_uuid -> Z.

(** The markers the loop over the records starts from. *)
Definition initial_markers (this : TrackerObjectDebugger) (object_data_front : ObjectData)
  : GroupMarkers :=
  let marker := reference_marker hash_value this object_data_front in
  {| marker_track_boxes := make_marker_track_boxes marker;
     marker_detect_boxes_per_channel :=
       imap (make_marker_detect_boxes marker) (channels_config_ this);
     marker_detect_lines_per_channel :=
       imap (make_marker_lines marker) (channels_config_ this);
     group_is_associated := false |}.

(** The label and the track boxes as they are pushed: gray when no record of
    the group is associated. *)
Definition final_text_marker (this : TrackerObjectDebugger) (object_data_front : ObjectData)
    (text : string) (associated : bool) : Marker :=
  let text_marker :=
    make_text_marker (reference_marker hash_value this object_data_front)
      object_data_front text in
  if negb associated then gray_text text_marker else text_marker.

Definition final_track_boxes (st : GroupMarkers) : Marker :=
  if negb (group_is_associated st) then gray_track_boxes (marker_track_boxes st)
  else marker_track_boxes st.

(** [draw_group], step by step. *)
Lemma draw_group_inv (this : TrackerObjectDebugger) (front : ObjectData)
    (rest : list ObjectData) (markers : list Marker) :
  draw_group hash_value this (front :: rest) = Ok markers ->
  exists text st,
    existence_probability_text this front = Ok text /\
    draw_object_data_loop (front :: rest) (initial_markers this front) = Ok st /\
    group_is_associated st = existsb is_associated (front :: rest) /\
    markers
    = (delete_if_empty <$> marker_detect_boxes_per_channel st)
      ++ (delete_if_empty <$> marker_detect_lines_per_channel st)
      ++ [final_text_marker this front text (group_is_associated st);
          final_track_boxes st].
Proof.
  unfold draw_group.
  destruct (existence_probability_text this front) as [text|] eqn:Et; [|done].
  cbn [bind].
  change {| marker_track_boxes := _; marker_detect_boxes_per_channel := _;
            marker_detect_lines_per_channel := _; group_is_associated := _ |}
    with (initial_markers this front).
  destruct (draw_object_data_loop (front :: rest) (initial_markers this front))
    as [st|] eqn:Eloop; [|done].
  cbn [bind].
  pose proof (draw_object_data_loop_inv _ _ _ Eloop) as (_ & Hb & Hl & Ha).
  apply Forall2_length in Hb, Hl.
  unfold initial_markers in Hb, Hl. cbn [marker_detect_boxes_per_channel
    marker_detect_lines_per_channel] in Hb, Hl. rewrite length_imap in Hb, Hl.
  rewrite Hb at 1. rewrite add_markers_all. cbn [bind].
  rewrite Hl. rewrite add_markers_all. cbn [bind].
  intros [= <-]. exists text, st. split_and!; [done..|].
  by rewrite <- app_assoc.
Qed.

(** [draw] pushes the markers of the groups, group after group. *)
Lemma draw_loop_inv (this : TrackerObjectDebugger)
    (object_data_groups : list (list ObjectData)) (marker_array out : MarkerArray) :
  draw_loop hash_value this object_data_groups marker_array = Ok out ->
  exists outs,
    out = marker_array ++ concat outs /\
    Forall2 (fun g markers => draw_group hash_value this g = Ok markers)
      object_data_groups outs.
Proof.
  revert marker_array. induction object_data_groups as [|g gs IH]; intros marker_array.
  - intros [= <-]. exists []. by rewrite app_nil_r.
  - cbn [draw_loop].
    destruct (draw_group hash_value this g) as [markers|] eqn:Eg; [|done]. cbn [bind].
    intros (outs & -> & HF)%IH. exists (markers :: outs). split.
    + simpl. by rewrite <- app_assoc.
    + by constructor.
Qed.

Lemma draw_inv (this : TrackerObjectDebugger)
    (object_data_groups : list (list ObjectData)) (marker_array out : MarkerArray) :
  draw hash_value this object_data_groups marker_array = Ok out ->
  exists outs,
    out = concat outs /\
    Forall2 (fun g markers => draw_group hash_value this g = Ok markers)
      object_data_groups outs.
Proof. unfold draw. by intros (outs & -> & HF)%draw_loop_inv; eauto. Qed.

Lemma draw_loop_Ok (this : TrackerObjectDebugger)
    (object_data_groups : list (list ObjectData)) (marker_array : MarkerArray) :
  Forall (fun g => exists markers, draw_group hash_value this g = Ok markers)
    object_data_groups ->
  exists out, draw_loop hash_value this object_data_groups marker_array = Ok out.
Proof.
  intros HF. revert marker_array.
  induction HF as [|g gs [markers Hg] _ IH]; intros marker_array; cbn [draw_loop].
  - eauto.
  - rewrite Hg. cbn [bind]. apply IH.
Qed.

End Draw.

(** ** The label text and the threshold *)

(** The strings of a list, one after the other. *)
Definition flat (l : list string) : string := fold_right String.append EmptyString l.

Lemma concat_empty_sep (l : list string) : String.concat "" l = flat l.
Proof.
  induction l as [|s l IH]; [done|]. simpl. rewrite <- IH.
  destruct l; simpl; [by rewrite append_nil_r|done].
Qed.

(** The first line of the label. *)
Definition total_line (object_data_front : ObjectData) : string :=
  ("total:" ++
   to_string (static_cast_int (total_existence_probability object_data_front * 100)%float)
   ++ newline)%string.

(** The text, in terms of the entries of the channels. *)
Lemma existence_probability_text_entries (this : TrackerObjectDebugger)
    (front : ObjectData) (text : string) :
  existence_probability_text this front = Ok text <->
  (length (channels_config_ this) <= length (existence_vector front))%nat /\
  text
  = (pop_back
       (total_line front ++
        flat (zip_with channel_entry (channels_config_ this) (existence_vector front)))
     ++ newline ++ substr0 6 (uuid_str front))%string.
Proof.
  unfold existence_probability_text.
  destruct (decide (length (channels_config_ this) <= length (existence_vector front))%nat)
    as [Hlen|Hlen].
  - rewrite existence_probability_loop_Ok by (simpl; lia). cbn [bind].
    rewrite concat_empty_sep, drop_0.
    change (("" ++ "total:") ++ _ ++ newline)%string with (total_line front).
    assert (empty (total_line front ++ flat (zip_with channel_entry (channels_config_ this)
                     (existence_vector front))) = false) as -> by done.
    cbn [negb]. split; [by intros [= <-]|by intros [_ ->]].
  - rewrite existence_probability_loop_short by (simpl; lia). cbn [bind].

    split; [done|]. by intros [? _].
Qed.

(** C9: the label text of a group is its first line and, channel after
    channel, the entry of each channel, less the last character, then a new
    line and the start of the display string. The entry of a channel whose
    probability is strictly below 0.00101 is empty; the entry of a channel
    whose probability is at or above 0.00101 is the short name of the channel
    followed by the integer percentage (and the separator). *)
Theorem label_entries_by_threshold (this : TrackerObjectDebugger)
    (front : ObjectData) (text : string) :
  existence_probability_text this front = Ok text ->
  exists entries,
    text
    = (pop_back (total_line front ++ flat entries)
       ++ newline ++ substr0 6 (uuid_str front))%string /\
    length entries = length (channels_config_ this) /\
    forall i channel p entry,
      channels_config_ this !! i = Some channel ->
      existence_vector front !! i = Some p ->
      entries !! i = Some entry ->
      ((p <? 0.00101)%float = true -> entry = EmptyString) /\
      ((0.00101 <=? p)%float = true ->
       entry
       = (types.short_name channel ++
          to_string (static_cast_int (p * 100)%float) ++ ":")%string).
Proof.
  intros [Hlen ->]%existence_probability_text_entries.
  exists (zip_with channel_entry (channels_config_ this) (existence_vector front)).
  split_and!; [done|rewrite length_zip_with; lia|].
  intros i channel p entry Hc Hp. rewrite lookup_zip_with, Hc, Hp. simpl.
  intros [= <-]. unfold channel_entry. split.
  - by intros ->.
  - intros Hle. by rewrite (leb_not_ltb _ _ Hle).
Qed.


Lemma label_entries_by_threshold_witness :
  exists entries,
    ("total:99" ++ newline ++ "L99" ++ newline ++ "0f0e0d")%string
    = (pop_back (total_line (demo_front merge_sorter) ++ flat entries)
       ++ newline ++ substr0 6 (uuid_str (demo_front merge_sorter)))%string /\
    length entries = length (channels_config_ demo_debugger) /\
    forall i channel p entry,
      channels_config_ demo_debugger !! i = Some channel ->
      existence_vector (demo_front merge_sorter) !! i = Some p ->
      entries !! i = Some entry ->
      ((p <? 0.00101)%float = true -> entry = EmptyString) /\
      ((0.00101 <=? p)%float = true ->
       entry
       = (types.short_name channel ++
          to_string (static_cast_int (p * 100)%float) ++ ":")%string).
Proof.
  apply (label_entries_by_threshold demo_debugger (demo_front merge_sorter)).
  vm_compute. reflexivity.
Defined.

(** ** The label text as a whole *)

(** A channel is shown unless its probability is below the threshold. *)
Definition shown (cp : types.InputChannel * float) : Prop :=
  (snd cp <? 0.00101)%float = false.

#[local] Instance shown_dec (cp : types.InputChannel * float) : Decision (shown cp).
Proof. unfold shown. apply _. Defined.

(** What is written for a channel that is shown: its short name and the
    percentage, the probability times 100 cut to an integer. *)
Definition channel_item (cp : types.InputChannel * float) : string :=
  (types.short_name (fst cp) ++ to_string (static_cast_int (snd cp * 100)%float))%string.

Definition label_items (channels : list types.InputChannel) (existence_vector : list float)
  : list string :=
  channel_item <$> filter shown (zip channels existence_vector).

Lemma flat_cons (s : string) (l : list string) : flat (s :: l) = (s ++ flat l)%string.
Proof. reflexivity. Qed.

Lemma flat_entries_items channels existence_vector :
  flat (zip_with channel_entry channels existence_vector)
  = flat ((fun item => item ++ ":")%string <$> label_items channels existence_vector).
Proof.
  revert existence_vector.
  induction channels as [|channel rest IH]; intros [|p existence_vector]; try done.
  unfold label_items. cbn [zip_with]. rewrite flat_cons, IH, filter_cons.
  unfold label_items.
  destruct (decide (shown (channel, p))) as [Hs|Hs]; unfold shown in Hs; cbn [snd] in Hs.
  - rewrite !fmap_cons, flat_cons. unfold channel_entry. rewrite Hs.
    unfold channel_item. cbn [fst snd]. by rewrite !append_assoc.
  - apply not_false_is_true in Hs. unfold channel_entry. by rewrite Hs.
Qed.

Lemma flat_separated (items : list string) :
  items <> [] ->
  flat ((fun item => item ++ ":")%string <$> items)
  = (String.concat ":" items ++ ":")%string.
Proof.
  induction items as [|item items IH]; [done|]. intros _.
  rewrite fmap_cons, flat_cons.
  destruct items as [|item' items].
  - cbn. by rewrite append_nil_r.
  - rewrite IH by done.
    change (String.concat ":" (item :: item' :: items))
      with (item ++ ":" ++ String.concat ":" (item' :: items))%string.
    by rewrite !append_assoc.
Qed.

(** The text when at least one channel is shown: the last character taken
    off is the separator after the last channel. *)
Lemma existence_probability_text_shown (this : TrackerObjectDebugger) (front : ObjectData) :
  (length (channels_config_ this) <= length (existence_vector front))%nat ->
  label_items (channels_config_ this) (existence_vector front) <> [] ->
  existence_probability_text this front
  = Ok ("total:" ++
        to_string (static_cast_int (total_existence_probability front * 100)%float) ++
        newline ++
        String.concat ":" (label_items (channels_config_ this) (existence_vector front)) ++
        newline ++ substr0 6 (uuid_str front))%string.
Proof.
  intros Hlen Hitems. apply existence_probability_text_entries. split; [done|].
  rewrite flat_entries_items, flat_separated by done.
  rewrite <- (append_assoc (total_line front)), pop_back_append. unfold total_line.
  by rewrite !append_assoc.
Qed.

(** X20: the text when no channel is shown: the last character taken off is
    the new line after the total, so the display string follows the total
    after a single new line. *)
Lemma existence_probability_text_none_shown (this : TrackerObjectDebugger)
    (front : ObjectData) :
  (length (channels_config_ this) <= length (existence_vector front))%nat ->
  label_items (channels_config_ this) (existence_vector front) = [] ->
  existence_probability_text this front
  = Ok ("total:" ++
        to_string (static_cast_int (total_existence_probability front * 100)%float) ++
        newline ++ substr0 6 (uuid_str front))%string.
Proof.
  intros Hlen Hitems. apply existence_probability_text_entries. split; [done|].
  rewrite flat_entries_items, Hitems. cbn [fmap list_fmap flat fold_right].
  rewrite append_nil_r. unfold total_line.
  set (total := to_string _).
  assert (pop_back ("total:" ++ total ++ newline) = "total:" ++ total)%string as ->.
  { rewrite <- append_assoc. apply pop_back_append. }
  by rewrite append_assoc.
Qed.

(** ** The markers [draw] pushes *)

Lemma with_points_fields (m0 m : Marker) :
  with_points m0 m ->
  ns m = ns m0 /\ type m = type m0 /\ action m = action m0 /\ color m = color m0.
Proof. intros ->. by destruct m0. Qed.

Lemma imap_Forall2 {A B : Type} (f : nat -> A -> B) (l : list A) :
  Forall2 (fun a b => exists i, b = f i a) l (imap f l).
Proof.
  revert f. induction l as [|a l IH]; intros f; [constructor|].
  rewrite imap_cons. constructor; [exists 0%nat; reflexivity|].
  eapply Forall2_impl; [apply IH|]. intros a' b [i ->]. by exists (S i).
Qed.

Lemma Forall2_compose {A B C : Type} (P : A -> B -> Prop) (Q : B -> C -> Prop)
    (l : list A) (k : list B) (m : list C) :
  Forall2 P l k -> Forall2 Q k m -> Forall2 (fun a c => exists b, P a b /\ Q b c) l m.
Proof.
  intros HP. revert m. induction HP as [|a b l k Hab _ IH]; intros m HQ.
  - apply Forall2_nil_inv_l in HQ as ->. constructor.
  - apply Forall2_cons_inv_l in HQ as (c & m' & Hbc & HQ & ->).
    constructor; [by exists b|by apply IH].
Qed.

(** A channel marker as it is pushed: DELETE without points, else as it was. *)
Lemma delete_if_empty_fields (m : Marker) :
  ns (delete_if_empty m) = ns m /\
  type (delete_if_empty m) = type m /\
  points (delete_if_empty m) = points m /\
  color (delete_if_empty m) = color m /\
  action (delete_if_empty m)
  = match points m with [] => DELETE | _ :: _ => action m end.
Proof. unfold delete_if_empty. destruct m as [? ? ? ? ? ? ? ? ? ? ps ?]. by destruct ps. Qed.

Section Draw_properties.

Variable hash_value : boost_uuid -> Z.

(** Splits the output of [draw] into the markers of each group. *)
Ltac per_group Hdraw outs HF :=
  apply draw_inv in Hdraw as (outs & -> & HF);
  exists outs; split; [reflexivity|];
  eapply Forall2_impl; [exact HF|]; clear HF.

Lemma draw_group_nil (this : TrackerObjectDebugger) (markers : list Marker) :
  draw_group hash_value this [] = Ok markers -> markers = [].
Proof. by intros [= <-]. Qed.

(** C7: in the output of [draw], the markers of a non-empty group end with
    the label and the track boxes. When no record of the group is associated
    both are gray (0.5, 0.5, 0.5, with alpha 0.9 and 0.8); when a record is
    associated both keep their white (1, 1, 1, with alpha 1 and 0.9). *)
Theorem draw_gray_iff_unassociated (this : TrackerObjectDebugger)
    (object_data_groups : list (list ObjectData)) (marker_array out : MarkerArray) :
  draw hash_value this object_data_groups marker_array = Ok out ->
  exists outs,
    out = concat outs /\
    Forall2
      (fun g markers =>
         match g with
         | [] => markers = []
         | _ :: _ =>
             exists channel_markers text_marker track_boxes,
               markers = channel_markers ++ [text_marker; track_boxes] /\
               ns text_marker = "existence_probability" /\
               ns track_boxes = "track_boxes" /\
               if existsb is_associated g then
                 color text_marker
                 = {| std_msgs.r := 1.0; std_msgs.g := 1.0; std_msgs.b := 1.0;
                      std_msgs.a := 1.0 |} /\
                 color track_boxes
                 = {| std_msgs.r := 1.0; std_msgs.g := 1.0; std_msgs.b := 1.0;
                      std_msgs.a := 0.9 |}
               else
                 color text_marker
                 = {| std_msgs.r := 0.5; std_msgs.g := 0.5; std_msgs.b := 0.5;
                      std_msgs.a := 0.9 |} /\
                 color track_boxes
                 = {| std_msgs.r := 0.5; std_msgs.g := 0.5; std_msgs.b := 0.5;
                      std_msgs.a := 0.8 |}
         end)
      object_data_groups outs.
Proof.
  intros Hdraw. per_group Hdraw outs HF.
  intros [|front rest] markers Hg; [by apply draw_group_nil in Hg|].
  apply draw_group_inv in Hg as (text & st & _ & Hloop & Ha & ->).
  apply draw_object_data_loop_inv in Hloop as (Htrack & _ & _ & _).
  apply with_points_fields in Htrack as (Hns & _ & _ & Hcolor).
  eexists _, _, _. split; [by rewrite app_assoc|].
  unfold final_text_marker, final_track_boxes. rewrite <- Ha.
  destruct (group_is_associated st); cbn [negb]; by rewrite ?Hns, ?Hcolor.
Qed.

(** C8: in the output of [draw], the markers of a non-empty group start with
    one detection-box marker for every channel of the configuration, in the
    order of the channels, followed by one association-line marker for every
    channel, whatever their points; a marker without points has the action
    DELETE, one with points the action ADD. *)
Theorem draw_channel_markers_present (this : TrackerObjectDebugger)
    (object_data_groups : list (list ObjectData)) (marker_array out : MarkerArray) :
  draw hash_value this object_data_groups marker_array = Ok out ->
  exists outs,
    out = concat outs /\
    Forall2
      (fun g markers =>
         match g with
         | [] => markers = []
         | _ :: _ =>
             exists detect_boxes detect_lines text_marker track_boxes,
               markers = detect_boxes ++ detect_lines ++ [text_marker; track_boxes] /\
               Forall2
                 (fun channel m =>
                    ns m = ("detect_boxes_" ++ types.short_name channel)%string /\
                    type m = CUBE_LIST /\
                    action m = match points m with [] => DELETE | _ :: _ => ADD end)
                 (channels_config_ this) detect_boxes /\
               Forall2
                 (fun channel m =>
                    ns m = ("association_lines_" ++ types.short_name channel)%string /\
                    type m = LINE_LIST /\
                    action m = match points m with [] => DELETE | _ :: _ => ADD end)
                 (channels_config_ this) detect_lines
         end)
      object_data_groups outs.
Proof.
  intros Hdraw. per_group Hdraw outs HF.
  intros [|front rest] markers Hg; [by apply draw_group_nil in Hg|].
  apply draw_group_inv in Hg as (text & st & _ & Hloop & _ & ->).
  apply draw_object_data_loop_inv in Hloop as (_ & Hb & Hl & _).
  eexists _, _, _, _. split; [reflexivity|]. split.
  - apply Forall2_fmap_r.
    eapply Forall2_impl; [exact (Forall2_compose _ _ _ _ _ (imap_Forall2 _ _) Hb)|].
    intros channel m (m0 & [i ->] & Hm). unfold compose. cbn beta.
    apply with_points_fields in Hm as (Hns & Htype & Haction & _).
    destruct (delete_if_empty_fields m) as (-> & -> & -> & _ & ->).
    rewrite Hns, Htype, Haction. done.
  - apply Forall2_fmap_r.
    eapply Forall2_impl; [exact (Forall2_compose _ _ _ _ _ (imap_Forall2 _ _) Hl)|].
    intros channel m (m0 & [i ->] & Hm). unfold compose. cbn beta.
    apply with_points_fields in Hm as (Hns & Htype & Haction & _).
    destruct (delete_if_empty_fields m) as (-> & -> & -> & _ & ->).
    rewrite Hns, Htype, Haction. done.
Qed.

Lemma final_text_marker_text (this : TrackerObjectDebugger) (front : ObjectData)
    (text0 : string) (associated : bool) :
  text (final_text_marker hash_value this front text0 associated) = text0.
Proof. by destruct associated. Qed.

(** C2, as the code has it: in the output of [draw], the label of a non-empty
    group with at least one channel that is shown (a channel of the
    configuration whose probability in the first record is not below
    0.00101) has the text "total:", the total probability times 100 cut to an
    integer, a new line, the shown channels (short name and probability
    times 100 cut to an integer) separated by ":", a new line and the first
    six characters of the display string. *)
Theorem draw_label_text (this : TrackerObjectDebugger)
    (object_data_groups : list (list ObjectData)) (marker_array out : MarkerArray) :
  draw hash_value this object_data_groups marker_array = Ok out ->
  exists outs,
    out = concat outs /\
    Forall2
      (fun g markers =>
         match g with
         | [] => markers = []
         | front :: _ =>
             exists channel_markers text_marker track_boxes,
               markers = channel_markers ++ [text_marker; track_boxes] /\
               (label_items (channels_config_ this) (existence_vector front) <> [] ->
                text text_marker
                = ("total:" ++
                   to_string
                     (static_cast_int (total_existence_probability front * 100)%float) ++
                   newline ++
                   String.concat ":"
                     (label_items (channels_config_ this) (existence_vector front)) ++
                   newline ++ substr0 6 (uuid_str front))%string)
         end)
      object_data_groups outs.
Proof.
  intros Hdraw. per_group Hdraw outs HF.
  intros [|front rest] markers Hg; [by apply draw_group_nil in Hg|].
  apply draw_group_inv in Hg as (text0 & st & Htext & _ & _ & ->).
  eexists _, _, _. split; [by rewrite app_assoc|].
  intros Hshown. rewrite final_text_marker_text.
  pose proof (proj1 (existence_probability_text_entries _ _ _) Htext) as [Hlen _].
  rewrite (existence_probability_text_shown this front Hlen Hshown) in Htext.
  by injection Htext as <-.
Qed.

(** The text of the label of a group is the text generated from its first
    record. *)
Lemma draw_label_generated (this : TrackerObjectDebugger)
    (object_data_groups : list (list ObjectData)) (marker_array out : MarkerArray) :
  draw hash_value this object_data_groups marker_array = Ok out ->
  exists outs,
    out = concat outs /\
    Forall2
      (fun g markers =>
         match g with
         | [] => markers = []
         | front :: _ =>
             exists channel_markers text_marker track_boxes,
               markers = channel_markers ++ [text_marker; track_boxes] /\
               existence_probability_text this front = Ok (text text_marker)
         end)
      object_data_groups outs.
Proof.
  intros Hdraw. per_group Hdraw outs HF.
  intros [|front rest] markers Hg; [by apply draw_group_nil in Hg|].
  apply draw_group_inv in Hg as (text0 & st & Htext & _ & _ & ->).
  eexists _, _, _. split; [by rewrite app_assoc|].
  by rewrite final_text_marker_text.
Qed.

(** [draw_group] goes through when the first record has a probability for
    every channel and the associated records name a channel. *)
Lemma draw_group_Ok (this : TrackerObjectDebugger) (g : list ObjectData) :
  match g with
  | [] => True
  | front :: _ =>
      (length (channels_config_ this) <= length (existence_vector front))%nat
  end ->
  Forall
    (fun r =>
       is_associated r = true ->
       0 <= channel_id r < Z.of_nat (length (channels_config_ this)))
    g ->
  exists markers, draw_group hash_value this g = Ok markers.
Proof.
  destruct g as [|front rest]; [by eexists|]. intros Hlen Hall.
  unfold draw_group.
  rewrite (proj2 (existence_probability_text_entries this front _) (conj Hlen eq_refl)).
  cbn [bind].
  change {| marker_track_boxes := _; marker_detect_boxes_per_channel := _;
            marker_detect_lines_per_channel := _; group_is_associated := _ |}
    with (initial_markers hash_value this front).
  destruct (draw_object_data_loop_Ok (front :: rest) (initial_markers hash_value this front)
              (length (channels_config_ this))) as [st Hloop];
    [apply length_imap|apply length_imap|done|].
  rewrite Hloop. cbn [bind].
  apply draw_object_data_loop_inv in Hloop as (_ & Hb & Hl & _).
  apply Forall2_length in Hb, Hl.
  unfold initial_markers in Hb, Hl. cbn [marker_detect_boxes_per_channel
    marker_detect_lines_per_channel] in Hb, Hl. rewrite length_imap in Hb, Hl.
  eexists. rewrite Hb at 1. rewrite add_markers_all. cbn [bind].
  rewrite Hl. rewrite add_markers_all. cbn [bind]. reflexivity.
Qed.

(** C10, as the code has it: when in every group every record has its
    [channel_id] among the indices of the configured channels and an
    [existence_vector] at least as long as the configuration, [draw] returns
    its markers: no access by index ends out of range. The condition is
    enough, it is not needed: the channel is looked up for associated
    records only, the probabilities in the first record of a group only. *)
Theorem draw_total_when_indices_in_range (this : TrackerObjectDebugger)
    (object_data_groups : list (list ObjectData)) (marker_array : MarkerArray) :
  Forall
    (Forall
       (fun r =>
          0 <= channel_id r < Z.of_nat (length (channels_config_ this)) /\
          (length (channels_config_ this) <= length (existence_vector r))%nat))
    object_data_groups ->
  exists out, draw hash_value this object_data_groups marker_array = Ok out.
Proof.
  intros Hall. unfold draw. apply draw_loop_Ok.
  eapply Forall_impl; [exact Hall|]. intros g Hg. apply draw_group_Ok.
  - destruct g as [|front rest]; [done|]. by apply Forall_cons in Hg as [[_ ?] _].
  - eapply Forall_impl; [exact Hg|]. by intros r [? _] _.
Qed.

End Draw_properties.

(** ** The scene, drawn *)

(** A stand-in for [boost::uuids::hash_value]: the byte-wise [hash_combine]
    of the older Boost releases, on 64 bits. *)
Definition demo_hash_value (u : boost_uuid) : Z :=
  fold_left
    (fun seed i =>
       Z.lxor seed
         ((Z.of_N (uuid_byte u i) + 0x9e3779b9 + Z.shiftl seed 6 + Z.shiftr seed 2)
          mod 2 ^ 64))
    (seq 0 16) 0.

Definition demo_markers (sorter : StdSort) : MarkerArray :=
  match getMessage demo_hash_value (demo_processed sorter) [] with
  | Ok out => out
  | Fail _ => []
  end.

(** Two channels, the car associated on channel 0 only, the bike on none:
    for each group the two detection-box markers, the two line markers, the
    label and the track boxes. *)
Example demo_markers_summary :
  map (fun m => (ns m, action m, length (points m), text m, color m))
    (demo_markers merge_sorter)
  = [ ("detect_boxes_L", DELETE, 0%nat, "", channel_color 0);
      ("detect_boxes_R", DELETE, 0%nat, "", channel_color 1);
      ("association_lines_L", DELETE, 0%nat, "", channel_color 0);
      ("association_lines_R", DELETE, 0%nat, "", channel_color 1);
      ("existence_probability", ADD, 0%nat,
       ("total:25" ++ newline ++ "000102")%string,
       {| std_msgs.r := 0.5; std_msgs.g := 0.5; std_msgs.b := 0.5; std_msgs.a := 0.9 |});
      ("track_boxes", ADD, 2%nat, "",
       {| std_msgs.r := 0.5; std_msgs.g := 0.5; std_msgs.b := 0.5; std_msgs.a := 0.8 |});
      ("detect_boxes_L", ADD, 1%nat, "", channel_color 0);
      ("detect_boxes_R", DELETE, 0%nat, "", channel_color 1);
      ("association_lines_L", ADD, 2%nat, "", channel_color 0);
      ("association_lines_R", DELETE, 0%nat, "", channel_color 1);
      ("existence_probability", ADD, 0%nat,
       ("total:99" ++ newline ++ "L99" ++ newline ++ "0f0e0d")%string,
       {| std_msgs.r := 1.0; std_msgs.g := 1.0; std_msgs.b := 1.0; std_msgs.a := 1.0 |});
      ("track_boxes", ADD, 2%nat, "",
       {| std_msgs.r := 1.0; std_msgs.g := 1.0; std_msgs.b := 1.0; std_msgs.a := 0.9 |}) ].
Proof. vm_compute. reflexivity. Qed.

Example demo_getMessage :
  getMessage demo_hash_value (demo_processed merge_sorter) []
  = Ok (demo_markers merge_sorter).
Proof. vm_compute. reflexivity. Qed.

(** An associated record that names no channel makes [draw] throw; a first
    record with too short a vector makes it read outside the vector. *)
Example draw_throws_out_of_range :
  draw demo_hash_value demo_debugger
    [[ {| time := 5; uuid := 7%N; uuid_str := "07"; channel_id := 2;
          tracker_point := demo_point 0 0 0; detection_point := demo_point 1 0 0;
          is_associated := true; existence_vector := [0.5; 0.5]%float;
          total_existence_probability := 0.5 |} ]] []
  = Fail std_out_of_range.
Proof. vm_compute. reflexivity. Qed.

Example draw_reads_outside_vector :
  draw demo_hash_value demo_debugger
    [[ {| time := 5; uuid := 7%N; uuid_str := "07"; channel_id := 0;
          tracker_point := demo_point 0 0 0; detection_point := demo_point 0 0 0;
          is_associated := false; existence_vector := [0.5]%float;
          total_existence_probability := 0.5 |} ]] []
  = Fail undefined_behaviour.
Proof. vm_compute. reflexivity. Qed.

(** An unassociated record may name any channel. *)
Example draw_ignores_channel_of_unassociated :
  exists out,
    draw demo_hash_value demo_debugger
      [[ {| time := 5; uuid := 7%N; uuid_str := "07"; channel_id := 2;
            tracker_point := demo_point 0 0 0; detection_point := demo_point 0 0 0;
            is_associated := false; existence_vector := [0.5; 0.5]%float;
            total_existence_probability := 0.5 |} ]] []
    = Ok out.
Proof. eexists. vm_compute. reflexivity. Qed.

Lemma draw_gray_iff_unassociated_witness :
  exists outs,
    demo_markers merge_sorter = concat outs /\
    Forall2
      (fun g markers =>
         match g with
         | [] => markers = []
         | _ :: _ =>
             exists channel_markers text_marker track_boxes,
               markers = channel_markers ++ [text_marker; track_boxes] /\
               ns text_marker = "existence_probability" /\
               ns track_boxes = "track_boxes" /\
               if existsb is_associated g then
                 color text_marker
                 = {| std_msgs.r := 1.0; std_msgs.g := 1.0; std_msgs.b := 1.0;
                      std_msgs.a := 1.0 |} /\
                 color track_boxes
                 = {| std_msgs.r := 1.0; std_msgs.g := 1.0; std_msgs.b := 1.0;
                      std_msgs.a := 0.9 |}
               else
                 color text_marker
                 = {| std_msgs.r := 0.5; std_msgs.g := 0.5; std_msgs.b := 0.5;
                      std_msgs.a := 0.9 |} /\
                 color track_boxes
                 = {| std_msgs.r := 0.5; std_msgs.g := 0.5; std_msgs.b := 0.5;
                      std_msgs.a := 0.8 |}
         end)
      (object_data_groups_ (demo_processed merge_sorter)) outs.
Proof.
  apply (draw_gray_iff_unassociated demo_hash_value (demo_processed merge_sorter)
           (object_data_groups_ (demo_processed merge_sorter)) []).
  vm_compute. reflexivity.
Defined.

Lemma draw_channel_markers_present_witness :
  exists outs,
    demo_markers merge_sorter = concat outs /\
    Forall2
      (fun g markers =>
         match g with
         | [] => markers = []
         | _ :: _ =>
             exists detect_boxes detect_lines text_marker track_boxes,
               markers = detect_boxes ++ detect_lines ++ [text_marker; track_boxes] /\
               Forall2
                 (fun channel m =>
                    ns m = ("detect_boxes_" ++ types.short_name channel)%string /\
                    type m = CUBE_LIST /\
                    action m = match points m with [] => DELETE | _ :: _ => ADD end)
                 demo_channels detect_boxes /\
               Forall2
                 (fun channel m =>
                    ns m = ("association_lines_" ++ types.short_name channel)%string /\
                    type m = LINE_LIST /\
                    action m = match points m with [] => DELETE | _ :: _ => ADD end)
                 demo_channels detect_lines
         end)
      (object_data_groups_ (demo_processed merge_sorter)) outs.
Proof.
  apply (draw_channel_markers_present demo_hash_value (demo_processed merge_sorter)
           (object_data_groups_ (demo_processed merge_sorter)) []).
  vm_compute. reflexivity.
Defined.

Lemma draw_label_text_witness :
  exists outs,
    demo_markers merge_sorter = concat outs /\
    Forall2
      (fun g markers =>
         match g with
         | [] => markers = []
         | front :: _ =>
             exists channel_markers text_marker track_boxes,
               markers = channel_markers ++ [text_marker; track_boxes] /\
               (label_items demo_channels (existence_vector front) <> [] ->
                text text_marker
                = ("total:" ++
                   to_string
                     (static_cast_int (total_existence_probability front * 100)%float) ++
                   newline ++
                   String.concat ":" (label_items demo_channels (existence_vector front)) ++
                   newline ++ substr0 6 (uuid_str front))%string)
         end)
      (object_data_groups_ (demo_processed merge_sorter)) outs.
Proof.
  apply (draw_label_text demo_hash_value (demo_processed merge_sorter)
           (object_data_groups_ (demo_processed merge_sorter)) []).
  vm_compute. reflexivity.
Defined.

Lemma draw_total_when_indices_in_range_witness :
  exists out,
    draw demo_hash_value (demo_processed merge_sorter)
      (object_data_groups_ (demo_processed merge_sorter)) [] = Ok out.
Proof.
  apply (draw_total_when_indices_in_range demo_hash_value (demo_processed merge_sorter)).
  vm_compute. repeat constructor; discriminate.
Defined.

(** ** The label text in the words of the specification *)

(** [round]: the nearest integer, halves away from zero. *)
Definition round (f : float) : Z :=
  match Prim2SF f with
  | S754_finite s m e =>
      let a :=
        if 0 <=? e then Z.shiftl (Z.pos m) e
        else Z.shiftr (Z.shiftl (Z.pos m) 1 + Z.shiftl 1 (- e)) (- e + 1) in
      if s then - a else a
  | S754_zero _ | S754_infinity _ | S754_nan => 0
  end.

(** The text with rounded percentages: "total:", the rounded total, a new
    line, the channels at or above the threshold with their rounded
    percentages, separated by ":", a new line, six characters of the display
    string. *)
Definition label_text_rounded (channels : list types.InputChannel) (front : ObjectData)
  : string :=
  ("total:" ++ to_string (round (total_existence_probability front * 100)%float) ++
   newline ++
   String.concat ":"
     ((fun cp : types.InputChannel * float =>
         types.short_name (fst cp) ++ to_string (round (snd cp * 100)%float))
        <$> filter (fun cp : types.InputChannel * float => (0.00101 <=? snd cp)%float = true)
              (zip channels (existence_vector front))) ++
   newline ++ substr0 6 (uuid_str front))%string.

Example round_examples :
  (round 99.9, round 99.5, round 99.4, round 0.5, round (-1.5), round 100)
  = (100, 100, 99, 1, -2, 100).
Proof. vm_compute. reflexivity. Qed.

Example static_cast_int_examples :
  (static_cast_int 99.9, static_cast_int 99.5, static_cast_int 0.5,
   static_cast_int (-1.5), static_cast_int 100)
  = (99, 99, 0, -1, 100).
Proof. vm_compute. reflexivity. Qed.

(** The label of the car: total 0.999 and 0.999 on channel L. The code writes
    99 for both, the rounded text has 100. *)
Example demo_label_texts :
  existence_probability_text demo_debugger (demo_front merge_sorter)
  = Ok ("total:99" ++ newline ++ "L99" ++ newline ++ "0f0e0d")%string /\
  label_text_rounded demo_channels (demo_front merge_sorter)
  = ("total:100" ++ newline ++ "L100" ++ newline ++ "0f0e0d")%string.
Proof. split; vm_compute; reflexivity. Qed.

(** C2 as the claim words it, with rounded percentages, does not hold: the
    label of the car of the scene reads 99 where rounding gives 100. *)
Lemma draw_label_text_not_rounded :
  ~ (forall (hash_value : boost_uuid -> Z) (this : TrackerObjectDebugger)
            (object_data_groups : list (list ObjectData))
            (marker_array out : MarkerArray),
        draw hash_value this object_data_groups marker_array = Ok out ->
        exists outs,
          out = concat outs /\
          Forall2
            (fun g markers =>
               match g with
               | [] => markers = []
               | front :: _ =>
                   exists channel_markers text_marker track_boxes,
                     markers = channel_markers ++ [text_marker; track_boxes] /\
                     text text_marker = label_text_rounded (channels_config_ this) front
               end)
            object_data_groups outs).
Proof.
  intros Hclaim.
  set (g := [demo_front merge_sorter]).
  destruct (draw demo_hash_value demo_debugger [g] []) as [out|] eqn:Hdraw;
    [|by vm_compute in Hdraw].
  destruct (Hclaim _ _ _ _ _ Hdraw) as (outs & Hout & HF).
  apply Forall2_cons_inv_l in HF as (markers & outs' & Hg & HF & ->).
  apply Forall2_nil_inv_l in HF as ->.
  destruct Hg as (channel_markers & text_marker & track_boxes & -> & Htext).
  assert (text <$> (reverse out !! 1%nat) = Some (text text_marker)) as Hlast.
  { rewrite Hout. cbn [concat]. rewrite app_nil_r, reverse_app. done. }
  assert (text <$> (reverse out !! 1%nat)
          = Some ("total:99" ++ newline ++ "L99" ++ newline ++ "0f0e0d")%string) as Hcode.
  { vm_compute in Hdraw. injection Hdraw as <-. vm_compute. reflexivity. }
  rewrite Hlast, Htext in Hcode. vm_compute in Hcode. discriminate Hcode.
Qed.

(** ** Life cycle *)

(** The calls of a cycle other than [collect]. *)
Inductive idle_call : Type := call_reset | call_process.

Section Life_cycle.

Context {sorter : StdSort}.

Variable hash_value : boost_uuid -> Z.

Definition run_idle_call (c : idle_call) (this : TrackerObjectDebugger)
  : Result TrackerObjectDebugger :=
  match c with
  | call_reset => Ok (reset this)
  | call_process => process this
  end.

Fixpoint run_idle_calls (calls : list idle_call) (this : TrackerObjectDebugger)
  : Result TrackerObjectDebugger :=
  match calls with
  | [] => Ok this
  | c :: rest =>
      let* this := run_idle_call c this in
      run_idle_calls rest this
  end.

(** X17: before the first [collect], whatever is reset or processed,
    [getMessage] leaves the array of the caller as it is. *)
Lemma getMessage_before_collect (calls : list idle_call) (this : TrackerObjectDebugger)
    (marker_array : MarkerArray) :
  is_initialized_ this = false ->
  exists this',
    run_idle_calls calls this = Ok this' /\
    is_initialized_ this' = false /\
    getMessage hash_value this' marker_array = Ok marker_array.
Proof.
  revert this. induction calls as [|c rest IH]; intros this Hinit.
  - exists this. unfold getMessage. by rewrite Hinit.
  - destruct c; cbn [run_idle_calls run_idle_call bind].
    + by apply IH.
    + rewrite process_idle by (by left). cbn [bind]. by apply IH.
Qed.

Lemma draw_group_reset (this : TrackerObjectDebugger) (g : list ObjectData) :
  draw_group hash_value (reset this) g = draw_group hash_value this g.
Proof. by destruct g. Qed.

Lemma draw_loop_reset (this : TrackerObjectDebugger)
    (object_data_groups : list (list ObjectData)) (marker_array : MarkerArray) :
  draw_loop hash_value (reset this) object_data_groups marker_array
  = draw_loop hash_value this object_data_groups marker_array.
Proof.
  revert marker_array. induction object_data_groups as [|g gs IH]; intros marker_array.
  - done.
  - cbn [draw_loop]. rewrite draw_group_reset.
    destruct (draw_group hash_value this g); cbn [bind]; [apply IH|done].
Qed.

(** X21: [reset] leaves the groups, and with them what [getMessage] returns;
    a [process] after it, before new records, changes nothing either. *)
Lemma getMessage_after_reset (this : TrackerObjectDebugger) (marker_array : MarkerArray) :
  object_data_groups_ (reset this) = object_data_groups_ this /\
  process (reset this) = Ok (reset this) /\
  getMessage hash_value (reset this) marker_array
  = getMessage hash_value this marker_array.
Proof.
  split_and!; [done|by apply process_idle; right|].
  unfold getMessage, draw. cbn [is_initialized_ object_data_groups_ reset].
  destruct (negb (is_initialized_ this)); [done|]. apply draw_loop_reset.
Qed.

(** The states a debugger goes through: constructed, then any calls. *)
Inductive reachable : TrackerObjectDebugger -> Prop :=
| reachable_new frame_id channels_config :
    reachable (TrackerObjectDebugger_new frame_id channels_config)
| reachable_reset this :
    reachable this -> reachable (reset this)
| reachable_collect message_time list_tracker detected_objects direct_assignment this this' :
    reachable this ->
    collect message_time list_tracker detected_objects direct_assignment this = Ok this' ->
    reachable this'
| reachable_process this this' :
    reachable this -> process this = Ok this' -> reachable this'.

(** X18: records are only there once [collect] has run: the first guard of
    [process] never stops it on a non-empty list. *)
Lemma reachable_initialized (this : TrackerObjectDebugger) :
  reachable this -> object_data_list_ this <> [] -> is_initialized_ this = true.
Proof.
  induction 1 as [| |? ? ? ? this this' _ _ Hc|this this' _ IH Hp]; try done.
  - by apply collect_Ok in Hc as (records & _ & ->).
  - intros Hne. destruct (is_initialized_ this) eqn:Hinit.
    + destruct (object_data_list_ this) as [|r l] eqn:El.
      * rewrite process_idle in Hp by (by right). injection Hp as <-. by rewrite El in Hne.
      * destruct (process_runs this Hinit) as (us & gs & Hp' & _); [by rewrite El|].
        rewrite Hp' in Hp. by injection Hp as <-.
    + rewrite process_idle in Hp by (by left). injection Hp as <-.
      by rewrite (IH Hne) in Hinit.
Qed.

End Life_cycle.

(** C1 on the scene: after the two [collect] calls and [process], [reset]
    empties the list of records and [markers_], yet a [getMessage] that
    follows, with or without a [process] in between, returns the twelve
    markers of the two groups. *)
Theorem getMessage_after_reset_not_empty :
  let this := reset (demo_processed merge_sorter) in
  demo_cycle (sorter := merge_sorter) = Ok (demo_processed merge_sorter) /\
  object_data_list_ this = [] /\
  markers_ this = [] /\
  process (sorter := merge_sorter) this = Ok this /\
  getMessage demo_hash_value this [] = Ok (demo_markers merge_sorter) /\
  length (demo_markers merge_sorter) = 12%nat.
Proof. vm_compute. repeat split; reflexivity. Qed.

(** * Further properties of the code *)

(** ** Identities *)

(** A lowercase hexadecimal digit. *)
Definition is_lower_hex (c : ascii) : bool :=
  let n := N_of_ascii c in
  ((48 <=? n)%N && (n <=? 57)%N) || ((97 <=? n)%N && (n <=? 102)%N).

Lemma hex_digit_lower (d : N) : (d < 16)%N -> is_lower_hex (hex_digit d) = true.
Proof.
  intros Hd. rewrite <- (N2Nat.id d). assert (N.to_nat d < 16)%nat as H by lia.
  revert H. generalize (N.to_nat d). intros n Hn.
  do 16 (destruct n as [|n]; [reflexivity|]). lia.
Qed.

(** The digits [uuidToString] writes for the bytes at [idxs]. *)
Definition hex_of_bytes (u : UUID) (idxs : list nat) : string :=
  fold_right
    (fun i ss =>
       let b := uuid_byte u i in
       String (hex_digit (b / 16)) (String (hex_digit (b mod 16)) ss))
    EmptyString idxs.

Lemma hex_of_bytes_cons (u : UUID) (i : nat) (idxs : list nat) :
  hex_of_bytes u (i :: idxs)
  = String (hex_digit (uuid_byte u i / 16))
      (String (hex_digit (uuid_byte u i mod 16)) (hex_of_bytes u idxs)).
Proof. reflexivity. Qed.

Lemma uuid_bytes_hex (u : UUID) (idxs : list nat) :
  String.length (hex_of_bytes u idxs) = (2 * length idxs)%nat /\
  Forall (fun c => is_lower_hex c = true) (list_ascii_of_string (hex_of_bytes u idxs)).
Proof.
  induction idxs as [|i idxs [IHlen IHall]]; [by split|].
  pose proof (uuid_byte_lt u i) as Hb. rewrite hex_of_bytes_cons. split.
  - cbn [String.length length]. rewrite IHlen. lia.
  - cbn [list_ascii_of_string]. repeat apply Forall_cons_2; [| |exact IHall].
    + apply hex_digit_lower, N.Div0.div_lt_upper_bound. lia.
    + apply hex_digit_lower. by apply N.mod_lt.
Qed.

(** X1: [uuidToString] writes exactly 32 characters, each a lowercase
    hexadecimal digit, whatever the bytes of the identifier. *)
Theorem uuidToString_hex32 (uuid_msg : UUID) :
  String.length (uuidToString uuid_msg) = 32%nat /\
  Forall (fun c => is_lower_hex c = true) (list_ascii_of_string (uuidToString uuid_msg)).
Proof. exact (uuid_bytes_hex uuid_msg (seq 0 16)). Qed.

(** X2: the conversion to a boost identifier through the hexadecimal string
    never throws and gives back the 16 bytes it was given. *)
Theorem uuidToBoostUuid_round_trip (uuid_msg : UUID) :
  (uuid_msg < 2 ^ 128)%N -> uuidToBoostUuid uuid_msg = Ok uuid_msg.
Proof. intros Hu. rewrite uuidToBoostUuid_value. by rewrite N.mod_small. Qed.

Lemma uuidToBoostUuid_round_trip_witness :
  uuidToBoostUuid 0x0f0e0d0c0b0a09080706050403020100%N
  = Ok 0x0f0e0d0c0b0a09080706050403020100%N.
Proof.
  apply (uuidToBoostUuid_round_trip 0x0f0e0d0c0b0a09080706050403020100%N).
  reflexivity.
Defined.

(** X3: two identifiers with the same hexadecimal string are the same
    identifier. *)
Theorem uuidToString_injective (u v : UUID) :
  (u < 2 ^ 128)%N -> (v < 2 ^ 128)%N ->
  uuidToString u = uuidToString v -> u = v.
Proof.
  intros Hu Hv Heq.
  pose proof (uuidToBoostUuid_value u) as Hbu.
  pose proof (uuidToBoostUuid_value v) as Hbv.
  unfold uuidToBoostUuid in Hbu, Hbv. rewrite Heq, Hbv in Hbu.
  injection Hbu as Hmod. by rewrite !N.mod_small in Hmod.
Qed.

Lemma uuidToString_injective_witness : 255%N = 255%N.
Proof.
  apply (uuidToString_injective 255%N 255%N); reflexivity.
Defined.

(** ** [collect], record by record *)

Lemma point_eta (p : geometry_msgs.Point) :
  {| geometry_msgs.x := geometry_msgs.x p; geometry_msgs.y := geometry_msgs.y p;
     geometry_msgs.z := geometry_msgs.z p |} = p.
Proof. by destruct p. Qed.

(** What the record of one tracker holds. *)
Definition record_of
    (message_time : Time) (detected_objects : types.DynamicObjectList)
    (direct_assignment : gmap Z Z) (tracker_idx : Z) (tracker : Tracker)
    (r : ObjectData) : Prop :=
  time r = message_time /\
  uuid r = (types.uuid (getTrackedObject tracker message_time) mod 2 ^ 128)%N /\
  uuid_str r = getUuidString tracker /\
  channel_id r = types.channel_index detected_objects /\
  tracker_point r = types.pose_position (getTrackedObject tracker message_time) /\
  existence_vector r = getExistenceProbabilityVector tracker /\
  total_existence_probability r = getTotalExistenceProbability tracker /\
  match direct_assignment !! tracker_idx with
  | Some detection_idx =>
      is_associated r = true /\
      exists associated_object,
        0 <= detection_idx /\
        types.objects detected_objects !! Z.to_nat detection_idx = Some associated_object /\
        detection_point r = types.pose_position associated_object
  | None => is_associated r = false /\ detection_point r = tracker_point r
  end.

Lemma collect_object_data_Ok message_time detected_objects direct_assignment
    tracker_idx tracker r :
  collect_object_data message_time detected_objects direct_assignment tracker_idx tracker
  = Ok r ->
  record_of message_time detected_objects direct_assignment tracker_idx tracker r.
Proof.
  unfold collect_object_data, record_of. rewrite uuidToBoostUuid_value. cbn [bind].
  destruct (direct_assignment !! tracker_idx) as [detection_idx|].
  - destruct (vector_at _ detection_idx) as [o|] eqn:Eo; cbn [bind]; [|done].
    intros [= <-]. cbn. rewrite !point_eta. apply vector_at_Ok in Eo as [? ?].
    split_and!; try done. by exists o.
  - cbn [bind]. intros [= <-]. cbn. by rewrite !point_eta.
Qed.

(** A tracker gives a record unless its entry in the map names no detection,
    in which case [at] throws. *)
Lemma collect_object_data_cases message_time detected_objects direct_assignment
    tracker_idx tracker :
  match direct_assignment !! tracker_idx with
  | Some detection_idx =>
      if decide (0 <= detection_idx < Z.of_nat (length (types.objects detected_objects)))
      then exists r,
          collect_object_data message_time detected_objects direct_assignment
            tracker_idx tracker = Ok r
      else collect_object_data message_time detected_objects direct_assignment
             tracker_idx tracker = Fail std_out_of_range
  | None =>
      exists r,
        collect_object_data message_time detected_objects direct_assignment
          tracker_idx tracker = Ok r
  end.
Proof.
  unfold collect_object_data. rewrite uuidToBoostUuid_value. cbn [bind].
  destruct (direct_assignment !! tracker_idx) as [detection_idx|]; [|by eexists].
  destruct (decide _) as [Hin|Hout].
  - destruct (vector_at_in_range _ _ Hin) as [o ->]. by eexists.
  - by rewrite vector_at_out_of_range.
Qed.

Lemma collect_loop_lookup message_time detected_objects direct_assignment
    (tracker_idx : Z) (list_tracker : list Tracker) (records : list ObjectData) :
  collect_loop message_time detected_objects direct_assignment tracker_idx list_tracker []
  = Ok records ->
  length records = length list_tracker /\
  forall i tracker r,
    list_tracker !! i = Some tracker -> records !! i = Some r ->
    record_of message_time detected_objects direct_assignment
      (tracker_idx + Z.of_nat i) tracker r.
Proof.
  revert tracker_idx records.
  induction list_tracker as [|tracker0 rest IH]; intros tracker_idx records.
  - intros [= <-]. split; [done|]. intros i ? ? Hi. by rewrite lookup_nil in Hi.
  - cbn [collect_loop].
    destruct (collect_object_data _ _ _ tracker_idx tracker0) as [r0|] eqn:E0;
      cbn [bind]; [|done].
    rewrite collect_loop_acc.
    destruct (collect_loop _ _ _ (tracker_idx + 1) rest []) as [records'|] eqn:Eloop;
      cbn [bind]; [|done].
    intros [= <-]. apply IH in Eloop as [Hlen Hall]. split.
    + cbn. by rewrite Hlen.
    + intros [|i] tracker r Ht Hr.
      * injection Ht as <-. injection Hr as <-.
        change (Z.of_nat 0) with 0. rewrite Z.add_0_r. by apply collect_object_data_Ok.
      * replace (tracker_idx + Z.of_nat (S i)) with (tracker_idx + 1 + Z.of_nat i) by lia.
        by apply Hall.
Qed.

(** X4: a [collect] that returns has set the flag and the time, kept the
    groups and the records that were there, and added one record for each
    tracker, in the order of the trackers. The record of the tracker at
    position [i] holds the time of the call, the identifier and the position
    of the tracked object, the display string and the probabilities of the
    tracker and the channel of the detections; it is associated exactly when
    the map has an entry for [i], and then its detection point is the
    position of the detection the entry names. *)
Theorem collect_appends_records
    (message_time : Time) (list_tracker : list Tracker)
    (detected_objects : types.DynamicObjectList) (direct_assignment : gmap Z Z)
    (this this' : TrackerObjectDebugger) :
  collect message_time list_tracker detected_objects direct_assignment this = Ok this' ->
  is_initialized_ this' = true /\
  message_time_ this' = message_time /\
  object_data_groups_ this' = object_data_groups_ this /\
  exists records,
    object_data_list_ this' = object_data_list_ this ++ records /\
    length records = length list_tracker /\
    forall i tracker r,
      list_tracker !! i = Some tracker -> records !! i = Some r ->
      record_of message_time detected_objects direct_assignment (Z.of_nat i) tracker r.
Proof.
  intros (records & Hloop & ->)%collect_Ok. split_and!; try done.
  exists records. split; [done|]. by apply collect_loop_lookup in Hloop as [? ?].
Qed.

Lemma collect_appends_records_witness :
  is_initialized_ demo_collected = true /\
  message_time_ demo_collected = 5 /\
  object_data_groups_ demo_collected = [] /\
  exists records,
    object_data_list_ demo_collected = take 2 (object_data_list_ demo_collected) ++ records /\
    length records = 2%nat /\
    forall i tracker r,
      [car; bike] !! i = Some tracker -> records !! i = Some r ->
      record_of 5 (demo_detections 1) ∅ (Z.of_nat i) tracker r.
Proof.
  apply (collect_appends_records 5 [car; bike] (demo_detections 1) ∅
           {| frame_id_ := "map"; channels_config_ := demo_channels;
              is_initialized_ := true; message_time_ := 5;
              object_data_list_ := take 2 (object_data_list_ demo_collected);
              object_data_groups_ := []; markers_ := [] |} demo_collected).
  vm_compute. reflexivity.
Defined.

Lemma collect_object_data_Ok_or_throws message_time detected_objects direct_assignment
    tracker_idx tracker :
  (exists r,
     collect_object_data message_time detected_objects direct_assignment
       tracker_idx tracker = Ok r) \/
  collect_object_data message_time detected_objects direct_assignment
    tracker_idx tracker = Fail std_out_of_range.
Proof.
  pose proof (collect_object_data_cases message_time detected_objects direct_assignment
                tracker_idx tracker) as H.
  destruct (direct_assignment !! tracker_idx); [|by left].
  destruct (decide _); [by left|by right].
Qed.

Lemma collect_loop_in_range message_time detected_objects direct_assignment
    (tracker_idx : Z) (list_tracker : list Tracker) :
  (forall i detection_idx,
     (i < length list_tracker)%nat ->
     direct_assignment !! (tracker_idx + Z.of_nat i) = Some detection_idx ->
     0 <= detection_idx < Z.of_nat (length (types.objects detected_objects))) ->
  exists records,
    collect_loop message_time detected_objects direct_assignment tracker_idx
      list_tracker [] = Ok records.
Proof.
  revert tracker_idx. induction list_tracker as [|tracker rest IH]; intros tracker_idx Hin.
  - by eexists.
  - cbn [collect_loop].
    pose proof (collect_object_data_cases message_time detected_objects direct_assignment
                  tracker_idx tracker) as H0.
    assert (exists r, collect_object_data message_time detected_objects direct_assignment
                        tracker_idx tracker = Ok r) as [r ->].
    { destruct (direct_assignment !! tracker_idx) as [j|] eqn:Ej; [|done].
      rewrite decide_True in H0; [done|].
      apply (Hin 0%nat); [cbn; lia|]. by rewrite Z.add_0_r. }
    cbn [bind]. rewrite collect_loop_acc.
    destruct (IH (tracker_idx + 1)) as [records ->]; [|by eexists].
    intros i j Hi Hj. apply (Hin (S i)); [cbn; lia|].
    by replace (tracker_idx + Z.of_nat (S i)) with (tracker_idx + 1 + Z.of_nat i) by lia.
Qed.

Lemma collect_loop_out_of_range message_time detected_objects direct_assignment
    (tracker_idx : Z) (list_tracker : list Tracker) (acc : list ObjectData)
    (i : nat) (detection_idx : Z) :
  (i < length list_tracker)%nat ->
  direct_assignment !! (tracker_idx + Z.of_nat i) = Some detection_idx ->
  ~ 0 <= detection_idx < Z.of_nat (length (types.objects detected_objects)) ->
  collect_loop message_time detected_objects direct_assignment tracker_idx
    list_tracker acc = Fail std_out_of_range.
Proof.
  revert tracker_idx acc i.
  induction list_tracker as [|tracker rest IH]; intros tracker_idx acc i Hi Hj Hout.
  - cbn in Hi. lia.
  - cbn [collect_loop]. destruct i as [|i].
    + pose proof (collect_object_data_cases message_time detected_objects
                    direct_assignment tracker_idx tracker) as H0.
      rewrite Z.add_0_r in Hj. rewrite Hj, decide_False in H0 by done.
      by rewrite H0.
    + destruct (collect_object_data_Ok_or_throws message_time detected_objects
                  direct_assignment tracker_idx tracker) as [[r ->]| ->]; [|done].
      cbn [bind]. apply (IH _ _ i); [cbn in Hi; lia| |done].
      by replace (tracker_idx + 1 + Z.of_nat i) with (tracker_idx + Z.of_nat (S i)) by lia.
Qed.

(** X5: [collect] returns whenever every entry of the map for a tracker of
    the list names a detection of the list; entries for other indices are
    not looked at, and the state of the debugger plays no part. *)
Theorem collect_Ok_when_assignment_in_range
    (message_time : Time) (list_tracker : list Tracker)
    (detected_objects : types.DynamicObjectList) (direct_assignment : gmap Z Z)
    (this : TrackerObjectDebugger) :
  (forall i detection_idx,
     (i < length list_tracker)%nat ->
     direct_assignment !! Z.of_nat i = Some detection_idx ->
     0 <= detection_idx < Z.of_nat (length (types.objects detected_objects))) ->
  exists this',
    collect message_time list_tracker detected_objects direct_assignment this = Ok this'.
Proof.
  intros Hin.
  destruct (collect_loop_in_range message_time detected_objects direct_assignment 0
              list_tracker) as [records Hloop]; [exact Hin|].
  eexists. by apply collect_from_records.
Qed.

Lemma collect_Ok_when_assignment_in_range_witness :
  exists this',
    collect 5 [car; bike] (demo_detections 0) {[ 0 := 0; 7 := 9 ]} demo_debugger = Ok this'.
Proof.
  apply (collect_Ok_when_assignment_in_range 5 [car; bike] (demo_detections 0)
           {[ 0 := 0; 7 := 9 ]} demo_debugger).
  intros [|[|i]] j Hi; cbn in Hi; [| |lia].
  - vm_compute. intros [= <-]. done.
  - vm_compute. discriminate.
Defined.

(** X6: [collect] throws [std::out_of_range] as soon as the map sends a
    tracker of the list to an index that is negative or not below the number
    of detections. *)
Theorem collect_throws_when_assignment_out_of_range
    (message_time : Time) (list_tracker : list Tracker)
    (detected_objects : types.DynamicObjectList) (direct_assignment : gmap Z Z)
    (this : TrackerObjectDebugger) (i : nat) (detection_idx : Z) :
  (i < length list_tracker)%nat ->
  direct_assignment !! Z.of_nat i = Some detection_idx ->
  ~ 0 <= detection_idx < Z.of_nat (length (types.objects detected_objects)) ->
  collect message_time list_tracker detected_objects direct_assignment this
  = Fail std_out_of_range.
Proof.
  intros Hi Hj Hout. unfold collect.
  by rewrite (collect_loop_out_of_range _ _ _ 0 _ _ i detection_idx).
Qed.

Lemma collect_throws_when_assignment_out_of_range_witness :
  collect 5 [car; bike] (demo_detections 0) {[ 1 := 1 ]} demo_debugger
  = Fail std_out_of_range.
Proof.
  apply (collect_throws_when_assignment_out_of_range 5 [car; bike] (demo_detections 0)
           {[ 1 := 1 ]} demo_debugger 1 1).
  - cbn. lia.
  - reflexivity.
  - cbn. lia.
Defined.

(** ** [process], again *)

Section Process_again.

Context {sorter : StdSort}.

(** Two debuggers with the same records, in any order, get the same groups. *)
Lemma process_permuted_lists (this1 this2 d1 d2 : TrackerObjectDebugger) :
  is_initialized_ this1 = true -> is_initialized_ this2 = true ->
  object_data_list_ this1 <> [] ->
  object_data_list_ this1 ≡ₚ object_data_list_ this2 ->
  process this1 = Ok d1 -> process this2 = Ok d2 ->
  Forall2 Permutation (object_data_groups_ d1) (object_data_groups_ d2).
Proof.
  intros Hi1 Hi2 Hne1 Hperm.
  assert (object_data_list_ this2 <> []) as Hne2.
  { intros Hnil. apply Hne1, Permutation_nil_r. by rewrite Hperm, Hnil. }
  destruct (process_runs this1 Hi1 Hne1) as (us1 & gs1 & -> & Hg1).
  destruct (process_runs this2 Hi2 Hne2) as (us2 & gs2 & -> & Hg2).
  intros [= <-] [= <-]. cbn [object_data_groups_].
  pose proof (std_sort_Permutation _ uuid_less (object_data_list_ this1)) as Hs1.
  pose proof (std_sort_Permutation _ uuid_less (object_data_list_ this2)) as Hs2.
  assert (us1 = us2) as <-.
  { apply ascending_unique; [by destruct Hg1 as (_ & ? & _)|by destruct Hg2 as (_ & ? & _)|].
    intros u. rewrite (grouped_identities _ _ _ u Hg1), (grouped_identities _ _ _ u Hg2).
    by setoid_rewrite Hs1; setoid_rewrite Hs2; setoid_rewrite Hperm. }
  rewrite (grouped_filter _ _ _ Hg1), (grouped_filter _ _ _ Hg2).
  apply Forall2_fmap, Forall_Forall2_diag, Forall_forall. intros u _.
  by rewrite Hs1, Hs2, Hperm.
Qed.

(** X7: [process] can be called again: the second call returns as well,
    leaves the same records in the list and the same groups, in the same
    order, each with the same records. *)
Theorem process_twice (this d1 : TrackerObjectDebugger) :
  process this = Ok d1 ->
  exists d2,
    process d1 = Ok d2 /\
    object_data_list_ d2 ≡ₚ object_data_list_ d1 /\
    Forall2 Permutation (object_data_groups_ d1) (object_data_groups_ d2).
Proof.
  intros Hp.
  destruct (is_initialized_ this) eqn:Hinit; [|].
  - destruct (object_data_list_ this) as [|r l] eqn:El.
    + rewrite process_idle in Hp by (by right). injection Hp as <-.
      exists this. split_and!; [by apply process_idle; right|done|].
      by apply Forall_Forall2_diag, Forall_forall.
    + assert (object_data_list_ this <> []) as Hne by (by rewrite El).
      destruct (process_runs this Hinit Hne) as (us & gs & Hp' & Hg).
      rewrite Hp' in Hp. injection Hp as <-.
      pose proof (std_sort_Permutation _ uuid_less (object_data_list_ this)) as Hs.
      set (d1 := {| frame_id_ := frame_id_ this;
                    channels_config_ := channels_config_ this;
                    is_initialized_ := true;
                    message_time_ := message_time_ this;
                    object_data_list_ := std_sort uuid_less (object_data_list_ this);
                    object_data_groups_ := gs;
                    markers_ := markers_ this |}) in *.
      assert (object_data_list_ d1 <> []) as Hne1.
      { cbn. intros Hnil. apply Hne, Permutation_nil_r. by rewrite <- Hs, Hnil. }
      destruct (process_runs d1 eq_refl Hne1) as (us2 & gs2 & Hp2 & Hg2).
      eexists. split; [exact Hp2|]. split; [cbn; apply std_sort_Permutation|].
      apply (process_permuted_lists this d1 d1 _ Hinit eq_refl Hne); [|exact Hp'|exact Hp2].
      cbn. by rewrite Hs.
  - rewrite process_idle in Hp by (by left). injection Hp as <-.
    exists this. split_and!; [by apply process_idle; left|done|].
    by apply Forall_Forall2_diag, Forall_forall.
Qed.

End Process_again.

Lemma process_twice_witness :
  exists d2,
    process (sorter := reversing_sorter) (demo_processed reversing_sorter) = Ok d2 /\
    object_data_list_ d2 ≡ₚ object_data_list_ (demo_processed reversing_sorter) /\
    Forall2 Permutation
      (object_data_groups_ (demo_processed reversing_sorter)) (object_data_groups_ d2).
Proof.
  apply (process_twice (sorter := reversing_sorter) demo_collected
           (demo_processed reversing_sorter)).
  vm_compute. reflexivity.
Defined.

(** ** The points of the markers *)

(** The box of a record on the track: the tracker point, raised. *)
Definition track_box_point (r : ObjectData) : geometry_msgs.Point :=
  {| geometry_msgs.x := geometry_msgs.x (tracker_point r);
     geometry_msgs.y := geometry_msgs.y (tracker_point r);
     geometry_msgs.z := (geometry_msgs.z (tracker_point r) + marker_height_offset)%float |}.

(** The box of its detection: the detection point, raised twice. *)
Definition detect_box_point (r : ObjectData) : geometry_msgs.Point :=
  {| geometry_msgs.x := geometry_msgs.x (detection_point r);
     geometry_msgs.y := geometry_msgs.y (detection_point r);
     geometry_msgs.z :=
       (geometry_msgs.z (detection_point r)
        + marker_height_offset + assign_height_offset)%float |}.

(** The segment from the one to the other. *)
Definition association_line (r : ObjectData) : list geometry_msgs.Point :=
  [track_box_point r; detect_box_point r].

(** [r] is associated, on the channel of index [i]. *)
Definition on_channel (i : nat) (r : ObjectData) : Prop :=
  is_associated r = true /\ channel_id r = Z.of_nat i.

#[local] Instance on_channel_dec (i : nat) (r : ObjectData) : Decision (on_channel i r).
Proof. unfold on_channel. apply _. Defined.

Lemma points_push_back_points (m : Marker) (p : geometry_msgs.Point) :
  points (points_push_back m p) = points m ++ [p].
Proof. reflexivity. Qed.

Lemma filter_on_channel_singleton (i : nat) (r : ObjectData) :
  filter (on_channel i) [r] = if decide (on_channel i r) then [r] else [].
Proof. by rewrite filter_cons, filter_nil. Qed.

Local Ltac fold_marks :=
  cbn [marker_track_boxes marker_detect_boxes_per_channel
       marker_detect_lines_per_channel].

Lemma draw_object_data_points (st st' : GroupMarkers) (r : ObjectData) :
  draw_object_data st r = Ok st' ->
  points (marker_track_boxes st') = points (marker_track_boxes st) ++ [track_box_point r] /\
  (forall i m,
     marker_detect_boxes_per_channel st !! i = Some m ->
     exists m',
       marker_detect_boxes_per_channel st' !! i = Some m' /\
       points m' = points m ++ (detect_box_point <$> filter (on_channel i) [r])) /\
  (forall i m,
     marker_detect_lines_per_channel st !! i = Some m ->
     exists m',
       marker_detect_lines_per_channel st' !! i = Some m' /\
       points m' = points m ++ (filter (on_channel i) [r] ≫= association_line)).
Proof.
  unfold draw_object_data. fold (track_box_point r). fold (detect_box_point r).
  destruct (is_associated r) eqn:Ea; cbn [negb].
  - destruct (vector_at (marker_detect_boxes_per_channel st) _) as [mb|] eqn:Eb; [|done].
    destruct (vector_at (marker_detect_lines_per_channel st) _) as [ml|] eqn:El; [|done].
    cbn [bind]. intros [= <-]. fold_marks.
    apply vector_at_Ok in Eb as [Hc Eb]. apply vector_at_Ok in El as [_ El].
    split_and!; [done| |].
    + intros i m Hm. rewrite filter_on_channel_singleton.
      destruct (decide (i = Z.to_nat (channel_id r))) as [->|Hne].
      * rewrite list_lookup_insert_eq by (by eapply lookup_lt_Some).
        eexists. split; [done|]. rewrite Eb in Hm. injection Hm as <-.
        rewrite decide_True by (split; [done|lia]). done.
      * rewrite list_lookup_insert_ne by done. exists m. split; [done|].
        rewrite decide_False; [by rewrite app_nil_r|].
        intros [_ Hi]. apply Hne. rewrite Hi. by rewrite Nat2Z.id.
    + intros i m Hm. rewrite filter_on_channel_singleton.
      destruct (decide (i = Z.to_nat (channel_id r))) as [->|Hne].
      * rewrite list_lookup_insert_eq by (by eapply lookup_lt_Some).
        eexists. split; [done|]. rewrite El in Hm. injection Hm as <-.
        rewrite decide_True by (split; [done|lia]).
        rewrite !points_push_back_points, <- app_assoc. done.
      * rewrite list_lookup_insert_ne by done. exists m. split; [done|].
        rewrite decide_False; [by rewrite app_nil_r|].
        intros [_ Hi]. apply Hne. rewrite Hi. by rewrite Nat2Z.id.
  - intros [= <-]. fold_marks. split_and!; [done| |].
    + intros i m Hm. exists m. split; [done|]. rewrite filter_on_channel_singleton.
      rewrite decide_False; [by rewrite app_nil_r|]. intros [? _]. congruence.
    + intros i m Hm. exists m. split; [done|]. rewrite filter_on_channel_singleton.
      rewrite decide_False; [by rewrite app_nil_r|]. intros [? _]. congruence.
Qed.

Lemma draw_object_data_loop_points (g : list ObjectData) (st st' : GroupMarkers) :
  draw_object_data_loop g st = Ok st' ->
  points (marker_track_boxes st')
  = points (marker_track_boxes st) ++ (track_box_point <$> g) /\
  (forall i m,
     marker_detect_boxes_per_channel st !! i = Some m ->
     exists m',
       marker_detect_boxes_per_channel st' !! i = Some m' /\
       points m' = points m ++ (detect_box_point <$> filter (on_channel i) g)) /\
  (forall i m,
     marker_detect_lines_per_channel st !! i = Some m ->
     exists m',
       marker_detect_lines_per_channel st' !! i = Some m' /\
       points m' = points m ++ (filter (on_channel i) g ≫= association_line)).
Proof.
  revert st. induction g as [|r rest IH]; intros st; cbn [draw_object_data_loop].
  - intros [= <-]. split_and!.
    + by rewrite app_nil_r.
    + intros i m Hm. exists m. by rewrite app_nil_r.
    + intros i m Hm. exists m. by rewrite app_nil_r.
  - destruct (draw_object_data st r) as [st1|] eqn:E1; cbn [bind]; [|done].
    intros Hloop. apply draw_object_data_points in E1 as (Ht & Hb & Hl).
    apply IH in Hloop as (Ht' & Hb' & Hl'). split_and!.
    + rewrite Ht', Ht, fmap_cons, <- app_assoc. done.
    + intros i m Hm. destruct (Hb i m Hm) as (m1 & Hm1 & Hp1).
      destruct (Hb' i m1 Hm1) as (m2 & Hm2 & Hp2). exists m2. split; [done|].
      rewrite Hp2, Hp1, <- app_assoc, <- fmap_app, <- filter_app. done.
    + intros i m Hm. destruct (Hl i m Hm) as (m1 & Hm1 & Hp1).
      destruct (Hl' i m1 Hm1) as (m2 & Hm2 & Hp2). exists m2. split; [done|].
      rewrite Hp2, Hp1, <- app_assoc, <- bind_app, <- filter_app. done.
Qed.

(** ** The markers of a group, field by field *)

(** [m] has the header, the id and the lifetime of [ref]. *)
Definition has_header (ref m : Marker) : Prop :=
  header_frame_id m = header_frame_id ref /\
  header_stamp m = header_stamp ref /\
  id m = id ref /\
  lifetime m = lifetime ref.

Lemma has_header_with_points (ref m0 m : Marker) :
  has_header ref m0 -> with_points m0 m -> has_header ref m.
Proof. intros H ->. by destruct m0. Qed.

Lemma has_header_delete_if_empty (ref m : Marker) :
  has_header ref m -> has_header ref (delete_if_empty m).
Proof. unfold delete_if_empty. destruct m as [? ? ? ? ? ? ? ? ? ? ps ?]. by destruct ps. Qed.

Lemma Forall2_with_points_Forall (Q : Marker -> Prop) (l0 l : list Marker) :
  (forall m0 m, Q m0 -> with_points m0 m -> Q m) ->
  Forall2 with_points l0 l -> Forall Q l0 -> Forall Q l.
Proof.
  intros HQ HF. induction HF as [|m0 m l0 l Hm _ IH]; [done|].
  intros [Hm0 Hl0]%Forall_cons. constructor; [by eapply HQ|by apply IH].
Qed.

Lemma Forall_imap {A B : Type} (Q : B -> Prop) (f : nat -> A -> B) (l : list A) :
  (forall i a, Q (f i a)) -> Forall Q (imap f l).
Proof.
  intros HQ. revert f HQ. induction l as [|a l IH]; intros f HQ; [constructor|].
  rewrite imap_cons. constructor; [apply HQ|]. apply IH. intros i a'. apply HQ.
Qed.

Lemma from_seconds_lifetime : from_seconds 0.15 = 150000000.
Proof. vm_compute. reflexivity. Qed.

Lemma uuidToInt_range (hash_value : boost_uuid -> Z) (u : boost_uuid) :
  INT_MIN <= uuidToInt hash_value u <= INT_MAX.
Proof.
  unfold uuidToInt, INT_MIN, INT_MAX.
  pose proof (Z.mod_pos_bound (hash_value u + 2 ^ 31) (2 ^ 32)). lia.
Qed.

Section Draw_fields.

Variable hash_value : boost_uuid -> Z.

Ltac per_group Hdraw outs HF :=
  apply draw_inv in Hdraw as (outs & -> & HF);
  exists outs; split; [reflexivity|];
  eapply Forall2_impl; [exact HF|]; clear HF.

(** X8: every marker of a group, the deleted ones too, carries the frame of
    the debugger, the time of the first record of the group, the lifetime of
    0.15 s and one id: the hash of the identity of the group, as an
    [int32_t]. *)
Theorem draw_markers_header (this : TrackerObjectDebugger)
    (object_data_groups : list (list ObjectData)) (marker_array out : MarkerArray) :
  draw hash_value this object_data_groups marker_array = Ok out ->
  exists outs,
    out = concat outs /\
    Forall2
      (fun g markers =>
         match g with
         | [] => markers = []
         | front :: _ =>
             INT_MIN <= uuidToInt hash_value (uuid front) <= INT_MAX /\
             Forall
               (fun m =>
                  header_frame_id m = frame_id_ this /\
                  header_stamp m = time front /\
                  id m = uuidToInt hash_value (uuid front) /\
                  lifetime m = 150000000)
               markers
         end)
      object_data_groups outs.
Proof.
  intros Hdraw. per_group Hdraw outs HF.
  intros [|front rest] markers Hg; [by intros; injection Hg as <-|].
  split; [apply uuidToInt_range|].
  apply draw_group_inv in Hg as (text0 & st & _ & Hloop & _ & ->).
  apply draw_object_data_loop_inv in Hloop as (Ht & Hb & Hl & _).
  set (ref := reference_marker hash_value this front).
  assert (forall m, has_header ref m ->
            header_frame_id m = frame_id_ this /\ header_stamp m = time front /\
            id m = uuidToInt hash_value (uuid front) /\ lifetime m = 150000000) as Href.
  { intros m (-> & -> & -> & ->). split_and!; try done; apply from_seconds_lifetime. }
  eapply Forall_impl; [|exact Href].
  repeat apply Forall_app_2.
  - apply Forall_fmap. eapply Forall_impl.
    + eapply (Forall2_with_points_Forall (has_header ref));
        [apply has_header_with_points|exact Hb|].
      apply Forall_imap. intros i channel. repeat split.
    + intros m Hm. by apply has_header_delete_if_empty.
  - apply Forall_fmap. eapply Forall_impl.
    + eapply (Forall2_with_points_Forall (has_header ref));
        [apply has_header_with_points|exact Hl|].
      apply Forall_imap. intros i channel. repeat split.
    + intros m Hm. by apply has_header_delete_if_empty.
  - apply Forall_cons_2; [|apply Forall_cons_2; [|constructor]].
    + unfold final_text_marker.
      destruct (negb (group_is_associated st)); repeat split.
    + unfold final_track_boxes.
      assert (has_header ref (marker_track_boxes st)) as H.
      { eapply has_header_with_points; [|exact Ht]. repeat split. }
      destruct (negb (group_is_associated st)); [|done].
      destruct H as (? & ? & ? & ?). by repeat split.
Qed.

(** X9: the track-box marker of a group is a CUBE_LIST with the action ADD
    and one point for each record of the group, in their order: the tracker
    point of the record raised by 1.0. *)
Theorem draw_track_box_points (this : TrackerObjectDebugger)
    (object_data_groups : list (list ObjectData)) (marker_array out : MarkerArray) :
  draw hash_value this object_data_groups marker_array = Ok out ->
  exists outs,
    out = concat outs /\
    Forall2
      (fun g markers =>
         match g with
         | [] => markers = []
         | _ :: _ =>
             exists other_markers track_boxes,
               markers = other_markers ++ [track_boxes] /\
               ns track_boxes = "track_boxes" /\
               type track_boxes = CUBE_LIST /\
               action track_boxes = ADD /\
               points track_boxes = track_box_point <$> g
         end)
      object_data_groups outs.
Proof.
  intros Hdraw. per_group Hdraw outs HF.
  intros [|front rest] markers Hg; [by injection Hg as <-|].
  apply draw_group_inv in Hg as (text0 & st & _ & Hloop & _ & ->).
  pose proof (draw_object_data_loop_points _ _ _ Hloop) as (Hp & _ & _).
  apply draw_object_data_loop_inv in Hloop as (Ht & _ & _ & _).
  apply with_points_fields in Ht as (Hns & Htype & Haction & _).
  exists ((delete_if_empty <$> marker_detect_boxes_per_channel st)
          ++ (delete_if_empty <$> marker_detect_lines_per_channel st)
          ++ [final_text_marker hash_value this front text0 (group_is_associated st)]),
    (final_track_boxes st).
  split; [by rewrite <- !app_assoc|].
  unfold final_track_boxes.
  destruct (negb (group_is_associated st));
    cbn [gray_track_boxes set_color ns type action points];
    rewrite ?Hns, ?Htype, ?Haction, Hp; done.
Qed.

Lemma filter_nil_Forall {A : Type} (P : A -> Prop) `{forall a, Decision (P a)}
    (l : list A) :
  filter P l = [] <-> Forall (fun a => ~ P a) l.
Proof.
  induction l as [|a l IH]; [done|]. rewrite filter_cons, Forall_cons.
  destruct (decide (P a)); [|by rewrite IH; intuition].
  split; [done|]. by intros [? _].
Qed.

(** The channel markers of a group: their number, points, colour, action. *)
Lemma draw_group_channels (this : TrackerObjectDebugger) (front : ObjectData)
    (rest : list ObjectData) (markers : list Marker) :
  draw_group hash_value this (front :: rest) = Ok markers ->
  exists detect_boxes detect_lines text_marker track_boxes,
    markers = detect_boxes ++ detect_lines ++ [text_marker; track_boxes] /\
    length detect_boxes = length (channels_config_ this) /\
    length detect_lines = length (channels_config_ this) /\
    (forall i box,
       detect_boxes !! i = Some box ->
       points box = detect_box_point <$> filter (on_channel i) (front :: rest) /\
       color box = channel_color i /\
       action box = match points box with [] => DELETE | _ :: _ => ADD end) /\
    (forall i line,
       detect_lines !! i = Some line ->
       points line = filter (on_channel i) (front :: rest) ≫= association_line /\
       color line = channel_color i /\
       action line = match points line with [] => DELETE | _ :: _ => ADD end).
Proof.
  intros Hg. apply draw_group_inv in Hg as (text0 & st & _ & Hloop & _ & ->).
  pose proof (draw_object_data_loop_points _ _ _ Hloop) as (_ & Hpb & Hpl).
  apply draw_object_data_loop_inv in Hloop as (_ & Hb & Hl & _).
  pose proof (Forall2_length _ _ _ Hb) as Hlenb.
  pose proof (Forall2_length _ _ _ Hl) as Hlenl.
  unfold initial_markers in Hlenb, Hlenl, Hpb, Hpl, Hb, Hl.
  cbn [marker_detect_boxes_per_channel marker_detect_lines_per_channel]
    in Hlenb, Hlenl, Hpb, Hpl, Hb, Hl.
  rewrite length_imap in Hlenb, Hlenl.
  eexists _, _, _, _. split; [reflexivity|].
  rewrite !length_fmap. split_and!; [done..| |].
  - intros i box. rewrite list_lookup_fmap.
    destruct (marker_detect_boxes_per_channel st !! i) as [m|] eqn:Em; [|done].
    intros [= <-].
    destruct (lookup_lt_is_Some_2 (channels_config_ this) i) as [channel Hc].
    { rewrite Hlenb. by eapply lookup_lt_Some. }
    destruct (Hpb i (make_marker_detect_boxes (reference_marker hash_value this front)
                       i channel)) as (m' & Hm' & Hp).
    { by rewrite list_lookup_imap, Hc. }
    rewrite Em in Hm'. injection Hm' as <-.
    pose proof (Forall2_lookup_lr _ _ _ i _ _ Hb
                  ltac:(by rewrite list_lookup_imap, Hc) Em) as Hw.
    apply with_points_fields in Hw as (_ & _ & Haction & Hcolor).
    destruct (delete_if_empty_fields m) as (_ & _ & -> & -> & ->).
    rewrite Hcolor, Haction, Hp. done.
  - intros i line. rewrite list_lookup_fmap.
    destruct (marker_detect_lines_per_channel st !! i) as [m|] eqn:Em; [|done].
    intros [= <-].
    destruct (lookup_lt_is_Some_2 (channels_config_ this) i) as [channel Hc].
    { rewrite Hlenl. by eapply lookup_lt_Some. }
    destruct (Hpl i (make_marker_lines (reference_marker hash_value this front)
                       i channel)) as (m' & Hm' & Hp).
    { by rewrite list_lookup_imap, Hc. }
    rewrite Em in Hm'. injection Hm' as <-.
    pose proof (Forall2_lookup_lr _ _ _ i _ _ Hl
                  ltac:(by rewrite list_lookup_imap, Hc) Em) as Hw.
    apply with_points_fields in Hw as (_ & _ & Haction & Hcolor).
    destruct (delete_if_empty_fields m) as (_ & _ & -> & -> & ->).
    rewrite Hcolor, Haction, Hp. done.
Qed.

(** X10: for each channel of the configuration, the detection-box marker of a
    group holds one point for each record of the group that is associated on
    this channel, in their order (the detection point raised by 1.6), and the
    line marker holds for each of them the segment from the raised tracker
    point to that point. *)
Theorem draw_channel_points (this : TrackerObjectDebugger)
    (object_data_groups : list (list ObjectData)) (marker_array out : MarkerArray) :
  draw hash_value this object_data_groups marker_array = Ok out ->
  exists outs,
    out = concat outs /\
    Forall2
      (fun g markers =>
         match g with
         | [] => markers = []
         | _ :: _ =>
             exists detect_boxes detect_lines text_marker track_boxes,
               markers = detect_boxes ++ detect_lines ++ [text_marker; track_boxes] /\
               length detect_boxes = length (channels_config_ this) /\
               length detect_lines = length (channels_config_ this) /\
               (forall i box,
                  detect_boxes !! i = Some box ->
                  points box = detect_box_point <$> filter (on_channel i) g) /\
               (forall i line,
                  detect_lines !! i = Some line ->
                  points line = filter (on_channel i) g ≫= association_line)
         end)
      object_data_groups outs.
Proof.
  intros Hdraw. per_group Hdraw outs HF.
  intros [|front rest] markers Hg; [by injection Hg as <-|].
  apply draw_group_channels in Hg
    as (detect_boxes & detect_lines & text_marker & track_boxes
        & -> & Hlb & Hll & Hb & Hl).
  exists detect_boxes, detect_lines, text_marker, track_boxes.
  split_and!; [done..| |].
  - intros i box Hi. by apply Hb.
  - intros i line Hi. by apply Hl.
Qed.

(** X11: the two markers of a channel have the colour of the palette at the
    index of the channel modulo 16, with alpha 0.9; they are marked DELETE
    when no record of the group is associated on the channel and ADD when
    one is. *)
Theorem draw_channel_action_and_color (this : TrackerObjectDebugger)
    (object_data_groups : list (list ObjectData)) (marker_array out : MarkerArray) :
  draw hash_value this object_data_groups marker_array = Ok out ->
  exists outs,
    out = concat outs /\
    Forall2
      (fun g markers =>
         match g with
         | [] => markers = []
         | _ :: _ =>
             exists detect_boxes detect_lines text_marker track_boxes,
               markers = detect_boxes ++ detect_lines ++ [text_marker; track_boxes] /\
               forall i m,
                 detect_boxes !! i = Some m \/ detect_lines !! i = Some m ->
                 color m = channel_color i /\
                 (Forall (fun r => ~ on_channel i r) g -> action m = DELETE) /\
                 (Exists (on_channel i) g -> action m = ADD)
         end)
      object_data_groups outs.
Proof.
  intros Hdraw. per_group Hdraw outs HF.
  intros [|front rest] markers Hg; [by injection Hg as <-|].
  apply draw_group_channels in Hg
    as (detect_boxes & detect_lines & text_marker & track_boxes
        & -> & Hlb & Hll & Hb & Hl).
  exists detect_boxes, detect_lines, text_marker, track_boxes. split; [done|].
  set (g := front :: rest) in *.
  assert (forall i, Exists (on_channel i) g -> filter (on_channel i) g <> []) as Hex.
  { intros i Hex Hnil. apply filter_nil_Forall in Hnil.
    apply Exists_exists in Hex as (r & Hr & Hon).
    rewrite Forall_forall in Hnil. by apply (Hnil r). }
  intros i m [Hm|Hm].
  - destruct (Hb i m Hm) as (Hp & -> & ->). rewrite Hp. split_and!; [done| |].
    + intros Hno. apply (proj2 (filter_nil_Forall _ _)) in Hno. by rewrite Hno.
    + intros Hsome%Hex. by destruct (filter (on_channel i) g).
  - destruct (Hl i m Hm) as (Hp & -> & ->). rewrite Hp. split_and!; [done| |].
    + intros Hno. apply (proj2 (filter_nil_Forall _ _)) in Hno. by rewrite Hno.
    + intros Hsome%Hex. by destruct (filter (on_channel i) g).
Qed.

(** X12: the label of a group is a TEXT_VIEW_FACING marker with the action
    ADD and no points, of height 0.5, placed at the tracker point of the first
    record of the group raised by 2.5 (the 1.8 added before is overwritten). *)
Theorem draw_label_placement (this : TrackerObjectDebugger)
    (object_data_groups : list (list ObjectData)) (marker_array out : MarkerArray) :
  draw hash_value this object_data_groups marker_array = Ok out ->
  exists outs,
    out = concat outs /\
    Forall2
      (fun g markers =>
         match g with
         | [] => markers = []
         | front :: _ =>
             exists channel_markers text_marker track_boxes,
               markers = channel_markers ++ [text_marker; track_boxes] /\
               type text_marker = TEXT_VIEW_FACING /\
               action text_marker = ADD /\
               points text_marker = [] /\
               geometry_msgs.vz (scale text_marker) = 0.5%float /\
               pose_position text_marker
               = {| geometry_msgs.x := geometry_msgs.x (tracker_point front);
                    geometry_msgs.y := geometry_msgs.y (tracker_point front);
                    geometry_msgs.z := (geometry_msgs.z (tracker_point front) + 2.5)%float |}
         end)
      object_data_groups outs.
Proof.
  intros Hdraw. per_group Hdraw outs HF.
  intros [|front rest] markers Hg; [by injection Hg as <-|].
  apply draw_group_inv in Hg as (text0 & st & _ & _ & _ & ->).
  eexists _, _, _. split; [by rewrite app_assoc|].
  unfold final_text_marker. by destruct (negb (group_is_associated st)).
Qed.

(** What [draw] needs of a group: a probability for every channel in the
    first record, and a channel of the configuration in every associated
    record. *)
Definition drawable (this : TrackerObjectDebugger) (g : list ObjectData) : Prop :=
  match g with
  | [] => True
  | front :: _ =>
      (length (channels_config_ this) <= length (existence_vector front))%nat
  end /\
  Forall
    (fun r =>
       is_associated r = true ->
       0 <= channel_id r < Z.of_nat (length (channels_config_ this)))
    g.

Lemma draw_object_data_loop_Ok_inv (g : list ObjectData) (st st' : GroupMarkers) :
  draw_object_data_loop g st = Ok st' ->
  Forall
    (fun r =>
       is_associated r = true ->
       0 <= channel_id r < Z.of_nat (length (marker_detect_boxes_per_channel st)))
    g.
Proof.
  revert st. induction g as [|r rest IH]; intros st; [constructor|].
  cbn [draw_object_data_loop].
  destruct (draw_object_data st r) as [st1|] eqn:E1; cbn [bind]; [|done].
  intros Hloop. constructor.
  - intros Ha.
    destruct (decide (0 <= channel_id r
                      < Z.of_nat (length (marker_detect_boxes_per_channel st))))
      as [|Hout]; [done|].
    by rewrite (draw_object_data_out_of_range st r Ha Hout) in E1.
  - apply draw_object_data_inv in E1 as (_ & Hb & _ & _).
    rewrite (Forall2_length _ _ _ Hb). by apply IH.
Qed.

Lemma draw_group_Ok_inv (this : TrackerObjectDebugger) (g : list ObjectData)
    (markers : list Marker) :
  draw_group hash_value this g = Ok markers -> drawable this g.
Proof.
  destruct g as [|front rest]; [by split|]. intros Hg.
  apply draw_group_inv in Hg as (text0 & st & Htext & Hloop & _ & _).
  apply existence_probability_text_entries in Htext as [Hlen _].
  apply draw_object_data_loop_Ok_inv in Hloop.
  unfold initial_markers in Hloop. cbn [marker_detect_boxes_per_channel] in Hloop.
  rewrite length_imap in Hloop. by split.
Qed.

(** X13: [draw] returns its markers exactly when every group is drawable:
    the first record of each non-empty group has a probability for every
    configured channel, and every associated record names a configured
    channel. Unassociated records may name any channel, and only the first
    record is asked for its probabilities. *)
Theorem draw_Ok_iff (this : TrackerObjectDebugger)
    (object_data_groups : list (list ObjectData)) (marker_array : MarkerArray) :
  (exists out, draw hash_value this object_data_groups marker_array = Ok out) <->
  Forall (drawable this) object_data_groups.
Proof.
  split.
  - intros [out (outs & _ & HF)%draw_inv].
    induction HF as [|g markers gs outs Hg _ IH]; constructor; [|done].
    by eapply draw_group_Ok_inv.
  - intros Hall. unfold draw. apply draw_loop_Ok.
    eapply Forall_impl; [exact Hall|]. intros g [Hlen Hr]. by apply draw_group_Ok.
Qed.

(** X14: [draw] pushes, for every non-empty group, two markers for each
    configured channel and two more; empty groups give none. *)
Theorem draw_marker_count (this : TrackerObjectDebugger)
    (object_data_groups : list (list ObjectData)) (marker_array out : MarkerArray) :
  draw hash_value this object_data_groups marker_array = Ok out ->
  length out
  = ((2 * length (channels_config_ this) + 2)
     * length (filter (fun g => g <> []) object_data_groups))%nat.
Proof.
  intros (outs & -> & HF)%draw_inv.
  induction HF as [|g markers gs outs Hg _ IH]; [cbn; lia|].
  cbn [concat]. rewrite length_app, IH, filter_cons.
  destruct g as [|front rest].
  - injection Hg as <-. rewrite decide_False by (by intros H; apply H). done.
  - rewrite decide_True by done.
    apply draw_group_channels in Hg as (db & dl & tm & tb & -> & Hlb & Hll & _).
    rewrite !length_app, Hlb, Hll. cbn [length]. lia.
Qed.

Lemma draw_loop_acc (this : TrackerObjectDebugger)
    (object_data_groups : list (list ObjectData)) (marker_array : MarkerArray) :
  draw_loop hash_value this object_data_groups marker_array
  = let* markers := draw_loop hash_value this object_data_groups [] in
    Ok (marker_array ++ markers).
Proof.
  revert marker_array.
  induction object_data_groups as [|g gs IH]; intros marker_array; cbn [draw_loop bind].
  - by rewrite app_nil_r.
  - destruct (draw_group hash_value this g) as [markers|]; cbn [bind]; [|done].
    rewrite (IH (marker_array ++ markers)), (IH ([] ++ markers)).
    destruct (draw_loop hash_value this gs []); cbn [bind]; [|done].
    by rewrite <- app_assoc.
Qed.

Lemma draw_loop_app (this : TrackerObjectDebugger)
    (groups1 groups2 : list (list ObjectData)) (marker_array : MarkerArray) :
  draw_loop hash_value this (groups1 ++ groups2) marker_array
  = let* markers1 := draw_loop hash_value this groups1 marker_array in
    draw_loop hash_value this groups2 markers1.
Proof.
  revert marker_array.
  induction groups1 as [|g gs IH]; intros marker_array; cbn [app draw_loop bind]; [done|].
  destruct (draw_group hash_value this g) as [markers|]; cbn [bind]; [|done].
  apply IH.
Qed.

(** X15: the markers of a list of groups are the markers of its first part
    followed by the markers of the rest: groups are drawn independently, and
    a failure in the first part is the failure of the whole. *)
Theorem draw_app (this : TrackerObjectDebugger)
    (groups1 groups2 : list (list ObjectData)) (marker_array : MarkerArray) :
  draw hash_value this (groups1 ++ groups2) marker_array
  = let* markers1 := draw hash_value this groups1 marker_array in
    let* markers2 := draw hash_value this groups2 marker_array in
    Ok (markers1 ++ markers2).
Proof.
  unfold draw. rewrite draw_loop_app.
  destruct (draw_loop hash_value this groups1 []) as [markers1|]; cbn [bind]; [|done].
  apply draw_loop_acc.
Qed.

(** X16: empty groups are skipped: [draw] gives the same result on the list
    without them. *)
Theorem draw_skips_empty_groups (this : TrackerObjectDebugger)
    (object_data_groups : list (list ObjectData)) (marker_array : MarkerArray) :
  draw hash_value this (filter (fun g => g <> []) object_data_groups) marker_array
  = draw hash_value this object_data_groups marker_array.
Proof.
  unfold draw. generalize (@nil Marker) as acc.
  induction object_data_groups as [|g gs IH]; intros acc; [done|].
  rewrite filter_cons. destruct g as [|front rest].
  - rewrite decide_False by (by intros H; apply H).
    cbn [draw_loop draw_group bind]. rewrite app_nil_r. apply IH.
  - rewrite decide_True by done. cbn [draw_loop].
    destruct (draw_group hash_value this (front :: rest)); cbn [bind]; [apply IH|done].
Qed.

End Draw_fields.

(** The scene again, for the properties of the markers. *)

Lemma draw_markers_header_witness :
  exists outs,
    demo_markers merge_sorter = concat outs /\
    Forall2
      (fun g markers =>
         match g with
         | [] => markers = []
         | front :: _ =>
             INT_MIN <= uuidToInt demo_hash_value (uuid front) <= INT_MAX /\
             Forall
               (fun m =>
                  header_frame_id m = frame_id_ (demo_processed merge_sorter) /\
                  header_stamp m = time front /\
                  id m = uuidToInt demo_hash_value (uuid front) /\
                  lifetime m = 150000000)
               markers
         end)
      (object_data_groups_ (demo_processed merge_sorter)) outs.
Proof.
  apply (draw_markers_header demo_hash_value (demo_processed merge_sorter)
           (object_data_groups_ (demo_processed merge_sorter)) []).
  vm_compute. reflexivity.
Defined.

Lemma draw_track_box_points_witness :
  exists outs,
    demo_markers merge_sorter = concat outs /\
    Forall2
      (fun g markers =>
         match g with
         | [] => markers = []
         | _ :: _ =>
             exists other_markers track_boxes,
               markers = other_markers ++ [track_boxes] /\
               ns track_boxes = "track_boxes" /\
               type track_boxes = CUBE_LIST /\
               action track_boxes = ADD /\
               points track_boxes = track_box_point <$> g
         end)
      (object_data_groups_ (demo_processed merge_sorter)) outs.
Proof.
  apply (draw_track_box_points demo_hash_value (demo_processed merge_sorter)
           (object_data_groups_ (demo_processed merge_sorter)) []).
  vm_compute. reflexivity.
Defined.

Lemma draw_channel_points_witness :
  exists outs,
    demo_markers merge_sorter = concat outs /\
    Forall2
      (fun g markers =>
         match g with
         | [] => markers = []
         | _ :: _ =>
             exists detect_boxes detect_lines text_marker track_boxes,
               markers = detect_boxes ++ detect_lines ++ [text_marker; track_boxes] /\
               length detect_boxes = length (channels_config_ (demo_processed merge_sorter)) /\
               length detect_lines = length (channels_config_ (demo_processed merge_sorter)) /\
               (forall i box,
                  detect_boxes !! i = Some box ->
                  points box = detect_box_point <$> filter (on_channel i) g) /\
               (forall i line,
                  detect_lines !! i = Some line ->
                  points line = filter (on_channel i) g ≫= association_line)
         end)
      (object_data_groups_ (demo_processed merge_sorter)) outs.
Proof.
  apply (draw_channel_points demo_hash_value (demo_processed merge_sorter)
           (object_data_groups_ (demo_processed merge_sorter)) []).
  vm_compute. reflexivity.
Defined.

Lemma draw_channel_action_and_color_witness :
  exists outs,
    demo_markers merge_sorter = concat outs /\
    Forall2
      (fun g markers =>
         match g with
         | [] => markers = []
         | _ :: _ =>
             exists detect_boxes detect_lines text_marker track_boxes,
               markers = detect_boxes ++ detect_lines ++ [text_marker; track_boxes] /\
               forall i m,
                 detect_boxes !! i = Some m \/ detect_lines !! i = Some m ->
                 color m = channel_color i /\
                 (Forall (fun r => ~ on_channel i r) g -> action m = DELETE) /\
                 (Exists (on_channel i) g -> action m = ADD)
         end)
      (object_data_groups_ (demo_processed merge_sorter)) outs.
Proof.
  apply (draw_channel_action_and_color demo_hash_value (demo_processed merge_sorter)
           (object_data_groups_ (demo_processed merge_sorter)) []).
  vm_compute. reflexivity.
Defined.

Lemma draw_label_placement_witness :
  exists outs,
    demo_markers merge_sorter = concat outs /\
    Forall2
      (fun g markers =>
         match g with
         | [] => markers = []
         | front :: _ =>
             exists channel_markers text_marker track_boxes,
               markers = channel_markers ++ [text_marker; track_boxes] /\
               type text_marker = TEXT_VIEW_FACING /\
               action text_marker = ADD /\
               points text_marker = [] /\
               geometry_msgs.vz (scale text_marker) = 0.5%float /\
               pose_position text_marker
               = {| geometry_msgs.x := geometry_msgs.x (tracker_point front);
                    geometry_msgs.y := geometry_msgs.y (tracker_point front);
                    geometry_msgs.z := (geometry_msgs.z (tracker_point front) + 2.5)%float |}
         end)
      (object_data_groups_ (demo_processed merge_sorter)) outs.
Proof.
  apply (draw_label_placement demo_hash_value (demo_processed merge_sorter)
           (object_data_groups_ (demo_processed merge_sorter)) []).
  vm_compute. reflexivity.
Defined.

Lemma draw_marker_count_witness : length (demo_markers merge_sorter) = 12%nat.
Proof.
  apply (draw_marker_count demo_hash_value (demo_processed merge_sorter)
           (object_data_groups_ (demo_processed merge_sorter)) []).
  vm_compute. reflexivity.
Defined.

(** ** The life cycle, again *)

Section Life_cycle_again.

Context {sorter : StdSort}.

(** What [process] leaves alone. *)
Lemma process_fields (this this' : TrackerObjectDebugger) :
  process this = Ok this' ->
  frame_id_ this' = frame_id_ this /\
  channels_config_ this' = channels_config_ this /\
  is_initialized_ this' = is_initialized_ this /\
  message_time_ this' = message_time_ this /\
  markers_ this' = markers_ this.
Proof.
  intros Hp. destruct (is_initialized_ this) eqn:Hinit.
  - destruct (object_data_list_ this) as [|r l] eqn:El.
    + rewrite process_idle in Hp by (by right). injection Hp as <-. by rewrite Hinit.
    + destruct (process_runs this Hinit) as (us & gs & Hp' & _); [by rewrite El|].
      rewrite Hp' in Hp. by injection Hp as <-.
  - rewrite process_idle in Hp by (by left). injection Hp as <-. by rewrite Hinit.
Qed.

(** [evolves this this']: calls of [reset], [collect] and [process] lead from
    [this] to [this']. *)
Inductive evolves (this : TrackerObjectDebugger) : TrackerObjectDebugger -> Prop :=
| evolves_here : evolves this this
| evolves_reset this' : evolves this this' -> evolves this (reset this')
| evolves_collect message_time list_tracker detected_objects direct_assignment this' this'' :
    evolves this this' ->
    collect message_time list_tracker detected_objects direct_assignment this' = Ok this'' ->
    evolves this this''
| evolves_process this' this'' :
    evolves this this' -> process this' = Ok this'' -> evolves this this''.

(** X19: no call changes the frame or the channel configuration of the
    debugger, and none takes the flag back: once set by [collect], it stays
    set, also across [reset]. *)
Theorem evolves_keeps_configuration (this this' : TrackerObjectDebugger) :
  evolves this this' ->
  frame_id_ this' = frame_id_ this /\
  channels_config_ this' = channels_config_ this /\
  (is_initialized_ this = true -> is_initialized_ this' = true).
Proof.
  induction 1 as [|this' _ (IHf & IHc & IHi)
                  |? ? ? ? this' this'' _ (IHf & IHc & IHi) Hc
                  |this' this'' _ (IHf & IHc & IHi) Hp].
  - done.
  - done.
  - apply collect_Ok in Hc as (records & _ & ->). done.
  - apply process_fields in Hp as (-> & -> & -> & _). done.
Qed.

End Life_cycle_again.

(** The debugger after the first [collect] of the scene. *)
Definition demo_first_collect : TrackerObjectDebugger :=
  match collect 5 [car; bike] (demo_detections 0) {[ 0 := 0 ]} demo_debugger with
  | Ok d => d
  | Fail _ => demo_debugger
  end.

Lemma getMessage_before_collect_witness :
  exists this',
    run_idle_calls (sorter := merge_sorter) [call_process; call_reset; call_process]
      demo_debugger = Ok this' /\
    is_initialized_ this' = false /\
    getMessage demo_hash_value this' (demo_markers merge_sorter)
    = Ok (demo_markers merge_sorter).
Proof.
  apply (getMessage_before_collect (sorter := merge_sorter) demo_hash_value
           [call_process; call_reset; call_process] demo_debugger
           (demo_markers merge_sorter)).
  reflexivity.
Defined.

Lemma reachable_initialized_witness :
  is_initialized_ (demo_processed merge_sorter) = true.
Proof.
  apply (reachable_initialized (sorter := merge_sorter)).
  - apply (reachable_process demo_collected); [|vm_compute; reflexivity].
    apply (reachable_collect 5 [car; bike] (demo_detections 1) ∅ demo_first_collect);
      [|vm_compute; reflexivity].
    apply (reachable_collect 5 [car; bike] (demo_detections 0) {[ 0 := 0 ]} demo_debugger);
      [|vm_compute; reflexivity].
    apply reachable_new.
  - vm_compute. discriminate.
Defined.

Lemma evolves_keeps_configuration_witness :
  frame_id_ (reset (demo_processed merge_sorter)) = frame_id_ demo_first_collect /\
  channels_config_ (reset (demo_processed merge_sorter))
  = channels_config_ demo_first_collect /\
  (is_initialized_ demo_first_collect = true ->
   is_initialized_ (reset (demo_processed merge_sorter)) = true).
Proof.
  apply (evolves_keeps_configuration (sorter := merge_sorter)).
  apply evolves_reset.
  apply (evolves_process demo_first_collect demo_collected); [|vm_compute; reflexivity].
  apply (evolves_collect demo_first_collect 5 [car; bike] (demo_detections 1) ∅
           demo_first_collect); [|vm_compute; reflexivity].
  apply evolves_here.
Defined.

(** The first record of the group of the bike, the first of the two groups. *)
Definition demo_front_bike : ObjectData :=
  match object_data_groups_ (demo_processed merge_sorter) with
  | (front :: _) :: _ => front
  | _ => demo_front merge_sorter
  end.

Lemma existence_probability_text_none_shown_witness :
  existence_probability_text demo_debugger demo_front_bike
  = Ok ("total:" ++
        to_string (static_cast_int (total_existence_probability demo_front_bike * 100)%float)
        ++ newline ++ substr0 6 (uuid_str demo_front_bike))%string.
Proof.
  apply (existence_probability_text_none_shown demo_debugger demo_front_bike).
  - vm_compute. lia.
  - vm_compute. reflexivity.
Defined.

(** * The [std::sort] of libstdc++ *)

(** [std::sort] as GCC's libstdc++ has it ([bits/stl_algo.h]): an introsort,
    quicksort on the median of three down to ranges of 16 elements, then one
    insertion sort over the whole range. The range is a list of the
    positions the elements start at; the comparator compares the elements
    at two such positions. *)
Module libstdcxx.

Section Sort.

(** The comparator, on the elements of the range. *)
Variable less : nat -> nat -> bool.

(** [*(first + i)] *)
Definition elt (arr : list nat) (i : nat) : nat := nth i arr 0%nat.

(** [std::iter_swap] *)
Definition iter_swap (arr : list nat) (i j : nat) : list nat :=
  <[j := elt arr i]> (<[i := elt arr j]> arr).

(** [__move_median_to_first(result, a, b, c)] *)
Definition move_median_to_first (arr : list nat) (result a b c : nat) : list nat :=
  if less (elt arr a) (elt arr b) then
    if less (elt arr b) (elt arr c) then iter_swap arr result b
    else if less (elt arr a) (elt arr c) then iter_swap arr result c
    else iter_swap arr result a
  else if less (elt arr a) (elt arr c) then iter_swap arr result a
  else if less (elt arr b) (elt arr c) then iter_swap arr result c
  else iter_swap arr result b.

(** [while (comp(first, pivot)) ++first;] The loops that rely on a sentinel are
    bounded by the length of the range. *)
Fixpoint partition_up (fuel : nat) (arr : list nat) (first pivot : nat) : nat :=
  match fuel with
  | O => first
  | S fuel =>
      if less (elt arr first) (elt arr pivot) then partition_up fuel arr (S first) pivot
      else first
  end.

(** [while (comp(pivot, last)) --last;] *)
Fixpoint partition_down (fuel : nat) (arr : list nat) (last pivot : nat) : nat :=
  match fuel with
  | O => last
  | S fuel =>
      if less (elt arr pivot) (elt arr last) then partition_down fuel arr (last - 1) pivot
      else last
  end.

(** [__unguarded_partition(first, last, pivot)]: the range and the cut. *)
Fixpoint unguarded_partition (fuel : nat) (arr : list nat) (first last pivot : nat)
  : list nat * nat :=
  match fuel with
  | O => (arr, first)
  | S fuel =>
      let first := partition_up (length arr) arr first pivot in
      let last := (last - 1)%nat in
      let last := partition_down (length arr) arr last pivot in
      if negb (first <? last)%nat then (arr, first)
      else unguarded_partition fuel (iter_swap arr first last) (S first) last pivot
  end.

(** [__unguarded_partition_pivot(first, last)] *)
Definition unguarded_partition_pivot (arr : list nat) (first last : nat) : list nat * nat :=
  let mid := (first + (last - first) / 2)%nat in
  let arr := move_median_to_first arr first (first + 1) mid (last - 1) in
  unguarded_partition (length arr) arr (first + 1) last first.

(** [_S_threshold] *)
Definition S_threshold : nat := 16.

(** [__introsort_loop(first, last, depth_limit)]. At the depth limit the
    library sorts the range with a heap ([__partial_sort]), which is not
    modelled: [None]. *)
Fixpoint introsort_loop (depth_limit : nat) (arr : list nat) (first last : nat)
  : option (list nat) :=
  if (S_threshold <? last - first)%nat then
    match depth_limit with
    | O => None
    | S depth_limit =>
        let '(arr, cut) := unguarded_partition_pivot arr first last in
        match introsort_loop depth_limit arr cut last with
        | Some arr => introsort_loop depth_limit arr first cut
        | None => None
        end
    end
  else Some arr.

(** The loop of [__unguarded_linear_insert]. *)
Fixpoint unguarded_linear_insert_loop (fuel : nat) (arr : list nat) (val last : nat)
  : list nat :=
  match fuel with
  | O => <[last := val]> arr
  | S fuel =>
      let next := (last - 1)%nat in
      if less val (elt arr next) then
        unguarded_linear_insert_loop fuel (<[last := elt arr next]> arr) val next
      else <[last := val]> arr
  end.

(** [__unguarded_linear_insert(last)] *)
Definition unguarded_linear_insert (arr : list nat) (last : nat) : list nat :=
  unguarded_linear_insert_loop (length arr) arr (elt arr last) last.

(** [std::move_backward(first, i, i + 1)] *)
Definition move_backward (arr : list nat) (first i : nat) : list nat :=
  take (S first) arr ++ take (i - first) (drop first arr) ++ drop (S i) arr.

(** One iteration of [__insertion_sort]. *)
Definition insertion_step (first : nat) (arr : list nat) (i : nat) : list nat :=
  if less (elt arr i) (elt arr first) then
    <[first := elt arr i]> (move_backward arr first i)
  else unguarded_linear_insert arr i.

(** [__insertion_sort(first, last)] *)
Definition insertion_sort (arr : list nat) (first last : nat) : list nat :=
  fold_left (insertion_step first) (seq (S first) (last - S first)) arr.

(** [__unguarded_insertion_sort(first, last)] *)
Definition unguarded_insertion_sort (arr : list nat) (first last : nat) : list nat :=
  fold_left unguarded_linear_insert (seq first (last - first)) arr.

(** [__final_insertion_sort(first, last)] *)
Definition final_insertion_sort (arr : list nat) (first last : nat) : list nat :=
  if (S_threshold <? last - first)%nat then
    unguarded_insertion_sort (insertion_sort arr first (first + S_threshold))
      (first + S_threshold) last
  else insertion_sort arr first last.

(** [std::__sort] on a range of [n] elements, each named by the position it
    starts at: the positions in the order the sort leaves them. *)
Definition sort_positions (n : nat) : option (list nat) :=
  let arr := seq 0 n in
  if (n =? 0)%nat then Some arr
  else
    match introsort_loop (Nat.log2 n * 2) arr 0 n with
    | Some arr => Some (final_insertion_sort arr 0 n)
    | None => None
    end.
End Sort.

End libstdcxx.

(** The comparator on positions of [l]. *)
Definition positions_less {A : Type} (comp : A -> A -> bool) (l : list A) (i j : nat)
  : bool :=
  match l !! i, l !! j with
  | Some a, Some b => comp a b
  | _, _ => false
  end.

(** The elements at the positions. *)
Definition elements_at {A : Type} (l : list A) (positions : list nat) : list A :=
  omap (fun i => l !! i) positions.

(** [std::sort] of libstdc++ on [l]. The result of the algorithm is checked
    to be a rearrangement in order, which gives the contract of [std::sort]
    without a proof of the algorithm; were the check to fail, or the depth
    limit reached, the merge sort stands in. *)
Definition libstdcxx_sort {A : Type} (comp : A -> A -> bool) (l : list A) : list A :=
  match libstdcxx.sort_positions (positions_less comp l) (length l) with
  | Some positions =>
      if decide (merge_sort le positions = seq 0 (length l)) then
        if @Sorted_dec A (fun a b => comp b a = false)
             (fun a b => decide (comp b a = false)) (elements_at l positions)
        then elements_at l positions
        else merge_sort_by comp l
      else merge_sort_by comp l
  | None => merge_sort_by comp l
  end.

Lemma elements_at_seq_from {A : Type} (k l : list A) :
  elements_at (k ++ l) (seq (length k) (length l)) = l.
Proof.
  revert k. induction l as [|a l IH]; intros k; [done|].
  cbn [length seq]. unfold elements_at. cbn [omap list_omap].
  rewrite list_lookup_middle by done. f_equal.
  specialize (IH (k ++ [a])). rewrite length_app, Nat.add_1_r, <- app_assoc in IH.
  exact IH.
Qed.

Lemma elements_at_seq {A : Type} (l : list A) : elements_at l (seq 0 (length l)) = l.
Proof. exact (elements_at_seq_from [] l). Qed.

Lemma libstdcxx_sort_Permutation {A : Type} (comp : A -> A -> bool) (l : list A) :
  libstdcxx_sort comp l ≡ₚ l.
Proof.
  unfold libstdcxx_sort.
  destruct (libstdcxx.sort_positions _ _) as [positions|];
    [|apply merge_sort_by_Permutation].
  destruct (decide _) as [Hperm|]; [|apply merge_sort_by_Permutation].
  destruct (Sorted_dec _ _); [|apply merge_sort_by_Permutation].
  rewrite <- (elements_at_seq l) at 2. unfold elements_at. f_equiv.
  rewrite <- Hperm. symmetry. apply merge_sort_Permutation.
Qed.

Lemma libstdcxx_sort_sorted {A : Type} (comp : A -> A -> bool) (l : list A) :
  StrictWeakOrder comp -> sorted_by comp (libstdcxx_sort comp l).
Proof.
  intros Hc. unfold libstdcxx_sort.
  destruct (libstdcxx.sort_positions _ _) as [positions|];
    [|by apply merge_sort_by_sorted].
  destruct (decide _) as [Hperm|]; [|by apply merge_sort_by_sorted].
  destruct (Sorted_dec _ _) as [Hsorted|]; [|by apply merge_sort_by_sorted].
  unfold sorted_by.
  by apply (Sorted_StronglySorted _ (Transitive0 := swo_not_after_transitive comp Hc)).
Qed.

Definition libstdcxx_sorter : StdSort := {|
  std_sort := @libstdcxx_sort;
  std_sort_Permutation := @libstdcxx_sort_Permutation;
  std_sort_sorted := @libstdcxx_sort_sorted |}.

(** ** A larger scene: twenty trackers on two channels *)

(** Twenty trackers with the identifiers 1 to 20. *)
Definition fleet : list Tracker :=
  (fun k =>
     demo_tracker (N.of_nat (S k)) (uuidToString (N.of_nat (S k)))
       (demo_point 0 0 0) [0.5; 0.5]%float 0.5%float)
    <$> seq 0 20.

(** The debugger after [collect] for channel 0, then for channel 1, nothing
    being associated: forty records, the twenty of channel 0 first. *)
Definition fleet_collected : TrackerObjectDebugger :=
  match
    (let* d := collect 5 fleet (demo_detections 0) ∅ demo_debugger in
     collect 5 fleet (demo_detections 1) ∅ d)
  with
  | Ok d => d
  | Fail _ => demo_debugger
  end.

Definition fleet_processed : TrackerObjectDebugger :=
  match process (sorter := libstdcxx_sorter) fleet_collected with
  | Ok d => d
  | Fail _ => demo_debugger
  end.

(** Where the forty records stand after the sort, by the position each had
    before it. *)
Definition fleet_positions : list nat :=
  [ 0; 20; 1; 21; 22; 2; 23; 3; 4; 24; 5; 25; 6; 26; 7; 27; 28; 8; 29; 9;
    30; 10; 31; 11; 12; 32; 13; 33; 14; 34; 15; 35; 16; 36; 17; 37; 18; 38;
    19; 39 ]%nat.

Example fleet_collected_records :
  map (fun r => (uuid r, channel_id r)) (object_data_list_ fleet_collected)
  = ((fun k => (N.of_nat (S k), 0)) <$> seq 0 20)
    ++ ((fun k => (N.of_nat (S k), 1)) <$> seq 0 20).
Proof. vm_compute. reflexivity. Qed.

(** The positions as the sort of libstdc++ leaves them: the depth limit is
    not reached, and the records of the trackers 3, 4, 9, 10, 11 and 12 have
    changed places (22 before 2, 23 before 3, ...). *)
Example fleet_sort_positions :
  libstdcxx.sort_positions
    (positions_less uuid_less (object_data_list_ fleet_collected)) 40
  = Some fleet_positions.
Proof. vm_compute. reflexivity. Qed.

(** The list [process] leaves is the records at these positions. *)
Example fleet_processed_records :
  process (sorter := libstdcxx_sorter) fleet_collected = Ok fleet_processed /\
  object_data_list_ fleet_processed
  = elements_at (object_data_list_ fleet_collected) fleet_positions /\
  map (fun r => (uuid r, channel_id r)) (object_data_list_ fleet_processed)
  = [ (1%N, 0); (1%N, 1); (2%N, 0); (2%N, 1); (3%N, 1); (3%N, 0); (4%N, 1); (4%N, 0);
      (5%N, 0); (5%N, 1); (6%N, 0); (6%N, 1); (7%N, 0); (7%N, 1); (8%N, 0); (8%N, 1);
      (9%N, 1); (9%N, 0); (10%N, 1); (10%N, 0); (11%N, 1); (11%N, 0); (12%N, 1);
      (12%N, 0); (13%N, 0); (13%N, 1); (14%N, 0); (14%N, 1); (15%N, 0); (15%N, 1);
      (16%N, 0); (16%N, 1); (17%N, 0); (17%N, 1); (18%N, 0); (18%N, 1); (19%N, 0);
      (19%N, 1); (20%N, 0); (20%N, 1) ].
Proof. vm_compute. repeat split; reflexivity. Qed.

(** The tracker 3: its records as accumulated, channel 0 then channel 1,
    and its group. *)
Example fleet_group_of_tracker_3 :
  map channel_id (filter (fun r => uuid r = 3%N) (object_data_list_ fleet_collected))
  = [0; 1] /\
  map (map channel_id) (object_data_groups_ fleet_processed) !! 2%nat = Some [1; 0].
Proof. vm_compute. split; reflexivity. Qed.

(** C3 as the claim words it does not hold of the program: with the
    [std::sort] of libstdc++, after [collect] for channel 0 and for channel 1
    on twenty trackers, the group of the tracker 3 holds its record of
    channel 1 before its record of channel 0, against the order they were
    accumulated in. *)
Lemma process_std_sort_not_stable :
  ~ (forall this this' : TrackerObjectDebugger,
        is_initialized_ this = true ->
        process (sorter := libstdcxx_sorter) this = Ok this' ->
        forall u,
          filter (fun r => uuid r = u) (concat (object_data_groups_ this'))
          = filter (fun r => uuid r = u) (object_data_list_ this)).
Proof.
  intros Hstable.
  assert (process (sorter := libstdcxx_sorter) fleet_collected = Ok fleet_processed)
    as Hp by (vm_compute; reflexivity).
  specialize (Hstable fleet_collected _ eq_refl Hp 3%N).
  apply (f_equal (map channel_id)) in Hstable.
  vm_compute in Hstable. discriminate Hstable.
Qed.

(** C10 as the claim words it, with "only", does not hold: [draw] returns
    on a group whose second record, not associated, names no channel of the
    configuration and has no probabilities at all. *)
Lemma draw_total_outside_the_precondition :
  ~ (forall (hash_value : boost_uuid -> Z) (this : TrackerObjectDebugger)
            (object_data_groups : list (list ObjectData)) (marker_array : MarkerArray),
        (exists out, draw hash_value this object_data_groups marker_array = Ok out) ->
        Forall
          (Forall
             (fun r =>
                0 <= channel_id r < Z.of_nat (length (channels_config_ this)) /\
                (length (channels_config_ this) <= length (existence_vector r))%nat))
          object_data_groups).
Proof.
  intros Honly.
  set (front :=
         {| time := 5; uuid := 7%N; uuid_str := "07"; channel_id := 0;
            tracker_point := demo_point 0 0 0; detection_point := demo_point 1 0 0;
            is_associated := true; existence_vector := [0.5; 0.5]%float;
            total_existence_probability := 0.5 |}).
  set (second :=
         {| time := 5; uuid := 7%N; uuid_str := "07"; channel_id := 7;
            tracker_point := demo_point 0 0 0; detection_point := demo_point 0 0 0;
            is_associated := false; existence_vector := [];
            total_existence_probability := 0.5 |}).
  assert (exists out, draw demo_hash_value demo_debugger [[front; second]] [] = Ok out)
    as Hdraw by (eexists; vm_compute; reflexivity).
  apply Honly in Hdraw.
  apply Forall_cons in Hdraw as [Hgroup _].
  apply Forall_cons in Hgroup as [_ Hrest].
  apply Forall_cons in Hrest as [[Hchannel _] _].
  cbn in Hchannel. lia.
Qed.
